(** * Sensory Profile 2 backend: scoring engine and consistency validator

    A shallow embedding of
    - the scoring service (mapResponseToValue, sectionMap, quadrantMap,
      validateItemId, isExcludedFromScoring, calculateSectionScores,
      calculateQuadrantScores, calculateScores, getExpectedScoreRanges,
      validateScores), and
    - the DataConsistencyValidator (validateResponseCompleteness,
      throwIfInvalid),
    together with the part of the JavaScript runtime these functions
    observe: numbers used as item ids, strings, property lookup on object
    literals, the [+=] operator, [Set], [Array.prototype.join], and
    numbers as doubles with their conversions from and to strings. *)

From Stdlib Require Import ZArith List String Ascii Bool Lia Floats.
From Stdlib Require Import Numbers.DecimalString.
From Stdlib Require Import Sorting.Permutation.
Import ListNotations.

Open Scope string_scope.
Open Scope Z_scope.

(** ** The JavaScript runtime, as far as the program observes it *)

Module JS.

(** A double quote character, as it appears inside template literals. *)
Definition dquote : string := String (ascii_of_nat 34) EmptyString.

(** Strings are kept as their UTF-8 bytes. *)
Definition bytes (l : list N) : string :=
  fold_right (fun n s => String (ascii_of_N n) s) EmptyString l.

(** Decimal rendering of an integer, as [String(n)] gives it. *)
Definition Z_to_string (z : Z) : string :=
  NilZero.string_of_int (Z.to_int z).

(** *** Numbers

    A [number] is an integer, a finite non-integer lying strictly between
    [floor] and [floor + 1], [NaN], or an infinity.  A non-integer carries
    its own rendering [shown], the text [String(x)] produces; an integer is
    rendered in decimal (what JavaScript does below 10^21). *)
Inductive number : Type :=
| NInt (z : Z)
| NFrac (floor : Z) (shown : string)
| NNaN
| NInf (negative : bool).

Definition num_to_string (x : number) : string :=
  match x with
  | NInt z => Z_to_string z
  | NFrac _ shown => shown
  | NNaN => "NaN"
  | NInf false => "Infinity"
  | NInf true => "-Infinity"
  end.

(** [x >= m], [x <= m], [x < m], [x > m] against an integer constant. *)
Definition num_ge (x : number) (m : Z) : bool :=
  match x with
  | NInt z => m <=? z
  | NFrac fl _ => m <=? fl
  | NNaN => false
  | NInf negative => negb negative
  end.

Definition num_le (x : number) (m : Z) : bool :=
  match x with
  | NInt z => z <=? m
  | NFrac fl _ => fl <? m
  | NNaN => false
  | NInf negative => negative
  end.

Definition num_lt (x : number) (m : Z) : bool :=
  match x with
  | NInt z => z <? m
  | NFrac fl _ => fl <? m
  | NNaN => false
  | NInf negative => negative
  end.

Definition num_gt (x : number) (m : Z) : bool :=
  match x with
  | NInt z => m <? z
  | NFrac fl _ => m <=? fl
  | NNaN => false
  | NInf negative => negb negative
  end.

(** [Number.isInteger]. *)
Definition isInteger (x : number) : bool :=
  match x with
  | NInt _ => true
  | _ => false
  end.

(** [x === m] for an integer constant [m]. *)
Definition num_is (x : number) (m : Z) : bool :=
  match x with
  | NInt z => z =? m
  | _ => false
  end.

(** Strict equality [===] between two numbers: [NaN] differs from itself. *)
Definition strict_eq (x y : number) : bool :=
  match x, y with
  | NInt a, NInt b => a =? b
  | NFrac a s, NFrac b t => (a =? b) && String.eqb s t
  | NInf a, NInf b => Bool.eqb a b
  | _, _ => false
  end.

(** SameValueZero, the equality of [Set]: like [===] but [NaN] equals
    [NaN]. *)
Definition same_value_zero (x y : number) : bool :=
  match x, y with
  | NNaN, NNaN => true
  | _, _ => strict_eq x y
  end.

(** *** Arrays *)

(** [[...new Set(a)]]: the distinct elements of [a], each at the place of
    its first occurrence. *)
Fixpoint set_insert {A : Type} (eqb : A -> A -> bool) (seen : list A) (x : A)
  : list A :=
  match seen with
  | [] => [x]
  | y :: rest => if eqb y x then seen else y :: set_insert eqb rest x
  end.

Definition set_of {A : Type} (eqb : A -> A -> bool) (a : list A) : list A :=
  fold_left (set_insert eqb) a [].

(** [a.indexOf(x)], with [None] for -1. *)
Fixpoint indexOf (a : list number) (x : number) : option nat :=
  match a with
  | [] => None
  | y :: rest =>
      if strict_eq y x then Some O
      else match indexOf rest x with
           | Some i => Some (S i)
           | None => None
           end
  end.

(** [a.join(sep)] on an array of strings. *)
Fixpoint join (sep : string) (a : list string) : string :=
  match a with
  | [] => EmptyString
  | [x] => x
  | x :: rest => x ++ sep ++ join sep rest
  end.

(** [a.filter((x, index) => p x index)]. *)
Fixpoint filter_indexed {A : Type} (p : A -> nat -> bool) (i : nat) (a : list A)
  : list A :=
  match a with
  | [] => []
  | x :: rest =>
      if p x i then x :: filter_indexed p (S i) rest
      else filter_indexed p (S i) rest
  end.

(** *** Strings *)

(** [toLowerCase] on Basic Latin and on the Latin-1 Supplement (two-byte
    sequences led by 0xC3: U+00C0..U+00DE except U+00D7 map to
    U+00E0..U+00FE).  Other characters are left as they are: none of them
    lowercases into a letter that occurs in a key of [responseMap] or in
    a lowercase member name of [Object.prototype], so the lookup of a
    normalized label is not affected. *)
Definition lower_ascii (c : ascii) : ascii :=
  let n := N_of_ascii c in
  if ((65 <=? n) && (n <=? 90))%N then ascii_of_N (n + 32) else c.

Definition lower_latin1 (d : ascii) : ascii :=
  let n := N_of_ascii d in
  if ((128 <=? n) && (n <=? 158) && negb (n =? 151))%N
  then ascii_of_N (n + 32) else d.

Fixpoint toLowerCase (s : string) : string :=
  match s with
  | EmptyString => EmptyString
  | String c rest =>
      if (N_of_ascii c =? 195)%N then
        match rest with
        | EmptyString => String c EmptyString
        | String d rest' => String c (String (lower_latin1 d) (toLowerCase rest'))
        end
      else String (lower_ascii c) (toLowerCase rest)
  end.

(** The white space and line terminator characters that [trim] removes. *)
Definition white_space : list string :=
  map bytes
    [ [9]; [10]; [11]; [12]; [13]; [32];        (* TAB LF VT FF CR SP *)
      [194; 160];                               (* U+00A0 *)
      [225; 154; 128];                          (* U+1680 *)
      [226; 128; 128]; [226; 128; 129]; [226; 128; 130]; [226; 128; 131];
      [226; 128; 132]; [226; 128; 133]; [226; 128; 134]; [226; 128; 135];
      [226; 128; 136]; [226; 128; 137]; [226; 128; 138]; (* U+2000..U+200A *)
      [226; 128; 168]; [226; 128; 169];         (* U+2028 U+2029 *)
      [226; 128; 175];                          (* U+202F *)
      [226; 129; 159];                          (* U+205F *)
      [227; 128; 128];                          (* U+3000 *)
      [239; 187; 191] ]%N.                      (* U+FEFF *)

Fixpoint drop_prefix (p s : string) : option string :=
  match p, s with
  | EmptyString, _ => Some s
  | String a p', String b s' => if Ascii.eqb a b then drop_prefix p' s' else None
  | String _ _, EmptyString => None
  end.

Fixpoint drop_first (tokens : list string) (s : string) : option string :=
  match tokens with
  | [] => None
  | t :: rest =>
      match drop_prefix t s with
      | Some s' => Some s'
      | None => drop_first rest s
      end
  end.

Fixpoint drop_leading (tokens : list string) (fuel : nat) (s : string) : string :=
  match fuel with
  | O => s
  | S fuel' =>
      match drop_first tokens s with
      | Some s' => drop_leading tokens fuel' s'
      | None => s
      end
  end.

Definition string_rev (s : string) : string :=
  string_of_list_ascii (rev (list_ascii_of_string s)).

Definition trimStart (s : string) : string :=
  drop_leading white_space (String.length s) s.

Definition trimEnd (s : string) : string :=
  string_rev
    (drop_leading (map string_rev white_space) (String.length s) (string_rev s)).

Definition trim (s : string) : string := trimEnd (trimStart s).

(** *** Values and property lookup

    The values the scoring code handles: numbers (integers here), strings,
    built-in function objects and the object [Object.prototype]. *)
Inductive value : Type :=
| VNumber (n : Z)
| VString (s : string)
| VFunction (name : string)
| VObjectPrototype.

(** [String(v)], as the [+] operator applies it to a non-number operand. *)
Definition to_string (v : value) : string :=
  match v with
  | VNumber n => Z_to_string n
  | VString s => s
  | VFunction name => "function " ++ name ++ "() { [native code] }"
  | VObjectPrototype => "[object Object]"
  end.

(** [a + b]: numeric addition on two numbers, string concatenation as soon
    as one operand is not a number. *)
Definition plus (a b : value) : value :=
  match a, b with
  | VNumber x, VNumber y => VNumber (x + y)
  | _, _ => VString (to_string a ++ to_string b)
  end.

(** [v === 0]. *)
Definition is_zero (v : value) : bool :=
  match v with
  | VNumber n => n =? 0
  | _ => false
  end.

(** An object literal's own properties. *)
Fixpoint own_property {A : Type} (props : list (string * A)) (key : string)
  : option A :=
  match props with
  | [] => None
  | (k, v) :: rest => if String.eqb k key then Some v else own_property rest key
  end.

(** What every object literal inherits from [Object.prototype]. *)
Definition Object_prototype : list (string * value) :=
  [ ("constructor", VFunction "Object");
    ("__defineGetter__", VFunction "__defineGetter__");
    ("__defineSetter__", VFunction "__defineSetter__");
    ("hasOwnProperty", VFunction "hasOwnProperty");
    ("__lookupGetter__", VFunction "__lookupGetter__");
    ("__lookupSetter__", VFunction "__lookupSetter__");
    ("isPrototypeOf", VFunction "isPrototypeOf");
    ("propertyIsEnumerable", VFunction "propertyIsEnumerable");
    ("toString", VFunction "toString");
    ("valueOf", VFunction "valueOf");
    ("__proto__", VObjectPrototype);
    ("toLocaleString", VFunction "toLocaleString") ].

(** [obj[key]] on an object literal whose own properties are numbers:
    the own property if there is one, else the inherited one, else
    [undefined] ([None]). *)
Definition get (obj : list (string * Z)) (key : string) : option value :=
  match own_property obj key with
  | Some n => Some (VNumber n)
  | None => own_property Object_prototype key
  end.

(** The outcome of a call: a returned value or a thrown [Error] with its
    message. *)
Inductive completion (A : Type) : Type :=
| Return (a : A)
| Throw (message : string).

Arguments Return {A} a.
Arguments Throw {A} message.

End JS.

Import JS.

(** *** Numbers as IEEE 754 doubles

    The scores that [validateScores] reads are JavaScript numbers:
    binary64 values, added and compared as the hardware does.  *)
Module Number.

(** The double nearest to an integer (ties to even): the value of an
    integer literal. *)
Definition ofZ (z : Z) : float :=
  SF2Prim (binary_normalize prec emax z 0 false).

(** The double nearest to [numerator / denominator], for a numerator
    that is not negative and a positive denominator.  The quotient is
    taken with 65 bits or more and a sticky bit, which rounds as the
    exact quotient does. *)
Definition ofRatio (negative : bool) (numerator denominator : Z) : float :=
  let k := Z.log2 denominator + 65 in
  let scaled := numerator * 2 ^ k in
  let sticky := if scaled mod denominator =? 0 then 0 else 1 in
  let m := 2 * (scaled / denominator) + sticky in
  SF2Prim (binary_normalize prec emax (if negative then - m else m) (- (k + 1)) negative).

(** **** Number::toString

    The digits are those of the integer [s] with the fewest digits for
    which [s * 10 ^ p] rounds to the number, the closest one when there
    are several. *)

(** The integer closest to [a / b], the even one of two. *)
Definition nearest (a b : Z) : Z :=
  let q := a / b in
  let r := a mod b in
  if 2 * r <? b then q
  else if b <? 2 * r then q + 1
  else if Z.even q then q else q + 1.

Definition ceiling (a b : Z) : Z := - ((- a) / b).

(** The integers [s] with [s * 10 ^ p] in the rounding interval of
    [m * 2 ^ e]: the one to print, if there is any. *)
Definition candidate (m e p : Z) : option Z :=
  let unit := 2 ^ Z.max (e - 2) 0 * 10 ^ Z.max (- p) 0 in
  let d := 2 ^ Z.max (2 - e) 0 * 10 ^ Z.max p 0 in
  let below := if (m =? 2 ^ 52) && (-1074 <? e) then 1 else 2 in
  let low := (4 * m - below) * unit in
  let high := (4 * m + 2) * unit in
  let first := if Z.even m then ceiling low d else low / d + 1 in
  let last := if Z.even m then high / d else ceiling high d - 1 in
  if (first <=? last) && (1 <=? last)
  then Some (Z.max first (Z.min last (nearest (4 * m * unit) d)))
  else None.

Fixpoint shortest (steps : nat) (m e p : Z) : Z * Z :=
  match candidate m e p with
  | Some s => (s, p)
  | None =>
      match steps with
      | O => if 0 <=? e then (m * 2 ^ e, 0) else (m * 5 ^ (- e), e)
      | S steps' => shortest steps' m e (p - 1)
      end
  end.

Fixpoint zeros (n : nat) : string :=
  match n with
  | O => EmptyString
  | S n' => String "0" (zeros n')
  end.

(** The digits [s] and the exponent [p] laid out as the standard says. *)
Definition layout (s p : Z) : string :=
  let digits := Z_to_string s in
  let k := Z.of_nat (String.length digits) in
  let n := k + p in
  if (k <=? n) && (n <=? 21) then
    digits ++ zeros (Z.to_nat (n - k))
  else if (0 <? n) && (n <=? 21) then
    substring 0 (Z.to_nat n) digits ++ "."
    ++ substring (Z.to_nat n) (Z.to_nat (k - n)) digits
  else if (-6 <? n) && (n <=? 0) then
    "0." ++ zeros (Z.to_nat (- n)) ++ digits
  else
    (if k =? 1 then digits
     else substring 0 1 digits ++ "." ++ substring 1 (Z.to_nat (k - 1)) digits)
    ++ "e" ++ (if 0 <? n - 1 then "+" else "-") ++ Z_to_string (Z.abs (n - 1)).

Definition toString (x : float) : string :=
  match Prim2SF x with
  | S754_nan => "NaN"
  | S754_zero _ => "0"
  | S754_infinity false => "Infinity"
  | S754_infinity true => "-Infinity"
  | S754_finite negative m e =>
      let start := (Z.pos (digits2_pos m) + e) * 30103 / 100000 + 2 in
      let '(s, p) := shortest 1100 (Z.pos m) e start in
      (if negative then "-" else EmptyString) ++ layout s p
  end.

(** **** StringToNumber *)

Definition digitValue (radix : Z) (c : ascii) : option Z :=
  let n := Z.of_nat (nat_of_ascii c) in
  let v :=
    if (48 <=? n) && (n <=? 57) then n - 48
    else if (97 <=? n) && (n <=? 102) then n - 87
    else if (65 <=? n) && (n <=? 70) then n - 55
    else 16 in
  if v <? radix then Some v else None.

(** The longest run of digits at the start of a string: its value, its
    length and what follows. *)
Fixpoint digitRun (radix : Z) (value : Z) (count : Z) (s : string)
  : Z * Z * string :=
  match s with
  | EmptyString => (value, count, s)
  | String c rest =>
      match digitValue radix c with
      | Some v => digitRun radix (value * radix + v) (count + 1) rest
      | None => (value, count, s)
      end
  end.

(** [0x], [0o] and [0b] literals: digits of the radix up to the end. *)
Definition nonDecimal (radix : Z) (s : string) : float :=
  let '(value, count, rest) := digitRun radix 0 0 s in
  if (0 <? count) && String.eqb rest EmptyString then ofZ value else nan.

Definition signedInteger (s : string) : option Z :=
  let '(negative, body) :=
    match s with
    | String "+" rest => (false, rest)
    | String "-" rest => (true, rest)
    | _ => (false, s)
    end in
  let '(value, count, rest) := digitRun 10 0 0 body in
  if (0 <? count) && String.eqb rest EmptyString
  then Some (if negative then - value else value)
  else None.

Definition unsignedDecimal (negative : bool) (s : string) : float :=
  if String.eqb s "Infinity" then (if negative then neg_infinity else infinity)
  else
    let '(whole, wholeCount, afterWhole) := digitRun 10 0 0 s in
    let '(mantissa, fractionCount, afterFraction) :=
      match afterWhole with
      | String "." rest =>
          let '(value, count, rest') := digitRun 10 whole 0 rest in
          (value, count, rest')
      | _ => (whole, 0, afterWhole)
      end in
    if wholeCount + fractionCount =? 0 then nan
    else
      let exponent :=
        match afterFraction with
        | EmptyString => Some 0
        | String "e" rest | String "E" rest => signedInteger rest
        | _ => None
        end in
      match exponent with
      | None => nan
      | Some x =>
          let scale := x - fractionCount in
          ofRatio negative (mantissa * 10 ^ Z.max scale 0) (10 ^ Z.max (- scale) 0)
      end.

Definition ofString (s : string) : float :=
  match trim s with
  | EmptyString => zero
  | String "0" (String "x" rest) | String "0" (String "X" rest) => nonDecimal 16 rest
  | String "0" (String "o" rest) | String "0" (String "O" rest) => nonDecimal 8 rest
  | String "0" (String "b" rest) | String "0" (String "B" rest) => nonDecimal 2 rest
  | String "+" rest => unsignedDecimal false rest
  | String "-" rest => unsignedDecimal true rest
  | t => unsignedDecimal false t
  end.

End Number.

(** ** The scoring service *)

(** The keys of [SectionScores] and of [QuadrantScores]. *)
Module SectionKey.
Inductive t : Type :=
| auditoryProcessing
| visualProcessing
| tactileProcessing
| movementProcessing
| bodyPositionProcessing
| oralSensitivityProcessing
| behavioralResponses
| socialEmotionalResponses
| attentionResponses.

Definition name (k : t) : string :=
  match k with
  | auditoryProcessing => "auditoryProcessing"
  | visualProcessing => "visualProcessing"
  | tactileProcessing => "tactileProcessing"
  | movementProcessing => "movementProcessing"
  | bodyPositionProcessing => "bodyPositionProcessing"
  | oralSensitivityProcessing => "oralSensitivityProcessing"
  | behavioralResponses => "behavioralResponses"
  | socialEmotionalResponses => "socialEmotionalResponses"
  | attentionResponses => "attentionResponses"
  end.

Definition eqb (a b : t) : bool := String.eqb (name a) (name b).

Definition all : list t :=
  [ auditoryProcessing; visualProcessing; tactileProcessing;
    movementProcessing; bodyPositionProcessing; oralSensitivityProcessing;
    behavioralResponses; socialEmotionalResponses; attentionResponses ].
End SectionKey.

Module QuadrantKey.
Inductive t : Type :=
| registrationIncreased
| sensorySeek
| sensorySensitivity
| sensoryAvoidance.
End QuadrantKey.

(** [SectionScores]: the fields are declared as numbers; [A] is what they
    hold at run time. *)
Record SectionScores (A : Type) : Type := {
  auditoryProcessing : A;
  visualProcessing : A;
  tactileProcessing : A;
  movementProcessing : A;
  bodyPositionProcessing : A;
  oralSensitivityProcessing : A;
  behavioralResponses : A;
  socialEmotionalResponses : A;
  attentionResponses : A
}.

Arguments auditoryProcessing {A} _.
Arguments visualProcessing {A} _.
Arguments tactileProcessing {A} _.
Arguments movementProcessing {A} _.
Arguments bodyPositionProcessing {A} _.
Arguments oralSensitivityProcessing {A} _.
Arguments behavioralResponses {A} _.
Arguments socialEmotionalResponses {A} _.
Arguments attentionResponses {A} _.

Record QuadrantScores (A : Type) : Type := {
  registrationIncreased : A;
  sensorySeek : A;
  sensorySensitivity : A;
  sensoryAvoidance : A
}.

Arguments registrationIncreased {A} _.
Arguments sensorySeek {A} _.
Arguments sensorySensitivity {A} _.
Arguments sensoryAvoidance {A} _.

Record AssessmentResults (A : Type) : Type := {
  sectionScores : SectionScores A;
  quadrantScores : QuadrantScores A;
  totalItems : Z;
  validResponses : Z;
  invalidResponses : list string
}.

Arguments sectionScores {A} _.
Arguments quadrantScores {A} _.
Arguments totalItems {A} _.
Arguments validResponses {A} _.
Arguments invalidResponses {A} _.

(** [scores[section]] and [scores[section] = v]. *)
Definition section_get {A : Type} (s : SectionScores A) (k : SectionKey.t) : A :=
  match k with
  | SectionKey.auditoryProcessing => auditoryProcessing s
  | SectionKey.visualProcessing => visualProcessing s
  | SectionKey.tactileProcessing => tactileProcessing s
  | SectionKey.movementProcessing => movementProcessing s
  | SectionKey.bodyPositionProcessing => bodyPositionProcessing s
  | SectionKey.oralSensitivityProcessing => oralSensitivityProcessing s
  | SectionKey.behavioralResponses => behavioralResponses s
  | SectionKey.socialEmotionalResponses => socialEmotionalResponses s
  | SectionKey.attentionResponses => attentionResponses s
  end.

Definition section_set {A : Type} (s : SectionScores A) (k : SectionKey.t) (v : A)
  : SectionScores A :=
  let pick (k' : SectionKey.t) := if SectionKey.eqb k k' then v else section_get s k' in
  {| auditoryProcessing := pick SectionKey.auditoryProcessing;
     visualProcessing := pick SectionKey.visualProcessing;
     tactileProcessing := pick SectionKey.tactileProcessing;
     movementProcessing := pick SectionKey.movementProcessing;
     bodyPositionProcessing := pick SectionKey.bodyPositionProcessing;
     oralSensitivityProcessing := pick SectionKey.oralSensitivityProcessing;
     behavioralResponses := pick SectionKey.behavioralResponses;
     socialEmotionalResponses := pick SectionKey.socialEmotionalResponses;
     attentionResponses := pick SectionKey.attentionResponses |}.

Definition quadrant_get {A : Type} (q : QuadrantScores A) (k : QuadrantKey.t) : A :=
  match k with
  | QuadrantKey.registrationIncreased => registrationIncreased q
  | QuadrantKey.sensorySeek => sensorySeek q
  | QuadrantKey.sensorySensitivity => sensorySensitivity q
  | QuadrantKey.sensoryAvoidance => sensoryAvoidance q
  end.

Definition quadrant_set {A : Type} (q : QuadrantScores A) (k : QuadrantKey.t) (v : A)
  : QuadrantScores A :=
  match k with
  | QuadrantKey.registrationIncreased =>
      {| registrationIncreased := v; sensorySeek := sensorySeek q;
         sensorySensitivity := sensorySensitivity q;
         sensoryAvoidance := sensoryAvoidance q |}
  | QuadrantKey.sensorySeek =>
      {| registrationIncreased := registrationIncreased q; sensorySeek := v;
         sensorySensitivity := sensorySensitivity q;
         sensoryAvoidance := sensoryAvoidance q |}
  | QuadrantKey.sensorySensitivity =>
      {| registrationIncreased := registrationIncreased q;
         sensorySeek := sensorySeek q; sensorySensitivity := v;
         sensoryAvoidance := sensoryAvoidance q |}
  | QuadrantKey.sensoryAvoidance =>
      {| registrationIncreased := registrationIncreased q;
         sensorySeek := sensorySeek q;
         sensorySensitivity := sensorySensitivity q; sensoryAvoidance := v |}
  end.

(** [Object.entries(scores)]: the nine fields in the order of the object
    literal that [calculateSectionScores] builds. *)
Definition section_entries {A : Type} (s : SectionScores A)
  : list (SectionKey.t * A) :=
  map (fun k => (k, section_get s k)) SectionKey.all.

(** *** mapResponseToValue *)

(** The own properties of the [responseMap] object literal. *)
Definition responseMap : list (string * Z) :=
  [ (* Official Portuguese responses from Sensory Profile 2 form *)
    ("quase sempre", 5);
    ("frequentemente", 4);
    ("metade do tempo", 3);
    ("ocasionalmente", 2);
    ("quase nunca", 1);
    ("não se aplica", 0);
    (* English equivalents for international compatibility *)
    ("almost always", 5);
    ("frequently", 4);
    ("half the time", 3);
    ("occasionally", 2);
    ("almost never", 1);
    ("does not apply", 0);
    (* Legacy support *)
    ("always", 5);
    ("rarely", 2);
    ("never", 1) ].

Definition invalid_response_message (response : string) : string :=
  "Invalid response value: " ++ dquote ++ response ++ dquote
  ++ ". Expected: quase sempre, frequentemente, metade do tempo, ocasionalmente, quase nunca, não se aplica".

Definition mapResponseToValue (response : string) : completion value :=
  let normalizedResponse := trim (toLowerCase response) in
  match get responseMap normalizedResponse with
  | None => Throw (invalid_response_message response)
  | Some value => Return value
  end.

(** *** The item taxonomy *)

Definition sectionMap : list (Z * SectionKey.t) :=
  [ (* Processamento AUDITIVO (items 1-8) *)
    (1, SectionKey.auditoryProcessing); (2, SectionKey.auditoryProcessing);
    (3, SectionKey.auditoryProcessing); (4, SectionKey.auditoryProcessing);
    (5, SectionKey.auditoryProcessing); (6, SectionKey.auditoryProcessing);
    (7, SectionKey.auditoryProcessing); (8, SectionKey.auditoryProcessing);
    (* Processamento VISUAL (items 9-15): item 15 exists but is excluded *)
    (9, SectionKey.visualProcessing); (10, SectionKey.visualProcessing);
    (11, SectionKey.visualProcessing); (12, SectionKey.visualProcessing);
    (13, SectionKey.visualProcessing); (14, SectionKey.visualProcessing);
    (* Processamento do TATO (items 16-26) *)
    (16, SectionKey.tactileProcessing); (17, SectionKey.tactileProcessing);
    (18, SectionKey.tactileProcessing); (19, SectionKey.tactileProcessing);
    (20, SectionKey.tactileProcessing); (21, SectionKey.tactileProcessing);
    (22, SectionKey.tactileProcessing); (23, SectionKey.tactileProcessing);
    (24, SectionKey.tactileProcessing); (25, SectionKey.tactileProcessing);
    (26, SectionKey.tactileProcessing);
    (* Processamento de MOVIMENTOS (items 27-34) *)
    (27, SectionKey.movementProcessing); (28, SectionKey.movementProcessing);
    (29, SectionKey.movementProcessing); (30, SectionKey.movementProcessing);
    (31, SectionKey.movementProcessing); (32, SectionKey.movementProcessing);
    (33, SectionKey.movementProcessing); (34, SectionKey.movementProcessing);
    (* Processamento da POSICAO DO CORPO (items 35-42) *)
    (35, SectionKey.bodyPositionProcessing); (36, SectionKey.bodyPositionProcessing);
    (37, SectionKey.bodyPositionProcessing); (38, SectionKey.bodyPositionProcessing);
    (39, SectionKey.bodyPositionProcessing); (40, SectionKey.bodyPositionProcessing);
    (41, SectionKey.bodyPositionProcessing); (42, SectionKey.bodyPositionProcessing);
    (* Processamento de SENSIBILIDADE ORAL (items 43-52) *)
    (43, SectionKey.oralSensitivityProcessing); (44, SectionKey.oralSensitivityProcessing);
    (45, SectionKey.oralSensitivityProcessing); (46, SectionKey.oralSensitivityProcessing);
    (47, SectionKey.oralSensitivityProcessing); (48, SectionKey.oralSensitivityProcessing);
    (49, SectionKey.oralSensitivityProcessing); (50, SectionKey.oralSensitivityProcessing);
    (51, SectionKey.oralSensitivityProcessing); (52, SectionKey.oralSensitivityProcessing);
    (* CONDUTA associada ao processamento sensorial (items 53-61) *)
    (53, SectionKey.behavioralResponses); (54, SectionKey.behavioralResponses);
    (55, SectionKey.behavioralResponses); (56, SectionKey.behavioralResponses);
    (57, SectionKey.behavioralResponses); (58, SectionKey.behavioralResponses);
    (59, SectionKey.behavioralResponses); (60, SectionKey.behavioralResponses);
    (61, SectionKey.behavioralResponses);
    (* Respostas SOCIOEMOCIONAIS (items 62-75) *)
    (62, SectionKey.socialEmotionalResponses); (63, SectionKey.socialEmotionalResponses);
    (64, SectionKey.socialEmotionalResponses); (65, SectionKey.socialEmotionalResponses);
    (66, SectionKey.socialEmotionalResponses); (67, SectionKey.socialEmotionalResponses);
    (68, SectionKey.socialEmotionalResponses); (69, SectionKey.socialEmotionalResponses);
    (70, SectionKey.socialEmotionalResponses); (71, SectionKey.socialEmotionalResponses);
    (72, SectionKey.socialEmotionalResponses); (73, SectionKey.socialEmotionalResponses);
    (74, SectionKey.socialEmotionalResponses); (75, SectionKey.socialEmotionalResponses);
    (* Respostas de ATENCAO (items 76-86): item 86 exists but is excluded *)
    (76, SectionKey.attentionResponses); (77, SectionKey.attentionResponses);
    (78, SectionKey.attentionResponses); (79, SectionKey.attentionResponses);
    (80, SectionKey.attentionResponses); (81, SectionKey.attentionResponses);
    (82, SectionKey.attentionResponses); (83, SectionKey.attentionResponses);
    (84, SectionKey.attentionResponses); (85, SectionKey.attentionResponses) ].

Definition quadrantMap : list (Z * QuadrantKey.t) :=
  [ (* EX - Exploracao / Sensory Seeking *)
    (14, QuadrantKey.sensorySeek); (21, QuadrantKey.sensorySeek);
    (22, QuadrantKey.sensorySeek); (25, QuadrantKey.sensorySeek);
    (27, QuadrantKey.sensorySeek); (28, QuadrantKey.sensorySeek);
    (30, QuadrantKey.sensorySeek); (31, QuadrantKey.sensorySeek);
    (32, QuadrantKey.sensorySeek); (41, QuadrantKey.sensorySeek);
    (48, QuadrantKey.sensorySeek); (49, QuadrantKey.sensorySeek);
    (50, QuadrantKey.sensorySeek); (51, QuadrantKey.sensorySeek);
    (55, QuadrantKey.sensorySeek); (56, QuadrantKey.sensorySeek);
    (60, QuadrantKey.sensorySeek); (82, QuadrantKey.sensorySeek);
    (83, QuadrantKey.sensorySeek);
    (* EV - Esquiva / Sensory Avoidance *)
    (1, QuadrantKey.sensoryAvoidance); (2, QuadrantKey.sensoryAvoidance);
    (5, QuadrantKey.sensoryAvoidance); (15, QuadrantKey.sensoryAvoidance);
    (18, QuadrantKey.sensoryAvoidance); (58, QuadrantKey.sensoryAvoidance);
    (59, QuadrantKey.sensoryAvoidance); (61, QuadrantKey.sensoryAvoidance);
    (63, QuadrantKey.sensoryAvoidance); (64, QuadrantKey.sensoryAvoidance);
    (65, QuadrantKey.sensoryAvoidance); (66, QuadrantKey.sensoryAvoidance);
    (67, QuadrantKey.sensoryAvoidance); (68, QuadrantKey.sensoryAvoidance);
    (70, QuadrantKey.sensoryAvoidance); (71, QuadrantKey.sensoryAvoidance);
    (72, QuadrantKey.sensoryAvoidance); (74, QuadrantKey.sensoryAvoidance);
    (75, QuadrantKey.sensoryAvoidance); (81, QuadrantKey.sensoryAvoidance);
    (* SN - Sensibilidade / Sensory Sensitivity *)
    (3, QuadrantKey.sensorySensitivity); (6, QuadrantKey.sensorySensitivity);
    (9, QuadrantKey.sensorySensitivity); (13, QuadrantKey.sensorySensitivity);
    (16, QuadrantKey.sensorySensitivity); (19, QuadrantKey.sensorySensitivity);
    (20, QuadrantKey.sensorySensitivity); (44, QuadrantKey.sensorySensitivity);
    (45, QuadrantKey.sensorySensitivity); (46, QuadrantKey.sensorySensitivity);
    (47, QuadrantKey.sensorySensitivity); (52, QuadrantKey.sensorySensitivity);
    (69, QuadrantKey.sensorySensitivity); (73, QuadrantKey.sensorySensitivity);
    (77, QuadrantKey.sensorySensitivity); (78, QuadrantKey.sensorySensitivity);
    (84, QuadrantKey.sensorySensitivity);
    (* OB - Observacao / Registration Increased *)
    (8, QuadrantKey.registrationIncreased); (12, QuadrantKey.registrationIncreased);
    (23, QuadrantKey.registrationIncreased); (24, QuadrantKey.registrationIncreased);
    (26, QuadrantKey.registrationIncreased); (33, QuadrantKey.registrationIncreased);
    (34, QuadrantKey.registrationIncreased); (35, QuadrantKey.registrationIncreased);
    (36, QuadrantKey.registrationIncreased); (37, QuadrantKey.registrationIncreased);
    (38, QuadrantKey.registrationIncreased); (39, QuadrantKey.registrationIncreased);
    (40, QuadrantKey.registrationIncreased); (53, QuadrantKey.registrationIncreased);
    (54, QuadrantKey.registrationIncreased); (57, QuadrantKey.registrationIncreased);
    (62, QuadrantKey.registrationIncreased); (76, QuadrantKey.registrationIncreased);
    (79, QuadrantKey.registrationIncreased); (80, QuadrantKey.registrationIncreased);
    (85, QuadrantKey.registrationIncreased); (86, QuadrantKey.registrationIncreased) ].

(** [table[itemId]] on one of the two maps above.  The keys are the
    decimal renderings of integers; a number that is not an integer names
    no property. *)
Fixpoint assoc {A : Type} (table : list (Z * A)) (id : Z) : option A :=
  match table with
  | [] => None
  | (k, v) :: rest => if k =? id then Some v else assoc rest id
  end.

Definition item_lookup {A : Type} (table : list (Z * A)) (itemId : number)
  : option A :=
  match itemId with
  | NInt z => assoc table z
  | _ => None
  end.

Definition validateItemId (itemId : number) : bool :=
  num_ge itemId 1 && num_le itemId 86 && isInteger itemId.

Definition isExcludedFromScoring (itemId : number) : bool :=
  num_is itemId 15 || num_is itemId 86.

(** *** The calculators *)

Record RawResponse : Type := {
  itemId : number;
  response : string
}.

Definition zeroSectionScores : SectionScores value :=
  {| auditoryProcessing := VNumber 0;
     visualProcessing := VNumber 0;
     tactileProcessing := VNumber 0;
     movementProcessing := VNumber 0;
     bodyPositionProcessing := VNumber 0;
     oralSensitivityProcessing := VNumber 0;
     behavioralResponses := VNumber 0;
     socialEmotionalResponses := VNumber 0;
     attentionResponses := VNumber 0 |}.

Definition zeroQuadrantScores : QuadrantScores value :=
  {| registrationIncreased := VNumber 0;
     sensorySeek := VNumber 0;
     sensorySensitivity := VNumber 0;
     sensoryAvoidance := VNumber 0 |}.

(** The state a [forEach] callback updates: the score object and the
    [invalidResponses] array. *)
Definition acc (S : Type) : Type := (S * list string)%type.

Definition push {S : Type} (st : acc S) (message : string) : acc S :=
  (fst st, (snd st ++ [message])%list).

(** The [catch] clause shared by both calculators. *)
Definition caught_message (r : RawResponse) (message : string) : string :=
  "Item " ++ num_to_string (itemId r) ++ ": " ++ message.

(** One run of the callback of [calculateSectionScores]. *)
Definition sectionCallback (st : acc (SectionScores value)) (r : RawResponse)
  : acc (SectionScores value) :=
  if negb (validateItemId (itemId r)) then
    push st ("Invalid item ID: " ++ num_to_string (itemId r))
  else if isExcludedFromScoring (itemId r) then
    st
  else
    match mapResponseToValue (response r) with
    | Throw message => push st (caught_message r message)
    | Return v =>
        if is_zero v then st
        else
          match item_lookup sectionMap (itemId r) with
          | Some section =>
              (section_set (fst st) section (plus (section_get (fst st) section) v),
               snd st)
          | None =>
              push st ("No section mapping for item " ++ num_to_string (itemId r))
          end
    end.

Record SectionResult : Type := {
  section_scores : SectionScores value;
  section_invalidResponses : list string
}.

Definition calculateSectionScores (responses : list RawResponse) : SectionResult :=
  let st := fold_left sectionCallback responses (zeroSectionScores, []) in
  {| section_scores := fst st; section_invalidResponses := snd st |}.

(** One run of the callback of [calculateQuadrantScores]. *)
Definition quadrantCallback (st : acc (QuadrantScores value)) (r : RawResponse)
  : acc (QuadrantScores value) :=
  if negb (validateItemId (itemId r)) then
    push st ("Invalid item ID: " ++ num_to_string (itemId r))
  else
    match mapResponseToValue (response r) with
    | Throw message => push st (caught_message r message)
    | Return v =>
        match item_lookup quadrantMap (itemId r) with
        | Some quadrant =>
            (quadrant_set (fst st) quadrant (plus (quadrant_get (fst st) quadrant) v),
             snd st)
        | None => st
        end
    end.

Record QuadrantResult : Type := {
  quadrant_scores : QuadrantScores value;
  quadrant_invalidResponses : list string
}.

Definition calculateQuadrantScores (responses : list RawResponse) : QuadrantResult :=
  let st := fold_left quadrantCallback responses (zeroQuadrantScores, []) in
  {| quadrant_scores := fst st; quadrant_invalidResponses := snd st |}.

Definition calculateScores (responses : list RawResponse) : AssessmentResults value :=
  let sectionResult := calculateSectionScores responses in
  let quadrantResult := calculateQuadrantScores responses in
  let allInvalidResponses :=
    set_of String.eqb
      (section_invalidResponses sectionResult
       ++ quadrant_invalidResponses quadrantResult)%list in
  {| sectionScores := section_scores sectionResult;
     quadrantScores := quadrant_scores quadrantResult;
     totalItems := Z.of_nat (List.length responses);
     validResponses :=
       Z.of_nat (List.length responses) - Z.of_nat (List.length allInvalidResponses);
     invalidResponses := allInvalidResponses |}.

(** *** Expected ranges and validateScores *)

Record Range : Type := {
  min : Z;
  max : Z
}.

Record ExpectedScoreRanges : Type := {
  sectionRanges : SectionKey.t -> Range;
  totalRange : Range
}.

Definition getExpectedScoreRanges : ExpectedScoreRanges :=
  {| sectionRanges := fun k =>
       match k with
       | SectionKey.auditoryProcessing => {| min := 8; max := 40 |}
       | SectionKey.visualProcessing => {| min := 6; max := 30 |}
       | SectionKey.tactileProcessing => {| min := 11; max := 55 |}
       | SectionKey.movementProcessing => {| min := 8; max := 40 |}
       | SectionKey.bodyPositionProcessing => {| min := 8; max := 40 |}
       | SectionKey.oralSensitivityProcessing => {| min := 10; max := 50 |}
       | SectionKey.behavioralResponses => {| min := 9; max := 45 |}
       | SectionKey.socialEmotionalResponses => {| min := 14; max := 70 |}
       | SectionKey.attentionResponses => {| min := 10; max := 50 |}
       end;
     totalRange := {| min := 84; max := 420 |} |}.

(** What [validateScores] finds in a field of [sectionScores]: a number,
    as [SectionScores] declares the field, or a string, which is what
    [calculateSectionScores] leaves there once its [+=] has
    concatenated. *)
Module Score.

Inductive t : Type :=
| Num (x : float)
| Str (s : string).

(** [ToNumber] and [ToString]. *)
Definition toNumber (v : t) : float :=
  match v with
  | Num x => x
  | Str s => Number.ofString s
  end.

Definition toString (v : t) : string :=
  match v with
  | Num x => Number.toString x
  | Str s => s
  end.

(** [a < b] and [a > b] where [b] is a number: [a] is converted to a
    number and the two doubles are compared; a comparison with [NaN]
    is false. *)
Definition lt (a : t) (b : float) : bool := (toNumber a <? b)%float.

Definition gt (a : t) (b : float) : bool := (b <? toNumber a)%float.

(** [a + b]: the sum of two doubles, and the concatenation of the two
    strings as soon as one operand is a string. *)
Definition add (a b : t) : t :=
  match a, b with
  | Num x, Num y => Num (x + y)%float
  | _, _ => Str (toString a ++ toString b)
  end.

(** A field of the score object as a calculator left it.  The integer
    sums of the calculators are doubles as long as they stay within
    2^53; a function or an object would be read through its string. *)
Definition ofValue (v : value) : t :=
  match v with
  | VNumber n => Num (Number.ofZ n)
  | _ => Str (to_string v)
  end.

End Score.

(** [score < range.min || score > range.max]. *)
Definition outside (range : Range) (score : Score.t) : bool :=
  Score.lt score (Number.ofZ (min range))
  || Score.gt score (Number.ofZ (max range)).

(** [`${range.min}-${range.max}`]. *)
Definition rangeText (range : Range) : string :=
  Number.toString (Number.ofZ (min range)) ++ "-"
  ++ Number.toString (Number.ofZ (max range)).

Definition validateScores (results : AssessmentResults Score.t) : list string :=
  let ranges := getExpectedScoreRanges in
  let warnings :=
    fold_left
      (fun warnings entry =>
         let '(section, score) := entry in
         let range := sectionRanges ranges section in
         if outside range score
         then List.app warnings
                [SectionKey.name section ++ " score " ++ Score.toString score
                 ++ " is outside expected range " ++ rangeText range]
         else warnings)
      (section_entries (sectionScores results)) [] in
  let totalScore :=
    fold_left (fun sum score => Score.add sum score)
      (map snd (section_entries (sectionScores results))) (Score.Num 0) in
  if outside (totalRange ranges) totalScore
  then List.app warnings
         ["Total score " ++ Score.toString totalScore
          ++ " is outside expected range " ++ rangeText (totalRange ranges)]
  else warnings.

(** The results of [calculateScores] as [validateScores] reads them. *)
Definition scoresRead (results : AssessmentResults value) : AssessmentResults Score.t :=
  let s := sectionScores results in
  let q := quadrantScores results in
  {| sectionScores :=
       {| auditoryProcessing := Score.ofValue (auditoryProcessing s);
          visualProcessing := Score.ofValue (visualProcessing s);
          tactileProcessing := Score.ofValue (tactileProcessing s);
          movementProcessing := Score.ofValue (movementProcessing s);
          bodyPositionProcessing := Score.ofValue (bodyPositionProcessing s);
          oralSensitivityProcessing := Score.ofValue (oralSensitivityProcessing s);
          behavioralResponses := Score.ofValue (behavioralResponses s);
          socialEmotionalResponses := Score.ofValue (socialEmotionalResponses s);
          attentionResponses := Score.ofValue (attentionResponses s) |};
     quadrantScores :=
       {| registrationIncreased := Score.ofValue (registrationIncreased q);
          sensorySeek := Score.ofValue (sensorySeek q);
          sensorySensitivity := Score.ofValue (sensorySensitivity q);
          sensoryAvoidance := Score.ofValue (sensoryAvoidance q) |};
     totalItems := totalItems results;
     validResponses := validResponses results;
     invalidResponses := invalidResponses results |}.

(** ** The data consistency validator *)

Module DataConsistencyValidator.

Record ConsistencyCheckResult : Type := {
  isValid : bool;
  errors : list string;
  warnings : list string;
  checkedFields : list string
}.

(** The [Response] entity, as far as the validator reads it. *)
Record Response : Type := {
  getItemId : number;
  getResponse : string
}.

(** An entry of [sectionItemCounts]. *)
Record SectionItemCount : Type := {
  min : Z;
  max : Z;
  actual : Z;
  range : Z * Z
}.

Definition sectionItemCounts : list (SectionKey.t * SectionItemCount) :=
  [ (SectionKey.auditoryProcessing,
      {| min := 1; max := 8; actual := 0; range := (1, 8) |});
    (SectionKey.visualProcessing,
      {| min := 9; max := 14; actual := 0; range := (9, 14) |}); (* excluding 15 *)
    (SectionKey.tactileProcessing,
      {| min := 16; max := 26; actual := 0; range := (16, 26) |});
    (SectionKey.movementProcessing,
      {| min := 27; max := 34; actual := 0; range := (27, 34) |});
    (SectionKey.bodyPositionProcessing,
      {| min := 35; max := 42; actual := 0; range := (35, 42) |});
    (SectionKey.oralSensitivityProcessing,
      {| min := 43; max := 52; actual := 0; range := (43, 52) |});
    (SectionKey.behavioralResponses,
      {| min := 53; max := 61; actual := 0; range := (53, 61) |});
    (SectionKey.socialEmotionalResponses,
      {| min := 62; max := 75; actual := 0; range := (62, 75) |});
    (SectionKey.attentionResponses,
      {| min := 76; max := 85; actual := 0; range := (76, 85) |}) ]. (* excluding 86 *)

Definition increment (info : SectionItemCount) : SectionItemCount :=
  {| min := min info; max := max info; actual := actual info + 1;
     range := range info |}.

(** The callback that counts one response: every section whose range
    holds the item id has its [actual] incremented. *)
Definition countResponse (counts : list (SectionKey.t * SectionItemCount))
  (r : Response) : list (SectionKey.t * SectionItemCount) :=
  let itemId := getItemId r in
  map (fun entry : SectionKey.t * SectionItemCount =>
         let '(section, info) := entry in
         let '(minId, maxId) := range info in
         if num_ge itemId minId && num_le itemId maxId
         then (section, increment info)
         else (section, info))
      counts.

(** [completionPercentage < 75], where [completionPercentage] is
    [(actual / expectedCount) * 100].  The quotient 6/8 and its product
    with 100 are exact in binary floating point, and every other
    quotient of a count by 6, 8, 9, 10, 11 or 14 is away from 75 by more
    than 1, so the comparison is the one on the exact fractions. *)
Definition below75 (actual expectedCount : Z) : bool :=
  4 * actual <? 3 * expectedCount.

(** [completionPercentage.toFixed(1)]: the percentage rounded to one
    decimal place.  For the expected counts above no percentage lies at a
    rounding boundary, so rounding the exact fraction gives the digits. *)
Definition toFixed1 (actual expectedCount : Z) : string :=
  let tenths := (2000 * actual + expectedCount) / (2 * expectedCount) in
  Z_to_string (tenths / 10) ++ "." ++ Z_to_string (tenths mod 10).

Definition addError (result : ConsistencyCheckResult) (message : string)
  : ConsistencyCheckResult :=
  {| isValid := false;
     errors := (errors result ++ [message])%list;
     warnings := warnings result;
     checkedFields := checkedFields result |}.

Definition addWarning (result : ConsistencyCheckResult) (message : string)
  : ConsistencyCheckResult :=
  {| isValid := isValid result;
     errors := errors result;
     warnings := (warnings result ++ [message])%list;
     checkedFields := checkedFields result |}.

(** The callback that checks one section for missing or incomplete
    responses. *)
Definition checkSection (result : ConsistencyCheckResult)
  (entry : SectionKey.t * SectionItemCount) : ConsistencyCheckResult :=
  let '(section, info) := entry in
  let expectedCount := max info - min info + 1 in
  if actual info =? 0 then
    addError result
      ("No responses found for " ++ SectionKey.name section ++ " section")
  else if below75 (actual info) expectedCount then
    addWarning result
      (SectionKey.name section ++ " section is "
       ++ toFixed1 (actual info) expectedCount ++ "% complete ("
       ++ Z_to_string (actual info) ++ "/" ++ Z_to_string expectedCount
       ++ " items)")
  else result.

Definition same_index (found : option nat) (index : nat) : bool :=
  match found with
  | Some i => Nat.eqb i index
  | None => false
  end.

Definition checkDuplicates (itemIds : list number)
  (result : ConsistencyCheckResult) : ConsistencyCheckResult :=
  let uniqueIds := set_of same_value_zero itemIds in
  if negb (Nat.eqb (List.length uniqueIds) (List.length itemIds)) then
    let duplicates :=
      filter_indexed (fun id index => negb (same_index (indexOf itemIds id) index))
        O itemIds in
    addError result
      ("Duplicate responses found for items: "
       ++ join ", " (map num_to_string (set_of same_value_zero duplicates)))
  else result.

Definition checkInvalidIds (itemIds : list number)
  (result : ConsistencyCheckResult) : ConsistencyCheckResult :=
  let invalidIds := filter (fun id => num_lt id 1 || num_gt id 86) itemIds in
  if negb (Nat.eqb (List.length invalidIds) 0) then
    addError result
      ("Invalid item IDs found: " ++ join ", " (map num_to_string invalidIds))
  else result.

(** The counts after the counting loop. *)
Definition countedSections (responses : list Response)
  : list (SectionKey.t * SectionItemCount) :=
  fold_left countResponse responses sectionItemCounts.

Definition validateResponseCompleteness (responses : list Response)
  : ConsistencyCheckResult :=
  let result :=
    {| isValid := true; errors := []; warnings := [];
       checkedFields := ["responses"] |} in
  let counts := countedSections responses in
  let result := fold_left checkSection counts result in
  let itemIds := map getItemId responses in
  let result := checkDuplicates itemIds result in
  checkInvalidIds itemIds result.

(** The error [throwIfInvalid] raises. *)
Record DataConsistencyError : Type := {
  message : string;
  businessRule : string;
  inconsistentField : string;
  expectedValue : list string;
  actualValue : list string
}.

(** A call of [logger.warn]. *)
Record LogEntry : Type := {
  log_message : string;
  log_context : option string;
  log_warnings : list string
}.

(** What a call of [throwIfInvalid] does: it raises, or it returns after
    having logged the entries listed. *)
Inductive outcome : Type :=
| Raised (e : DataConsistencyError)
| Returned (logged : list LogEntry).

(** The truthiness of an optional string argument: absent and empty are
    both falsy. *)
Definition truthy (context : option string) : bool :=
  match context with
  | Some s => negb (String.eqb s EmptyString)
  | None => false
  end.

Definition throwIfInvalid (validationResult : ConsistencyCheckResult)
  (context : option string) : outcome :=
  if negb (isValid validationResult) then
    let contextPrefix :=
      match context with
      | Some c => if truthy context then c ++ ": " else EmptyString
      | None => EmptyString
      end in
    Raised
      {| message := contextPrefix ++ join "; " (errors validationResult);
         businessRule := "data_consistency";
         inconsistentField := "multiple_fields";
         expectedValue := errors validationResult;
         actualValue := warnings validationResult |}
  else if (0 <? Z.of_nat (List.length (warnings validationResult))) then
    Returned
      [ {| log_message := "Data consistency warnings detected";
           log_context := context;
           log_warnings := warnings validationResult |} ]
  else Returned [].

(** *** validateChildAgeConsistency

    A [Date] is read through [getTime], [getFullYear], [getMonth] and
    [getDate]; an invalid date answers NaN to all four.  [today] is the
    clock reading [new Date()], always a valid date. *)
Record DateFields : Type := {
  getTime : Z;
  getFullYear : Z;
  getMonth : Z;
  getDate : Z
}.

Inductive Date : Type :=
| ValidDate (fields : DateFields)
| InvalidDate.

(** The age in whole years; NaN when the birth date is invalid (every
    difference with NaN is NaN and no comparison with NaN holds, so the
    decrement is skipped). *)
Definition calculatedAge (today : DateFields) (birth : Date) : number :=
  match birth with
  | InvalidDate => NNaN
  | ValidDate b =>
      let age := getFullYear today - getFullYear b in
      let monthDiff := getMonth today - getMonth b in
      if (monthDiff <? 0) || ((monthDiff =? 0) && (getDate today <? getDate b))
      then NInt (age - 1)
      else NInt age
  end.

(** [birth > today], a comparison of time values. *)
Definition isAfter (birth : Date) (today : DateFields) : bool :=
  match birth with
  | ValidDate b => getTime today <? getTime b
  | InvalidDate => false
  end.

Definition validateChildAgeConsistency (today : DateFields) (birthDate : Date)
  (expectedAge : option number) : ConsistencyCheckResult :=
  let result :=
    {| isValid := true; errors := []; warnings := [];
       checkedFields := ["birthDate"; "age"] |} in
  let birth := birthDate in
  let age := calculatedAge today birth in
  let result :=
    if isAfter birth today
    then addError result "Birth date cannot be in the future"
    else result in
  let result :=
    if num_lt age 3 || num_gt age 14
    then addError result
           ("Child age " ++ num_to_string age
            ++ " is outside valid range (3-14 years)")
    else result in
  match expectedAge with
  | Some expected =>
      if negb (strict_eq expected age)
      then addWarning result
             ("Age mismatch: expected=" ++ num_to_string expected
              ++ ", calculated=" ++ num_to_string age)
      else result
  | None => result
  end.

End DataConsistencyValidator.

(** ** Request validation: validateRequiredResponses *)

Record ValidationError : Type := {
  validation_message : string;
  validation_errors : list string
}.

Inductive requiredOutcome : Type :=
| Accepted
| Rejected (e : ValidationError).

Definition zeroItemCounts : SectionScores Z :=
  {| auditoryProcessing := 0;
     visualProcessing := 0;
     tactileProcessing := 0;
     movementProcessing := 0;
     bodyPositionProcessing := 0;
     oralSensitivityProcessing := 0;
     behavioralResponses := 0;
     socialEmotionalResponses := 0;
     attentionResponses := 0 |}.

Definition incrementCount (itemCounts : SectionScores Z) (section : SectionKey.t)
  : SectionScores Z :=
  section_set itemCounts section (section_get itemCounts section + 1).

(** The callback that counts one response, an else-if chain over the
    nine id ranges. *)
Definition countRequired (itemCounts : SectionScores Z) (r : RawResponse)
  : SectionScores Z :=
  let id := itemId r in
  if num_ge id 1 && num_le id 8 then
    incrementCount itemCounts SectionKey.auditoryProcessing
  else if num_ge id 9 && num_le id 14 then
    incrementCount itemCounts SectionKey.visualProcessing
  else if num_ge id 16 && num_le id 26 then
    incrementCount itemCounts SectionKey.tactileProcessing
  else if num_ge id 27 && num_le id 34 then
    incrementCount itemCounts SectionKey.movementProcessing
  else if num_ge id 35 && num_le id 42 then
    incrementCount itemCounts SectionKey.bodyPositionProcessing
  else if num_ge id 43 && num_le id 52 then
    incrementCount itemCounts SectionKey.oralSensitivityProcessing
  else if num_ge id 53 && num_le id 61 then
    incrementCount itemCounts SectionKey.behavioralResponses
  else if num_ge id 62 && num_le id 75 then
    incrementCount itemCounts SectionKey.socialEmotionalResponses
  else if num_ge id 76 && num_le id 85 then
    incrementCount itemCounts SectionKey.attentionResponses
  else itemCounts.

Definition pushIf (condition : bool) (message : string) (errors : list string)
  : list string :=
  if condition then (errors ++ [message])%list else errors.

Definition requiredErrors (itemCounts : SectionScores Z) : list string :=
  let errors := [] in
  let errors := pushIf (auditoryProcessing itemCounts <? 4)
    "Auditory Processing section needs at least 4 responses" errors in
  let errors := pushIf (visualProcessing itemCounts <? 3)
    "Visual Processing section needs at least 3 responses" errors in
  let errors := pushIf (tactileProcessing itemCounts <? 6)
    "Tactile Processing section needs at least 6 responses" errors in
  let errors := pushIf (movementProcessing itemCounts <? 4)
    "Movement Processing section needs at least 4 responses" errors in
  let errors := pushIf (bodyPositionProcessing itemCounts <? 4)
    "Body Position Processing section needs at least 4 responses" errors in
  let errors := pushIf (oralSensitivityProcessing itemCounts <? 5)
    "Oral Sensitivity Processing section needs at least 5 responses" errors in
  let errors := pushIf (behavioralResponses itemCounts <? 5)
    "Behavioral Responses section needs at least 5 responses" errors in
  let errors := pushIf (socialEmotionalResponses itemCounts <? 7)
    "Social Emotional Responses section needs at least 7 responses" errors in
  pushIf (attentionResponses itemCounts <? 5)
    "Attention Responses section needs at least 5 responses" errors.

Definition validateRequiredResponses (responses : list RawResponse)
  : requiredOutcome :=
  let itemCounts := fold_left countRequired responses zeroItemCounts in
  let errors := requiredErrors itemCounts in
  if 0 <? Z.of_nat (List.length errors) then
    Rejected
      {| validation_message := "Insufficient responses for valid assessment";
         validation_errors := errors |}
  else Accepted.

(** ** Notions used in the statements *)

Definition itemIds_1_86 : list Z := map Z.of_nat (seq 1 86).

(** How often an id occurs as a key of a table. *)
Definition key_count {A : Type} (table : list (Z * A)) (z : Z) : nat :=
  List.length (filter (fun entry => fst entry =? z) table).

Definition has_entry {A : Type} (table : list (Z * A)) (z : Z) : bool :=
  match assoc table z with
  | Some _ => true
  | None => false
  end.

Definition mkResponse (id : Z) (label : string) : RawResponse :=
  {| itemId := NInt id; response := label |}.

Definition is_no_section_mapping (message : string) : bool :=
  prefix "No section mapping for item " message.

(** The number of items the section map assigns to a section. *)
Definition itemCount (section : SectionKey.t) : Z :=
  Z.of_nat
    (List.length (filter (fun entry => SectionKey.eqb (snd entry) section) sectionMap)).

(** The prefix put before the joined errors: the context and a colon for
    a context that is present and not empty, nothing otherwise. *)
Definition contextPrefix (context : option string) : string :=
  match context with
  | Some c => if String.eqb c EmptyString then EmptyString else c ++ ": "
  | None => EmptyString
  end.

Definition sampleInvalidResult : DataConsistencyValidator.ConsistencyCheckResult :=
  {| DataConsistencyValidator.isValid := false;
     DataConsistencyValidator.errors := ["first problem"; "second problem"];
     DataConsistencyValidator.warnings := ["a warning"];
     DataConsistencyValidator.checkedFields := ["responses"] |}.

(** The count a section has after the counting loop. *)
Definition sectionCount (responses : list DataConsistencyValidator.Response)
  (section : SectionKey.t) : Z :=
  match find (fun entry => SectionKey.eqb (fst entry) section)
          (DataConsistencyValidator.countedSections responses) with
  | Some (_, info) => DataConsistencyValidator.actual info
  | None => 0
  end.

(** The id range a section is counted over. *)
Definition countedRange (section : SectionKey.t) : Z * Z :=
  match find (fun entry => SectionKey.eqb (fst entry) section)
          DataConsistencyValidator.sectionItemCounts with
  | Some (_, info) => DataConsistencyValidator.range info
  | None => (0, 0)
  end.

Definition inCountedRange (section : SectionKey.t) (id : number) : bool :=
  num_ge id (fst (countedRange section)) && num_le id (snd (countedRange section)).

Definition inInfoRange (info : DataConsistencyValidator.SectionItemCount)
  (r : DataConsistencyValidator.Response) : bool :=
  num_ge (DataConsistencyValidator.getItemId r)
    (fst (DataConsistencyValidator.range info))
  && num_le (DataConsistencyValidator.getItemId r)
       (snd (DataConsistencyValidator.range info)).

Definition bump (n : Z) (info : DataConsistencyValidator.SectionItemCount)
  : DataConsistencyValidator.SectionItemCount :=
  {| DataConsistencyValidator.min := DataConsistencyValidator.min info;
     DataConsistencyValidator.max := DataConsistencyValidator.max info;
     DataConsistencyValidator.actual := DataConsistencyValidator.actual info + n;
     DataConsistencyValidator.range := DataConsistencyValidator.range info |}.

Definition noResponsesFound (section : SectionKey.t) : string :=
  "No responses found for " ++ SectionKey.name section ++ " section".

Definition response15 : DataConsistencyValidator.Response :=
  {| DataConsistencyValidator.getItemId := NInt 15;
     DataConsistencyValidator.getResponse := "frequentemente" |}.

Ltac pick_entry := simpl; repeat (first [left; reflexivity | right]).

Definition response86 : DataConsistencyValidator.Response :=
  {| DataConsistencyValidator.getItemId := NInt 86;
     DataConsistencyValidator.getResponse := "frequentemente" |}.

(** The number a label is mapped to, when it is mapped to a number. *)
Definition mappedNumber (label : string) : option Z :=
  match mapResponseToValue label with
  | Return (VNumber v) => Some v
  | _ => None
  end.

(** The label of a response is mapped to a number or rejected: its
    normalized form names no member of [Object.prototype]. *)
Definition numericLabel (r : RawResponse) : bool :=
  match mapResponseToValue (response r) with
  | Return (VNumber _) => true
  | Return _ => false
  | Throw _ => true
  end.

Definition quadrant_eqb (a b : QuadrantKey.t) : bool :=
  match a, b with
  | QuadrantKey.registrationIncreased, QuadrantKey.registrationIncreased => true
  | QuadrantKey.sensorySeek, QuadrantKey.sensorySeek => true
  | QuadrantKey.sensorySensitivity, QuadrantKey.sensorySensitivity => true
  | QuadrantKey.sensoryAvoidance, QuadrantKey.sensoryAvoidance => true
  | _, _ => false
  end.

(** What one response adds to a section: the number of its label when
    the item id is valid, not excluded and assigned to the section. *)
Definition sectionContribution (section : SectionKey.t) (r : RawResponse) : Z :=
  if validateItemId (itemId r) && negb (isExcludedFromScoring (itemId r)) then
    match mappedNumber (response r), item_lookup sectionMap (itemId r) with
    | Some v, Some section' => if SectionKey.eqb section' section then v else 0
    | _, _ => 0
    end
  else 0.

(** What one response adds to a quadrant. *)
Definition quadrantContribution (quadrant : QuadrantKey.t) (r : RawResponse) : Z :=
  if validateItemId (itemId r) then
    match mappedNumber (response r), item_lookup quadrantMap (itemId r) with
    | Some v, Some quadrant' => if quadrant_eqb quadrant' quadrant then v else 0
    | _, _ => 0
    end
  else 0.

Definition Zsum (l : list Z) : Z := fold_right Z.add 0 l.

(** The item of a response is assigned to the section by the section map. *)
Definition inSection (section : SectionKey.t) (r : RawResponse) : bool :=
  match item_lookup sectionMap (itemId r) with
  | Some section' => SectionKey.eqb section' section
  | None => false
  end.

(** The ids the section map assigns to a section. *)
Definition sectionItems (section : SectionKey.t) : list Z :=
  map fst (filter (fun entry => SectionKey.eqb (snd entry) section) sectionMap).

(** The messages one response makes each calculator record. *)
Definition sectionMessages (r : RawResponse) : list string :=
  if negb (validateItemId (itemId r)) then
    ["Invalid item ID: " ++ num_to_string (itemId r)]
  else if isExcludedFromScoring (itemId r) then []
  else
    match mapResponseToValue (response r) with
    | Throw message => [caught_message r message]
    | Return _ => []
    end.

Definition quadrantMessages (r : RawResponse) : list string :=
  if negb (validateItemId (itemId r)) then
    ["Invalid item ID: " ++ num_to_string (itemId r)]
  else
    match mapResponseToValue (response r) with
    | Throw message => [caught_message r message]
    | Return _ => []
    end.

(** The items of the form that carry no quadrant. *)
Definition itemsWithoutQuadrant : list Z := [4; 7; 10; 11; 17; 29; 42; 43].

(** The number of items a section is expected to have in the
    completeness check. *)
Definition expectedCount (section : SectionKey.t) : Z :=
  match find (fun entry => SectionKey.eqb (fst entry) section)
          DataConsistencyValidator.sectionItemCounts with
  | Some (_, info) =>
      DataConsistencyValidator.max info - DataConsistencyValidator.min info + 1
  | None => 0
  end.

Definition assignedTo (section : SectionKey.t) (z : Z) : bool :=
  match assoc sectionMap z with
  | Some section' => SectionKey.eqb section' section
  | None => false
  end.

(** A result whose validity flag tells whether it holds errors. *)
Definition flagMatchesErrors (result : DataConsistencyValidator.ConsistencyCheckResult)
  : Prop :=
  DataConsistencyValidator.isValid result = true
  <-> DataConsistencyValidator.errors result = [].

Definition allScoredItems : list DataConsistencyValidator.Response :=
  map (fun z => {| DataConsistencyValidator.getItemId := NInt z;
                   DataConsistencyValidator.getResponse := "always" |})
    itemIds_1_86.

(** The least count of a section that draws no completeness warning. *)
Definition warnThreshold (section : SectionKey.t) : Z :=
  match section with
  | SectionKey.auditoryProcessing => 6
  | SectionKey.visualProcessing => 5
  | SectionKey.tactileProcessing => 9
  | SectionKey.movementProcessing => 6
  | SectionKey.bodyPositionProcessing => 6
  | SectionKey.oralSensitivityProcessing => 8
  | SectionKey.behavioralResponses => 7
  | SectionKey.socialEmotionalResponses => 11
  | SectionKey.attentionResponses => 8
  end.

Definition completenessWarning (section : SectionKey.t) (count : Z) : string :=
  SectionKey.name section ++ " section is "
  ++ DataConsistencyValidator.toFixed1 count (expectedCount section)
  ++ "% complete (" ++ Z_to_string count ++ "/"
  ++ Z_to_string (expectedCount section) ++ " items)".

Definition warnsAbout (entry : SectionKey.t * DataConsistencyValidator.SectionItemCount)
  : bool :=
  let info := snd entry in
  negb (DataConsistencyValidator.actual info =? 0)
  && DataConsistencyValidator.below75 (DataConsistencyValidator.actual info)
       (DataConsistencyValidator.max info - DataConsistencyValidator.min info + 1).

Definition entryWarning (entry : SectionKey.t * DataConsistencyValidator.SectionItemCount)
  : string :=
  let info := snd entry in
  let expected :=
    DataConsistencyValidator.max info - DataConsistencyValidator.min info + 1 in
  SectionKey.name (fst entry) ++ " section is "
  ++ DataConsistencyValidator.toFixed1 (DataConsistencyValidator.actual info) expected
  ++ "% complete (" ++ Z_to_string (DataConsistencyValidator.actual info) ++ "/"
  ++ Z_to_string expected ++ " items)".

Definition countedEntry (responses : list DataConsistencyValidator.Response)
  (entry : SectionKey.t * DataConsistencyValidator.SectionItemCount)
  : SectionKey.t * DataConsistencyValidator.SectionItemCount :=
  (fst entry,
   bump (Z.of_nat (List.length (filter (inInfoRange (snd entry)) responses)))
     (snd entry)).

Definition initialInfo (section : SectionKey.t)
  : SectionKey.t * DataConsistencyValidator.SectionItemCount :=
  match find (fun entry => SectionKey.eqb (fst entry) section)
          DataConsistencyValidator.sectionItemCounts with
  | Some entry => entry
  | None => (section,
             {| DataConsistencyValidator.min := 0; DataConsistencyValidator.max := 0;
                DataConsistencyValidator.actual := 0;
                DataConsistencyValidator.range := (0, 0) |})
  end.

(** The callback that picks the repeated ids, and the ids the duplicate
    error lists. *)
Definition isRepeat (ids : list number) (id : number) (index : nat) : bool :=
  negb (DataConsistencyValidator.same_index (indexOf ids id) index).

Definition duplicatedIds (ids : list number) : list number :=
  set_of same_value_zero (filter_indexed (isRepeat ids) O ids).

Definition duplicateMessage (ids : list number) : string :=
  "Duplicate responses found for items: "
  ++ join ", " (map num_to_string (duplicatedIds ids)).

Definition isDuplicateMessage (m : string) : bool :=
  match drop_prefix "Duplicate responses found for items: " m with
  | Some _ => true
  | None => false
  end.

(** The least count validateRequiredResponses accepts for a section. *)
Definition requiredThreshold (section : SectionKey.t) : Z :=
  match section with
  | SectionKey.auditoryProcessing => 4
  | SectionKey.visualProcessing => 3
  | SectionKey.tactileProcessing => 6
  | SectionKey.movementProcessing => 4
  | SectionKey.bodyPositionProcessing => 4
  | SectionKey.oralSensitivityProcessing => 5
  | SectionKey.behavioralResponses => 5
  | SectionKey.socialEmotionalResponses => 7
  | SectionKey.attentionResponses => 5
  end.

(** The number of responses whose item id lies in the section's range. *)
Definition requiredCount (responses : list RawResponse) (section : SectionKey.t) : Z :=
  Z.of_nat
    (List.length (filter (fun r => inCountedRange section (itemId r)) responses)).

(** The plain record of a response entity, as the validator hands it to
    the scoring service. *)
Definition toRawResponse (r : DataConsistencyValidator.Response) : RawResponse :=
  {| itemId := DataConsistencyValidator.getItemId r;
     response := DataConsistencyValidator.getResponse r |}.

(** Calendar order on (year, month, day): the first day is the second
    or an earlier one. *)
Definition onOrBefore (y m d y' m' d' : Z) : Prop :=
  y < y' \/ (y = y' /\ (m < m' \/ (m = m' /\ d <= d'))).

Definition sampleToday : DataConsistencyValidator.DateFields :=
  {| DataConsistencyValidator.getTime := 1793664000000;
     DataConsistencyValidator.getFullYear := 2026;
     DataConsistencyValidator.getMonth := 10;
     DataConsistencyValidator.getDate := 3 |}.

Definition sampleBirth : DataConsistencyValidator.DateFields :=
  {| DataConsistencyValidator.getTime := 1698969600000;
     DataConsistencyValidator.getFullYear := 2023;
     DataConsistencyValidator.getMonth := 10;
     DataConsistencyValidator.getDate := 3 |}.

(** [Object.values(scores).reduce((sum, score) => sum + score, 0)] written
    out: the nine scores added to 0 one after another. *)
Definition sectionTotal (s : SectionScores Score.t) : Score.t :=
  Score.add
    (Score.add
       (Score.add
          (Score.add
             (Score.add
                (Score.add
                   (Score.add
                      (Score.add
                         (Score.add (Score.Num 0) (auditoryProcessing s))
                         (visualProcessing s))
                      (tactileProcessing s))
                   (movementProcessing s))
                (bodyPositionProcessing s))
             (oralSensitivityProcessing s))
          (behavioralResponses s))
       (socialEmotionalResponses s))
    (attentionResponses s).

(** Results whose nine section scores are the given numbers, in the
    order of the sections. *)
Definition resultsOfNumbers (x1 x2 x3 x4 x5 x6 x7 x8 x9 : float)
  : AssessmentResults Score.t :=
  {| sectionScores :=
       {| auditoryProcessing := Score.Num x1; visualProcessing := Score.Num x2;
          tactileProcessing := Score.Num x3; movementProcessing := Score.Num x4;
          bodyPositionProcessing := Score.Num x5;
          oralSensitivityProcessing := Score.Num x6;
          behavioralResponses := Score.Num x7;
          socialEmotionalResponses := Score.Num x8;
          attentionResponses := Score.Num x9 |};
     quadrantScores :=
       {| registrationIncreased := Score.Num 0; sensorySeek := Score.Num 0;
          sensorySensitivity := Score.Num 0; sensoryAvoidance := Score.Num 0 |};
     totalItems := 84;
     validResponses := 84;
     invalidResponses := [] |}.


(** The sum of the section scores a calculator returns for numeric
    labels. *)
Definition sectionSum (responses : list RawResponse) (section : SectionKey.t) : Z :=
  Zsum (map (sectionContribution section) responses).

(** A response the calculators take without a message: its item id is
    valid and its label is not rejected. *)
Definition accepted (r : RawResponse) : bool :=
  validateItemId (itemId r)
  && match mapResponseToValue (response r) with
     | Return _ => true
     | Throw _ => false
     end.

(** ** Properties *)

Example trim_lower_ascii :
  trim (toLowerCase "  Quase SEMPRE ") = "quase sempre".
Proof. reflexivity. Qed.

Example trim_lower_latin1 :
  trim (toLowerCase "NÃO SE APLICA") = "não se aplica".
Proof. reflexivity. Qed.

Example Z_to_string_samples :
  Z_to_string 15 = "15" /\ Z_to_string 0 = "0" /\ Z_to_string (-3) = "-3".
Proof. repeat split. Qed.

(** *** Item ids 1..86 by enumeration *)

Lemma in_itemIds_1_86 (z : Z) : 1 <= z <= 86 -> In z itemIds_1_86.
Proof.
  intros Hz. unfold itemIds_1_86. apply in_map_iff.
  exists (Z.to_nat z). split; [lia |]. apply in_seq. lia.
Qed.

Lemma forall_itemIds (P : Z -> bool) :
  forallb P itemIds_1_86 = true ->
  forall z, 1 <= z <= 86 -> P z = true.
Proof.
  intros Hall z Hz. rewrite forallb_forall in Hall.
  apply Hall, in_itemIds_1_86, Hz.
Qed.

Lemma validateItemId_inv (id : number) :
  validateItemId id = true -> exists z, id = NInt z /\ 1 <= z <= 86.
Proof.
  unfold validateItemId. destruct id as [z | fl shown | | negative]; simpl.
  - intros H. apply andb_prop in H as [H _]. apply andb_prop in H as [H1 H2].
    exists z. split; [reflexivity | lia].
  - rewrite andb_false_r. discriminate.
  - discriminate.
  - rewrite andb_false_r. discriminate.
Qed.

Lemma validateItemId_int (z : Z) :
  1 <= z <= 86 -> validateItemId (NInt z) = true.
Proof.
  intros Hz. unfold validateItemId. simpl.
  rewrite andb_true_r. apply andb_true_intro. split; lia.
Qed.

Lemma isExcludedFromScoring_int (z : Z) :
  isExcludedFromScoring (NInt z) = false -> z <> 15 /\ z <> 86.
Proof.
  unfold isExcludedFromScoring. simpl. intros H.
  apply orb_false_elim in H as [H1 H2]. lia.
Qed.

Lemma sectionMap_entries (z : Z) :
  1 <= z <= 86 ->
  if (z =? 15) || (z =? 86)
  then has_entry sectionMap z = false /\ key_count sectionMap z = O
  else has_entry sectionMap z = true /\ key_count sectionMap z = 1%nat.
Proof.
  intros Hz.
  pose (P := fun z : Z =>
               if (z =? 15) || (z =? 86)
               then negb (has_entry sectionMap z)
                    && Nat.eqb (key_count sectionMap z) 0
               else has_entry sectionMap z
                    && Nat.eqb (key_count sectionMap z) 1).
  assert (HP : P z = true) by (apply forall_itemIds; [vm_compute; reflexivity | exact Hz]).
  unfold P in HP. destruct ((z =? 15) || (z =? 86)).
  - apply andb_prop in HP as [H1 H2]. apply negb_true_iff in H1.
    apply Nat.eqb_eq in H2. split; assumption.
  - apply andb_prop in HP as [H1 H2]. apply Nat.eqb_eq in H2. split; assumption.
Qed.

(** *** mapResponseToValue *)

Lemma own_property_In {A : Type} (props : list (string * A)) (key : string) (v : A) :
  own_property props key = Some v -> In (key, v) props.
Proof.
  induction props as [| [k w] rest IH]; simpl; [discriminate |].
  destruct (String.eqb k key) eqn:E.
  - apply String.eqb_eq in E. intros H. injection H as <-. subst. now left.
  - intros H. right. now apply IH.
Qed.

Lemma responseMap_values (key : string) (v : Z) :
  own_property responseMap key = Some v -> 0 <= v <= 5.
Proof.
  intros H. apply own_property_In in H.
  assert (Hall : Forall (fun entry : string * Z => 0 <= snd entry <= 5) responseMap)
    by (unfold responseMap; repeat constructor; simpl; lia).
  rewrite Forall_forall in Hall. apply (Hall (key, v) H).
Qed.

(** A recognized label is mapped to its number. *)
Lemma mapResponseToValue_recognized (label : string) (v : Z) :
  own_property responseMap (trim (toLowerCase label)) = Some v ->
  mapResponseToValue label = Return (VNumber v).
Proof.
  intros H. unfold mapResponseToValue, get. now rewrite H.
Qed.

(** A label is rejected exactly when its normalized form names neither an
    own property of [responseMap] nor a member of [Object.prototype]; the
    message then quotes the label as it was given. *)
Lemma mapResponseToValue_throws (label : string) :
  own_property responseMap (trim (toLowerCase label)) = None ->
  own_property Object_prototype (trim (toLowerCase label)) = None ->
  mapResponseToValue label = Throw (invalid_response_message label).
Proof.
  intros H1 H2. unfold mapResponseToValue, get. now rewrite H1, H2.
Qed.

Lemma mapResponseToValue_throw_inv (label message : string) :
  mapResponseToValue label = Throw message ->
  message = "Invalid response value: " ++ dquote ++ label ++ dquote
            ++ ". Expected: quase sempre, frequentemente, metade do tempo, ocasionalmente, quase nunca, não se aplica".
Proof.
  unfold mapResponseToValue.
  destruct (get responseMap (trim (toLowerCase label))); [discriminate |].
  intros H. injection H as <-. reflexivity.
Qed.

(** *** The section map *)

Lemma item_lookup_int {A : Type} (table : list (Z * A)) (z : Z) :
  item_lookup table (NInt z) = assoc table z.
Proof. reflexivity. Qed.

(** C2 (as the code has it): for every integer id in 1..86 other than 15
    and 86 the section map has exactly one entry, hence assigns exactly
    one section; ids 15 and 86 have no entry at all. *)
Theorem sectionMap_covers_scored_items (z : Z) :
  1 <= z <= 86 ->
  (z <> 15 /\ z <> 86 ->
   key_count sectionMap z = 1%nat /\
   exists section, item_lookup sectionMap (NInt z) = Some section) /\
  (z = 15 \/ z = 86 ->
   key_count sectionMap z = O /\ item_lookup sectionMap (NInt z) = None).
Proof.
  intros Hz. pose proof (sectionMap_entries z Hz) as H.
  unfold has_entry in H. rewrite !item_lookup_int.
  destruct ((z =? 15) || (z =? 86)) eqn:E.
  - apply orb_prop in E. split; [intros [? ?]; destruct E; lia |].
    intros _. destruct H as [H1 H2]. split; [exact H2 |].
    destruct (assoc sectionMap z); [discriminate | reflexivity].
  - apply orb_false_elim in E as [E1 E2]. split; [| intros [? | ?]; lia].
    intros _. destruct H as [H1 H2]. split; [exact H2 |].
    destruct (assoc sectionMap z) as [section |]; [| discriminate].
    now exists section.
Qed.

Lemma sectionMap_covers_scored_items_witness :
  1 <= 14 <= 86 /\
  key_count sectionMap 14 = 1%nat /\
  (exists section, item_lookup sectionMap (NInt 14) = Some section).
Proof.
  split; [lia |].
  apply (proj1 (sectionMap_covers_scored_items 14 ltac:(lia))). lia.
Defined.

(** C2, counterexample: ids 15 and 86 lie in 1..86 and the section map
    has no entry for either. *)
Lemma sectionMap_lacks_15_and_86 :
  1 <= 15 <= 86 /\ 1 <= 86 <= 86 /\
  item_lookup sectionMap (NInt 15) = None /\
  item_lookup sectionMap (NInt 86) = None.
Proof. repeat split; lia. Qed.

(** *** Single steps of the two calculators *)

Lemma sectionCallback_excluded (st : acc (SectionScores value)) (r : RawResponse) :
  validateItemId (itemId r) = true ->
  isExcludedFromScoring (itemId r) = true ->
  sectionCallback st r = st.
Proof.
  intros Hv He. unfold sectionCallback. now rewrite Hv, He.
Qed.

Lemma sectionCallback_throw (st : acc (SectionScores value)) (r : RawResponse)
  (message : string) :
  validateItemId (itemId r) = true ->
  isExcludedFromScoring (itemId r) = false ->
  mapResponseToValue (response r) = Throw message ->
  sectionCallback st r = push st (caught_message r message).
Proof.
  intros Hv He Hm. unfold sectionCallback. now rewrite Hv, He, Hm.
Qed.

Lemma quadrantCallback_return (st : acc (QuadrantScores value)) (r : RawResponse)
  (v : value) (quadrant : QuadrantKey.t) :
  validateItemId (itemId r) = true ->
  mapResponseToValue (response r) = Return v ->
  item_lookup quadrantMap (itemId r) = Some quadrant ->
  quadrantCallback st r =
  (quadrant_set (fst st) quadrant (plus (quadrant_get (fst st) quadrant) v), snd st).
Proof.
  intros Hv Hm Hq. unfold quadrantCallback. now rewrite Hv, Hm, Hq.
Qed.

Lemma quadrantCallback_throw (st : acc (QuadrantScores value)) (r : RawResponse)
  (message : string) :
  validateItemId (itemId r) = true ->
  mapResponseToValue (response r) = Throw message ->
  quadrantCallback st r = push st (caught_message r message).
Proof.
  intros Hv Hm. unfold quadrantCallback. now rewrite Hv, Hm.
Qed.

(** *** The defensive branch of calculateSectionScores *)

Lemma scored_item_has_section (id : number) :
  validateItemId id = true ->
  isExcludedFromScoring id = false ->
  exists section, item_lookup sectionMap id = Some section.
Proof.
  intros Hv He. apply validateItemId_inv in Hv as (z & -> & Hz).
  apply isExcludedFromScoring_int in He.
  apply (sectionMap_covers_scored_items z Hz). exact He.
Qed.

Lemma sectionCallback_messages (st : acc (SectionScores value)) (r : RawResponse) :
  Forall (fun m => is_no_section_mapping m = false) (snd st) ->
  Forall (fun m => is_no_section_mapping m = false) (snd (sectionCallback st r)).
Proof.
  intros Hst. unfold sectionCallback.
  destruct (validateItemId (itemId r)) eqn:Hv; simpl negb; cbv iota.
  - destruct (isExcludedFromScoring (itemId r)) eqn:He; [exact Hst |].
    destruct (mapResponseToValue (response r)) as [v | message].
    + destruct (is_zero v); [exact Hst |].
      destruct (scored_item_has_section _ Hv He) as [section ->]. exact Hst.
    + unfold push. cbn [snd]. apply Forall_app. split; [exact Hst |].
      constructor; [reflexivity | constructor].
  - unfold push. cbn [snd]. apply Forall_app. split; [exact Hst |].
    constructor; [reflexivity | constructor].
Qed.

Lemma fold_sectionCallback_messages (responses : list RawResponse)
  (st : acc (SectionScores value)) :
  Forall (fun m => is_no_section_mapping m = false) (snd st) ->
  Forall (fun m => is_no_section_mapping m = false)
    (snd (fold_left sectionCallback responses st)).
Proof.
  revert st. induction responses as [| r rest IH]; intros st Hst; [exact Hst |].
  simpl. apply IH, sectionCallback_messages, Hst.
Qed.

(** C5: every item id that passes validateItemId and is not excluded by
    isExcludedFromScoring has an entry in the section map, and so, for
    every list of responses, calculateSectionScores records no message
    of the form 'No section mapping for item <id>'. *)
Theorem no_section_mapping_unreachable :
  (forall id : number,
     validateItemId id = true ->
     isExcludedFromScoring id = false ->
     exists section, item_lookup sectionMap id = Some section) /\
  (forall responses : list RawResponse,
     Forall (fun m => is_no_section_mapping m = false)
       (section_invalidResponses (calculateSectionScores responses))).
Proof.
  split; [exact scored_item_has_section |].
  intros responses. unfold calculateSectionScores. cbn [section_invalidResponses].
  apply fold_sectionCallback_messages. constructor.
Qed.

Lemma no_section_mapping_unreachable_witness :
  (exists section, item_lookup sectionMap (NInt 85) = Some section) /\
  Forall (fun m => is_no_section_mapping m = false)
    (section_invalidResponses
       (calculateSectionScores
          [mkResponse 85 "always"; mkResponse 0 "never"; mkResponse 3 "sometimes"])).
Proof.
  split.
  - apply (proj1 no_section_mapping_unreachable (NInt 85)); reflexivity.
  - apply (proj2 no_section_mapping_unreachable).
Defined.

(** *** Labels that name a member of Object.prototype *)

(** C3, at the label "constructor": the label is not in the response
    vocabulary, yet mapResponseToValue does not fail; it returns the
    inherited property, which is not a number, and the section
    calculator then turns the score into a string.  The same holds for
    "__proto__". *)
Theorem mapResponseToValue_inherited_property :
  own_property responseMap (trim (toLowerCase "constructor")) = None /\
  mapResponseToValue "constructor" = Return (VFunction "Object") /\
  mapResponseToValue "__proto__" = Return VObjectPrototype /\
  calculateSectionScores [mkResponse 1 "constructor"] =
    {| section_scores :=
         section_set zeroSectionScores SectionKey.auditoryProcessing
           (VString "0function Object() { [native code] }");
       section_invalidResponses := [] |}.
Proof. repeat split. Qed.

(** Every other label behaves as the vocabulary says: a label whose
    normalized form is an own key is mapped to a number in 0..5, and a
    label that is rejected is quoted verbatim in the message. *)
Lemma mapResponseToValue_vocabulary (label : string) :
  (forall v, own_property responseMap (trim (toLowerCase label)) = Some v ->
             mapResponseToValue label = Return (VNumber v) /\ 0 <= v <= 5) /\
  (own_property responseMap (trim (toLowerCase label)) = None ->
   own_property Object_prototype (trim (toLowerCase label)) = None ->
   mapResponseToValue label =
     Throw ("Invalid response value: " ++ dquote ++ label ++ dquote
            ++ ". Expected: quase sempre, frequentemente, metade do tempo, ocasionalmente, quase nunca, não se aplica")).
Proof.
  split.
  - intros v Hv. split; [now apply mapResponseToValue_recognized |].
    now apply responseMap_values in Hv.
  - apply mapResponseToValue_throws.
Qed.

(** *** Deduplication of invalid-response messages *)

Lemma set_of_four_equal (m : string) : set_of String.eqb [m; m; m; m] = [m].
Proof.
  assert (H : set_insert String.eqb [m] m = [m])
    by (cbn [set_insert]; now rewrite String.eqb_refl).
  unfold set_of. cbn [fold_left].
  change (set_insert String.eqb [] m) with [m]. now rewrite !H.
Qed.

Lemma set_of_one (m : string) : set_of String.eqb [m] = [m].
Proof. reflexivity. Qed.

(** Two responses with the same scored item and the same rejected label:
    one message, and one response still counted as valid. *)
Lemma calculateScores_same_rejected_twice (z : Z) (label message : string) :
  1 <= z <= 86 -> z <> 15 -> z <> 86 ->
  mapResponseToValue label = Throw message ->
  let results := calculateScores [mkResponse z label; mkResponse z label] in
  invalidResponses results = [caught_message (mkResponse z label) message] /\
  validResponses results = 1 /\
  sectionScores results = zeroSectionScores /\
  quadrantScores results = zeroQuadrantScores.
Proof.
  intros Hz H15 H86 Hm results. subst results.
  assert (Hv : validateItemId (itemId (mkResponse z label)) = true)
    by (apply validateItemId_int, Hz).
  assert (He : isExcludedFromScoring (itemId (mkResponse z label)) = false).
  { unfold isExcludedFromScoring. cbn. apply orb_false_intro; lia. }
  unfold calculateScores, calculateSectionScores, calculateQuadrantScores.
  cbn [fold_left section_invalidResponses quadrant_invalidResponses
       section_scores quadrant_scores invalidResponses validResponses
       sectionScores quadrantScores].
  rewrite !(sectionCallback_throw _ _ message Hv He Hm).
  rewrite !(quadrantCallback_throw _ _ message Hv Hm).
  unfold push. cbn [fst snd app].
  rewrite set_of_four_equal. repeat split.
Qed.

(** C9, at the label "constructor": two responses to item 5 with this
    label give no invalid-response message and both count as valid,
    where the vocabulary would have one message and validResponses = 1. *)
Theorem calculateScores_constructor_twice :
  own_property responseMap (trim (toLowerCase "constructor")) = None /\
  let results := calculateScores [mkResponse 5 "constructor"; mkResponse 5 "constructor"] in
  invalidResponses results = [] /\
  validResponses results = 2 /\
  auditoryProcessing (sectionScores results) =
    VString "0function Object() { [native code] }function Object() { [native code] }".
Proof. repeat split. Qed.

(** A response to item 15 or 86 with a rejected label: nothing from the
    section calculator, one message from the quadrant calculator, and so
    one message in the combined result, which lowers validResponses. *)
Lemma calculateScores_excluded_rejected (z : Z) (label message : string) :
  z = 15 \/ z = 86 ->
  mapResponseToValue label = Throw message ->
  let r := mkResponse z label in
  section_invalidResponses (calculateSectionScores [r]) = [] /\
  quadrant_invalidResponses (calculateQuadrantScores [r]) = [caught_message r message] /\
  invalidResponses (calculateScores [r]) = [caught_message r message] /\
  validResponses (calculateScores [r]) = 0.
Proof.
  intros Hz Hm r. subst r.
  assert (Hv : validateItemId (itemId (mkResponse z label)) = true)
    by (apply validateItemId_int; lia).
  assert (He : isExcludedFromScoring (itemId (mkResponse z label)) = true).
  { unfold isExcludedFromScoring. cbn. apply orb_true_iff. lia. }
  unfold calculateScores, calculateSectionScores, calculateQuadrantScores.
  cbn [fold_left section_invalidResponses quadrant_invalidResponses
       section_scores quadrant_scores invalidResponses validResponses].
  rewrite !(sectionCallback_excluded _ _ Hv He).
  rewrite !(quadrantCallback_throw _ _ message Hv Hm).
  unfold push. cbn [fst snd app]. repeat split.
Qed.

(** C10, at the label "constructor": for item 15 (and 86) neither
    calculator records a message, so the combined result has none and
    validResponses is not lowered. *)
Theorem calculateScores_excluded_constructor :
  own_property responseMap (trim (toLowerCase "constructor")) = None /\
  section_invalidResponses (calculateSectionScores [mkResponse 15 "constructor"]) = [] /\
  quadrant_invalidResponses (calculateQuadrantScores [mkResponse 15 "constructor"]) = [] /\
  invalidResponses (calculateScores [mkResponse 15 "constructor"]) = [] /\
  validResponses (calculateScores [mkResponse 15 "constructor"]) = 1 /\
  invalidResponses (calculateScores [mkResponse 86 "constructor"]) = [] /\
  validResponses (calculateScores [mkResponse 86 "constructor"]) = 1.
Proof. repeat split. Qed.

(** *** validateScores *)

Lemma fold_section_warnings (s : SectionScores Score.t) (sections : list SectionKey.t)
  (collected : list string) :
  fold_left
    (fun warnings (entry : SectionKey.t * Score.t) =>
       let '(section, score) := entry in
       let range := sectionRanges getExpectedScoreRanges section in
       if outside range score
       then List.app warnings
              [SectionKey.name section ++ " score " ++ Score.toString score
               ++ " is outside expected range " ++ rangeText range]
       else warnings)
    (map (fun k => (k, section_get s k)) sections) collected
  = List.app collected
      (map (fun k => SectionKey.name k ++ " score "
                     ++ Score.toString (section_get s k)
                     ++ " is outside expected range "
                     ++ rangeText (sectionRanges getExpectedScoreRanges k))
         (filter (fun k => outside (sectionRanges getExpectedScoreRanges k)
                             (section_get s k))
            sections)).
Proof.
  revert collected.
  induction sections as [| k rest IH]; intros collected.
  - simpl. now rewrite app_nil_r.
  - cbn [map fold_left filter]. rewrite IH.
    destruct (outside (sectionRanges getExpectedScoreRanges k) (section_get s k)).
    + cbn [map]. now rewrite <- app_assoc.
    + reflexivity.
Qed.

Lemma rangeText_section (section : SectionKey.t) :
  rangeText (sectionRanges getExpectedScoreRanges section)
  = Z_to_string (min (sectionRanges getExpectedScoreRanges section)) ++ "-"
    ++ Z_to_string (max (sectionRanges getExpectedScoreRanges section)).
Proof. destruct section; vm_compute; reflexivity. Qed.

Lemma rangeText_total : rangeText (totalRange getExpectedScoreRanges) = "84-420".
Proof. vm_compute. reflexivity. Qed.


Lemma reduce_sectionTotal (s : SectionScores Score.t) :
  fold_left (fun sum score => Score.add sum score)
    (map snd (section_entries s)) (Score.Num 0)
  = sectionTotal s.
Proof. reflexivity. Qed.

(** The result of validateScores in closed form. *)
Lemma validateScores_closed_form (results : AssessmentResults Score.t) :
  validateScores results
  = List.app
      (map (fun k => SectionKey.name k ++ " score "
                     ++ Score.toString (section_get (sectionScores results) k)
                     ++ " is outside expected range "
                     ++ rangeText (sectionRanges getExpectedScoreRanges k))
         (filter (fun k => outside (sectionRanges getExpectedScoreRanges k)
                             (section_get (sectionScores results) k))
            SectionKey.all))
      (if outside (totalRange getExpectedScoreRanges)
            (sectionTotal (sectionScores results))
       then ["Total score " ++ Score.toString (sectionTotal (sectionScores results))
             ++ " is outside expected range 84-420"]
       else []).
Proof.
  unfold validateScores. rewrite reduce_sectionTotal.
  unfold section_entries. rewrite fold_section_warnings. cbn [app].
  rewrite rangeText_total.
  destruct (outside (totalRange getExpectedScoreRanges)
              (sectionTotal (sectionScores results)));
    [reflexivity | now rewrite app_nil_r].
Qed.





(** Scores that are NaN, or fractions, as the comparison of doubles
    treats them. *)
Example validateScores_nan_scores :
  validateScores (resultsOfNumbers nan nan nan nan nan nan nan nan nan) = [] /\
  validateScores (resultsOfNumbers 7.5 30.5 11 8 8 10 9 14 10)
  = [ "auditoryProcessing score 7.5 is outside expected range 8-40";
      "visualProcessing score 30.5 is outside expected range 6-30" ].
Proof. vm_compute. split; reflexivity. Qed.

(** The scores calculateScores hands over when a label names a member
    of Object.prototype: the section score is a string, which reads as
    no number and gets no warning, and so is the total. *)
Example validateScores_string_score :
  validateScores (scoresRead (calculateScores [mkResponse 5 "constructor"]))
  = [ "visualProcessing score 0 is outside expected range 6-30";
      "tactileProcessing score 0 is outside expected range 11-55";
      "movementProcessing score 0 is outside expected range 8-40";
      "bodyPositionProcessing score 0 is outside expected range 8-40";
      "oralSensitivityProcessing score 0 is outside expected range 10-50";
      "behavioralResponses score 0 is outside expected range 9-45";
      "socialEmotionalResponses score 0 is outside expected range 14-70";
      "attentionResponses score 0 is outside expected range 10-50" ] /\
  sectionTotal (sectionScores (scoresRead (calculateScores [mkResponse 5 "constructor"])))
  = Score.Str "00function Object() { [native code] }00000000".
Proof. vm_compute. split; reflexivity. Qed.

Example Number_toString_samples :
  map Number.toString
    [0; (-0); 83; 0.5; 0x1.999999999999ap-4; 0x1.3333333333334p-2; 1e21;
     0x1.ad7f29abcaf48p-24; 0x0.0000000000001p-1022; 0x1.fffffffffffffp+1023;
     0x1.ac53a7e04bcdap+66; 0x1.0c6f7a0b5ed8dp-20; infinity; neg_infinity; nan]%float
  = [ "0"; "0"; "83"; "0.5"; "0.1"; "0.30000000000000004"; "1e+21"; "1e-7";
      "5e-324"; "1.7976931348623157e+308"; "123456789012345680000"; "0.000001";
      "Infinity"; "-Infinity"; "NaN" ].
Proof. vm_compute. reflexivity. Qed.

Example Number_ofString_samples :
  map Number.ofString
    [ EmptyString; " 42 "; "0x1F"; "0b101"; "-.5e1"; "1e400"; "-Infinity";
      "9007199254740993"; "12px"; "0function Object() { [native code] }" ]
  = [0; 42; 31; 5; (-5); infinity; neg_infinity; 9007199254740992; nan; nan]%float.
Proof. vm_compute. reflexivity. Qed.

(** *** throwIfInvalid *)

Example join_three : join "; " ["a"; "b"; "c"] = "a; b; c".
Proof. reflexivity. Qed.

(** C7 (as the code has it): throwIfInvalid raises exactly when isValid
    is false; the message of the raised error is the errors joined by
    '; ', preceded by the context and ': ' when a non-empty context is
    given and by nothing when the context is absent or empty; when
    isValid is true the call returns, whatever the warnings are. *)
Theorem throwIfInvalid_raises_iff_invalid
  (result : DataConsistencyValidator.ConsistencyCheckResult)
  (context : option string) :
  ((exists e, DataConsistencyValidator.throwIfInvalid result context
              = DataConsistencyValidator.Raised e)
   <-> DataConsistencyValidator.isValid result = false) /\
  (forall e,
     DataConsistencyValidator.throwIfInvalid result context
     = DataConsistencyValidator.Raised e ->
     DataConsistencyValidator.message e
     = contextPrefix context
       ++ join "; " (DataConsistencyValidator.errors result)) /\
  (DataConsistencyValidator.isValid result = true ->
   exists logged,
     DataConsistencyValidator.throwIfInvalid result context
     = DataConsistencyValidator.Returned logged).
Proof.
  unfold DataConsistencyValidator.throwIfInvalid.
  destruct (DataConsistencyValidator.isValid result) eqn:Hvalid; cbn [negb].
  - split; [| split].
    + split; [| discriminate].
      intros [e He].
      destruct (0 <? Z.of_nat
                  (List.length (DataConsistencyValidator.warnings result)));
        discriminate.
    + intros e He.
      destruct (0 <? Z.of_nat
                  (List.length (DataConsistencyValidator.warnings result)));
        discriminate.
    + intros _.
      destruct (0 <? Z.of_nat
                  (List.length (DataConsistencyValidator.warnings result)));
        eexists; reflexivity.
  - split; [| split].
    + split; [reflexivity |]. intros _. eexists. reflexivity.
    + intros e He. injection He as <-. cbn [DataConsistencyValidator.message].
      f_equal. destruct context as [c |]; [| reflexivity].
      unfold contextPrefix, DataConsistencyValidator.truthy.
      now destruct (String.eqb c EmptyString).
    + discriminate.
Qed.

Lemma throwIfInvalid_raises_iff_invalid_witness :
  DataConsistencyValidator.isValid sampleInvalidResult = false /\
  exists e,
    DataConsistencyValidator.throwIfInvalid sampleInvalidResult (Some "Assessment 7")
    = DataConsistencyValidator.Raised e /\
    DataConsistencyValidator.message e
    = "Assessment 7: first problem; second problem".
Proof.
  split; [reflexivity |].
  pose proof (throwIfInvalid_raises_iff_invalid
                sampleInvalidResult (Some "Assessment 7")) as [Hiff [Hmsg _]].
  destruct (proj2 Hiff eq_refl) as [e He].
  exists e. split; [exact He |]. exact (Hmsg e He).
Defined.

(** C7, counterexample: an empty context string is a supplied context,
    and the message of the raised error carries no ': ' prefix. *)
Lemma throwIfInvalid_empty_context :
  exists e,
    DataConsistencyValidator.throwIfInvalid sampleInvalidResult (Some EmptyString)
    = DataConsistencyValidator.Raised e /\
    DataConsistencyValidator.message e = "first problem; second problem" /\
    DataConsistencyValidator.message e
    <> EmptyString ++ ": " ++ join "; " (DataConsistencyValidator.errors sampleInvalidResult).
Proof.
  eexists. split; [reflexivity |]. split; [reflexivity | discriminate].
Qed.

(** *** validateResponseCompleteness *)

Lemma bump_increment (n : nat) (info : DataConsistencyValidator.SectionItemCount) :
  bump (Z.of_nat n) (DataConsistencyValidator.increment info)
  = bump (Z.of_nat (S n)) info.
Proof.
  unfold bump, DataConsistencyValidator.increment. cbn. f_equal. lia.
Qed.

Lemma fold_countResponse (responses : list DataConsistencyValidator.Response) :
  forall counts,
    fold_left DataConsistencyValidator.countResponse responses counts
    = map (fun entry =>
             (fst entry,
              bump (Z.of_nat (List.length (filter (inInfoRange (snd entry)) responses)))
                (snd entry)))
        counts.
Proof.
  induction responses as [| r rest IH]; intros counts.
  - cbn [fold_left filter List.length]. rewrite <- (map_id counts) at 1.
    apply map_ext. intros [section info]. cbn [fst snd]. f_equal.
    destruct info. unfold bump. cbn. f_equal. lia.
  - cbn [fold_left]. rewrite IH.
    unfold DataConsistencyValidator.countResponse. rewrite map_map.
    apply map_ext. intros [section info]. cbn [fst snd filter].
    unfold inInfoRange at 2.
    destruct (DataConsistencyValidator.range info) as [minId maxId] eqn:Hrange.
    cbn [fst snd].
    destruct (num_ge (DataConsistencyValidator.getItemId r) minId
              && num_le (DataConsistencyValidator.getItemId r) maxId).
    + cbn [fst snd List.length]. f_equal. rewrite <- bump_increment.
      reflexivity.
    + reflexivity.
Qed.

Lemma sectionCount_filter (responses : list DataConsistencyValidator.Response)
  (section : SectionKey.t) :
  sectionCount responses section
  = Z.of_nat
      (List.length
         (filter (fun r => inCountedRange section (DataConsistencyValidator.getItemId r))
            responses)).
Proof.
  unfold sectionCount, DataConsistencyValidator.countedSections.
  rewrite fold_countResponse. destruct section; reflexivity.
Qed.

Lemma sectionItemCounts_has (section : SectionKey.t) :
  exists info, In (section, info) DataConsistencyValidator.sectionItemCounts.
Proof.
  destruct section; eexists; unfold DataConsistencyValidator.sectionItemCounts;
    pick_entry.
Qed.

Lemma in_countedSections (responses : list DataConsistencyValidator.Response)
  (section : SectionKey.t) (info : DataConsistencyValidator.SectionItemCount) :
  In (section, info) (DataConsistencyValidator.countedSections responses) ->
  DataConsistencyValidator.actual info = sectionCount responses section.
Proof.
  rewrite sectionCount_filter.
  unfold DataConsistencyValidator.countedSections. rewrite fold_countResponse.
  intros H. apply in_map_iff in H as ([section0 info0] & Heq & Hin).
  cbn [fst snd] in Heq. injection Heq as <- <-.
  unfold DataConsistencyValidator.sectionItemCounts in Hin. simpl in Hin.
  repeat (destruct Hin as [Hin | Hin];
          [injection Hin as <- <-; reflexivity |]).
  contradiction.
Qed.

Lemma countedSections_has (responses : list DataConsistencyValidator.Response)
  (section : SectionKey.t) :
  exists info, In (section, info) (DataConsistencyValidator.countedSections responses).
Proof.
  destruct (sectionItemCounts_has section) as [info0 Hin].
  unfold DataConsistencyValidator.countedSections. rewrite fold_countResponse.
  eexists. apply in_map_iff. exists (section, info0). split; [reflexivity | exact Hin].
Qed.

Lemma noResponsesFound_inj (a b : SectionKey.t) :
  noResponsesFound a = noResponsesFound b -> a = b.
Proof.
  intros H. apply (proj2 (String.eqb_eq _ _)) in H.
  destruct a, b; try reflexivity; vm_compute in H; discriminate.
Qed.

Lemma errors_fold_checkSection
  (counts : list (SectionKey.t * DataConsistencyValidator.SectionItemCount)) :
  forall result,
    DataConsistencyValidator.errors
      (fold_left DataConsistencyValidator.checkSection counts result)
    = (DataConsistencyValidator.errors result
       ++ map noResponsesFound
            (map fst
               (filter (fun entry => DataConsistencyValidator.actual (snd entry) =? 0)
                  counts)))%list.
Proof.
  induction counts as [| [section info] rest IH]; intros result.
  - simpl. now rewrite app_nil_r.
  - cbn [fold_left filter snd]. rewrite IH.
    unfold DataConsistencyValidator.checkSection.
    destruct (DataConsistencyValidator.actual info =? 0).
    + cbn [DataConsistencyValidator.addError DataConsistencyValidator.errors map fst].
      now rewrite <- app_assoc.
    + destruct (DataConsistencyValidator.below75 _ _); reflexivity.
Qed.

Lemma errors_checkDuplicates (ids : list number)
  (result : DataConsistencyValidator.ConsistencyCheckResult) (m : string) :
  In m (DataConsistencyValidator.errors
          (DataConsistencyValidator.checkDuplicates ids result)) <->
  In m (DataConsistencyValidator.errors result) \/
  (m = "Duplicate responses found for items: "
       ++ join ", "
            (map num_to_string
               (set_of same_value_zero
                  (filter_indexed
                     (fun id index =>
                        negb (DataConsistencyValidator.same_index (indexOf ids id) index))
                     O ids))) /\
   List.length (set_of same_value_zero ids) <> List.length ids).
Proof.
  unfold DataConsistencyValidator.checkDuplicates.
  destruct (Nat.eqb (List.length (set_of same_value_zero ids)) (List.length ids)) eqn:E;
    cbn [negb].
  - apply Nat.eqb_eq in E. split; [now left |]. intros [H | [_ H]]; [exact H | contradiction].
  - apply Nat.eqb_neq in E.
    cbn [DataConsistencyValidator.addError DataConsistencyValidator.errors].
    rewrite in_app_iff. simpl. split.
    + intros [H | [H | []]]; [now left | right]. now split.
    + intros [H | [H _]]; [now left | right; now left].
Qed.

Lemma errors_checkInvalidIds (ids : list number)
  (result : DataConsistencyValidator.ConsistencyCheckResult) (m : string) :
  In m (DataConsistencyValidator.errors
          (DataConsistencyValidator.checkInvalidIds ids result)) <->
  In m (DataConsistencyValidator.errors result) \/
  (m = "Invalid item IDs found: "
       ++ join ", "
            (map num_to_string (filter (fun id => num_lt id 1 || num_gt id 86) ids)) /\
   filter (fun id => num_lt id 1 || num_gt id 86) ids <> []).
Proof.
  unfold DataConsistencyValidator.checkInvalidIds.
  destruct (filter (fun id => num_lt id 1 || num_gt id 86) ids) as [| bad rest] eqn:E.
  - cbn. split; [now left |]. intros [H | [_ H]]; [exact H | congruence].
  - cbn [List.length Nat.eqb negb].
    cbn [DataConsistencyValidator.addError DataConsistencyValidator.errors].
    rewrite in_app_iff. simpl In. split.
    + intros [H | [H | []]]; [now left | right]. split; [now symmetry | discriminate].
    + intros [H | [H _]]; [now left | right; left; now symmetry].
Qed.

Lemma noResponsesFound_errors (responses : list DataConsistencyValidator.Response)
  (section : SectionKey.t) :
  In (noResponsesFound section)
    (DataConsistencyValidator.errors
       (DataConsistencyValidator.validateResponseCompleteness responses))
  <-> sectionCount responses section = 0.
Proof.
  unfold DataConsistencyValidator.validateResponseCompleteness.
  rewrite errors_checkInvalidIds, errors_checkDuplicates, errors_fold_checkSection.
  cbn [DataConsistencyValidator.errors app].
  split.
  - intros [[H | [H _]] | [H _]]; [| discriminate H | discriminate H].
    apply in_map_iff in H as (section' & Heq & Hin).
    apply noResponsesFound_inj in Heq. subst section'.
    apply in_map_iff in Hin as ([section0 info] & Heq & Hin).
    cbn [fst] in Heq. subst section0.
    apply filter_In in Hin as [Hin Hzero]. cbn [snd] in Hzero.
    rewrite <- (in_countedSections _ _ _ Hin). lia.
  - intros Hzero. left. left.
    destruct (countedSections_has responses section) as [info Hin].
    apply in_map_iff. exists section. split; [reflexivity |].
    apply in_map_iff. exists (section, info). split; [reflexivity |].
    apply filter_In. split; [exact Hin |]. cbn [snd].
    rewrite (in_countedSections _ _ _ Hin). lia.
Qed.

(** C1 (as the code has it): the completeness check counts a response
    toward a section when its item id lies in the section's range 1-8,
    9-14, 16-26, 27-34, 35-42, 43-52, 53-61, 62-75 or 76-85; ids 15 and
    86 lie in none of these ranges, so a response with item id 15 or 86
    increments no count.  The error 'No responses found for <section>
    section' is reported exactly when the section's count is 0; for the
    list holding only a response with item id 15 the result does contain
    'No responses found for visualProcessing section'. *)
Theorem completeness_counts_scored_ranges :
  map (fun section => (SectionKey.name section, countedRange section)) SectionKey.all
  = [ ("auditoryProcessing", (1, 8)); ("visualProcessing", (9, 14));
      ("tactileProcessing", (16, 26)); ("movementProcessing", (27, 34));
      ("bodyPositionProcessing", (35, 42)); ("oralSensitivityProcessing", (43, 52));
      ("behavioralResponses", (53, 61)); ("socialEmotionalResponses", (62, 75));
      ("attentionResponses", (76, 85)) ] /\
  (forall responses section,
     sectionCount responses section
     = Z.of_nat
         (List.length
            (filter (fun r => inCountedRange section (DataConsistencyValidator.getItemId r))
               responses))) /\
  (forall section,
     inCountedRange section (NInt 15) = false /\
     inCountedRange section (NInt 86) = false) /\
  (forall responses section,
     In ("No responses found for " ++ SectionKey.name section ++ " section")
       (DataConsistencyValidator.errors
          (DataConsistencyValidator.validateResponseCompleteness responses))
     <-> sectionCount responses section = 0) /\
  In "No responses found for visualProcessing section"
    (DataConsistencyValidator.errors
       (DataConsistencyValidator.validateResponseCompleteness [response15])).
Proof.
  split; [reflexivity |].
  split; [exact sectionCount_filter |].
  split; [intros section; destruct section; split; reflexivity |].
  split; [exact noResponsesFound_errors |].
  apply (noResponsesFound_errors [response15] SectionKey.visualProcessing).
  reflexivity.
Qed.

Lemma completeness_counts_scored_ranges_witness :
  sectionCount [response15; response86] SectionKey.attentionResponses = 0 /\
  In "No responses found for attentionResponses section"
    (DataConsistencyValidator.errors
       (DataConsistencyValidator.validateResponseCompleteness [response15; response86])).
Proof.
  split; [reflexivity |].
  apply (proj1 (proj2 (proj2 (proj2 completeness_counts_scored_ranges)))
           [response15; response86] SectionKey.attentionResponses).
  reflexivity.
Defined.

(** C1, counterexample: a response with item id 15 does not increment
    the visualProcessing count, one with item id 86 does not increment
    the attentionResponses count, and the result for the list holding
    only a response with item id 15 contains the error 'No responses
    found for visualProcessing section'. *)
Lemma completeness_ignores_15_and_86 :
  sectionCount [response15] SectionKey.visualProcessing = 0 /\
  sectionCount [response86] SectionKey.attentionResponses = 0 /\
  In "No responses found for visualProcessing section"
    (DataConsistencyValidator.errors
       (DataConsistencyValidator.validateResponseCompleteness [response15])).
Proof.
  split; [reflexivity |]. split; [reflexivity |]. simpl. tauto.
Qed.

(** Instances of the two general lemmas on rejected labels. *)
Example same_rejected_twice_sample :
  let results := calculateScores [mkResponse 5 "sometimes"; mkResponse 5 "sometimes"] in
  List.length (invalidResponses results) = 1%nat /\ validResponses results = 1.
Proof.
  destruct (calculateScores_same_rejected_twice 5 "sometimes"
              (invalid_response_message "sometimes")) as (H1 & H2 & _);
    [lia | lia | lia | reflexivity |].
  cbv zeta in *. rewrite H1, H2. split; reflexivity.
Qed.

Example excluded_rejected_sample :
  section_invalidResponses (calculateSectionScores [mkResponse 86 "sometimes"]) = [] /\
  List.length (quadrant_invalidResponses (calculateQuadrantScores [mkResponse 86 "sometimes"]))
  = 1%nat /\
  validResponses (calculateScores [mkResponse 86 "sometimes"]) = 0.
Proof.
  destruct (calculateScores_excluded_rejected 86 "sometimes"
              (invalid_response_message "sometimes")) as (H1 & H2 & _ & H4);
    [lia | reflexivity |].
  cbv zeta in *. rewrite H1, H2, H4. repeat split.
Qed.

(** ** Further properties of the scoring service *)

(** *** Score objects *)

Lemma SectionKey_eqb_eq (a b : SectionKey.t) :
  SectionKey.eqb a b = true <-> a = b.
Proof.
  split; [| intros ->; destruct b; reflexivity].
  destruct a, b; intros H; try reflexivity; vm_compute in H; discriminate.
Qed.

Lemma section_get_set {A : Type} (s : SectionScores A) (k k' : SectionKey.t) (v : A) :
  section_get (section_set s k v) k'
  = if SectionKey.eqb k k' then v else section_get s k'.
Proof. destruct k'; reflexivity. Qed.

Lemma quadrant_get_set {A : Type} (q : QuadrantScores A) (k k' : QuadrantKey.t) (v : A) :
  quadrant_get (quadrant_set q k v) k'
  = if quadrant_eqb k k' then v else quadrant_get q k'.
Proof. destruct k, k'; reflexivity. Qed.

Lemma section_scores_ext {A : Type} (s t : SectionScores A) :
  (forall k, section_get s k = section_get t k) -> s = t.
Proof.
  intros H. destruct s, t.
  pose proof (H SectionKey.auditoryProcessing).
  pose proof (H SectionKey.visualProcessing).
  pose proof (H SectionKey.tactileProcessing).
  pose proof (H SectionKey.movementProcessing).
  pose proof (H SectionKey.bodyPositionProcessing).
  pose proof (H SectionKey.oralSensitivityProcessing).
  pose proof (H SectionKey.behavioralResponses).
  pose proof (H SectionKey.socialEmotionalResponses).
  pose proof (H SectionKey.attentionResponses).
  cbn in *. congruence.
Qed.

(** *** Closed form of the section scores *)

Lemma sectionCallback_numeric (st : acc (SectionScores value)) (r : RawResponse)
  (a : SectionKey.t -> Z) :
  numericLabel r = true ->
  (forall k, section_get (fst st) k = VNumber (a k)) ->
  forall k,
    section_get (fst (sectionCallback st r)) k
    = VNumber (a k + sectionContribution k r).
Proof.
  intros Hnum Hst k.
  unfold sectionCallback, sectionContribution, numericLabel, mappedNumber in *.
  destruct (validateItemId (itemId r)) eqn:Hv; cbn [negb andb];
    [| cbn [push fst]; rewrite Hst; f_equal; lia].
  destruct (isExcludedFromScoring (itemId r)) eqn:He; cbn [negb];
    [rewrite Hst; f_equal; lia |].
  destruct (mapResponseToValue (response r)) as [[v | s | name |] | message];
    try discriminate; [| cbn [push fst]; rewrite Hst; f_equal; lia].
  destruct (scored_item_has_section _ Hv He) as [section ->].
  cbn [is_zero]. destruct (v =? 0) eqn:Hzero.
  - apply Z.eqb_eq in Hzero. subst v. rewrite Hst.
    destruct (SectionKey.eqb section k); f_equal; lia.
  - cbn [fst]. rewrite section_get_set.
    destruct (SectionKey.eqb section k) eqn:Hk.
    + apply SectionKey_eqb_eq in Hk. subst k. rewrite Hst. reflexivity.
    + rewrite Hst. f_equal. lia.
Qed.

Lemma fold_sectionCallback_numeric (responses : list RawResponse) :
  forall (st : acc (SectionScores value)) (a : SectionKey.t -> Z),
    forallb numericLabel responses = true ->
    (forall k, section_get (fst st) k = VNumber (a k)) ->
    forall k,
      section_get (fst (fold_left sectionCallback responses st)) k
      = VNumber (a k + Zsum (map (sectionContribution k) responses)).
Proof.
  induction responses as [| r rest IH]; intros st a Hall Hst k.
  - cbn. rewrite Hst. f_equal. lia.
  - cbn [forallb] in Hall. apply andb_prop in Hall as [Hr Hrest].
    cbn [fold_left map Zsum fold_right].
    rewrite (IH _ (fun k => a k + sectionContribution k r) Hrest).
    + f_equal. unfold Zsum. lia.
    + intros k'. now apply sectionCallback_numeric.
Qed.

Lemma section_scores_closed_form (responses : list RawResponse) (k : SectionKey.t) :
  forallb numericLabel responses = true ->
  section_get (section_scores (calculateSectionScores responses)) k
  = VNumber (Zsum (map (sectionContribution k) responses)).
Proof.
  intros Hall. unfold calculateSectionScores. cbn [section_scores].
  rewrite (fold_sectionCallback_numeric responses _ (fun _ => 0) Hall).
  - reflexivity.
  - intros k'. destruct k'; reflexivity.
Qed.

(** *** Bounds on the section scores *)

Lemma Object_prototype_not_number (key : string) (v : Z) :
  own_property Object_prototype key <> Some (VNumber v).
Proof.
  intros H. apply own_property_In in H. unfold Object_prototype in H.
  simpl in H. repeat (destruct H as [H | H]; [discriminate H |]). exact H.
Qed.

Lemma mappedNumber_own (label : string) (v : Z) :
  mappedNumber label = Some v <->
  own_property responseMap (trim (toLowerCase label)) = Some v.
Proof.
  unfold mappedNumber, mapResponseToValue, get.
  destruct (own_property responseMap (trim (toLowerCase label))) as [n |] eqn:Hown.
  - split; intros H; injection H as <-; reflexivity.
  - split; [| discriminate].
    destruct (own_property Object_prototype (trim (toLowerCase label)))
      as [[n | s | name |] |] eqn:Hproto; try discriminate.
    now apply Object_prototype_not_number in Hproto.
Qed.

Lemma mappedNumber_range (label : string) (v : Z) :
  mappedNumber label = Some v -> 0 <= v <= 5.
Proof.
  intros H. apply mappedNumber_own in H. now apply responseMap_values in H.
Qed.

Lemma sectionContribution_range (k : SectionKey.t) (r : RawResponse) :
  0 <= sectionContribution k r <= (if inSection k r then 5 else 0).
Proof.
  unfold sectionContribution, inSection.
  destruct (validateItemId (itemId r) && negb (isExcludedFromScoring (itemId r)));
    [| destruct (item_lookup sectionMap (itemId r)) as [k' |];
       [destruct (SectionKey.eqb k' k) |]; lia].
  destruct (mappedNumber (response r)) as [v |] eqn:Hv.
  - apply mappedNumber_range in Hv.
    destruct (item_lookup sectionMap (itemId r)) as [k' |];
      [destruct (SectionKey.eqb k' k) |]; lia.
  - destruct (item_lookup sectionMap (itemId r)) as [k' |];
      [destruct (SectionKey.eqb k' k) |]; lia.
Qed.

Lemma Zsum_sectionContribution (k : SectionKey.t) (responses : list RawResponse) :
  0 <= Zsum (map (sectionContribution k) responses)
    <= 5 * Z.of_nat (List.length (filter (inSection k) responses)).
Proof.
  induction responses as [| r rest IH]; [cbn; lia |].
  cbn [map Zsum fold_right filter]. fold (Zsum (map (sectionContribution k) rest)).
  pose proof (sectionContribution_range k r) as Hr.
  destruct (inSection k r); cbn [List.length]; lia.
Qed.

Lemma assoc_In {A : Type} (table : list (Z * A)) (z : Z) (v : A) :
  assoc table z = Some v -> In (z, v) table.
Proof.
  induction table as [| [k w] rest IH]; cbn; [discriminate |].
  destruct (k =? z) eqn:E.
  - apply Z.eqb_eq in E. intros H. injection H as <-. subst. now left.
  - intros H. right. now apply IH.
Qed.

Lemma filter_keeps_distinct {X Y : Type} (key : X -> Y) (keep : X -> bool) :
  forall xs : list X, NoDup (map key xs) -> NoDup (map key (filter keep xs)).
Proof.
  intros xs. induction xs as [| x rest IH]; cbn; [constructor |].
  intros H. inversion H as [| ? ? Hnotin Hrest]; subst.
  destruct (keep x); [| now apply IH].
  cbn. constructor; [| now apply IH].
  intros Hin. apply Hnotin. apply in_map_iff in Hin as (y & Hy & Hin).
  apply in_map_iff. exists y. split; [exact Hy |].
  now apply filter_In in Hin as [Hin _].
Qed.

Lemma inSection_items (k : SectionKey.t) (r : RawResponse) :
  inSection k r = true -> In (itemId r) (map NInt (sectionItems k)).
Proof.
  unfold inSection, sectionItems.
  destruct (itemId r) as [z | | |] eqn:Hid; cbn [item_lookup]; try discriminate.
  destruct (assoc sectionMap z) as [k' |] eqn:Hz; [| discriminate].
  intros Hk. apply in_map. apply assoc_In in Hz.
  apply in_map_iff. exists (z, k'). split; [reflexivity |].
  apply filter_In. split; [exact Hz | exact Hk].
Qed.

Lemma distinct_items_in_section (k : SectionKey.t) (responses : list RawResponse) :
  NoDup (map itemId responses) ->
  Z.of_nat (List.length (filter (inSection k) responses)) <= itemCount k.
Proof.
  intros Hnodup.
  assert (Hlen : (List.length (map itemId (filter (inSection k) responses))
                  <= List.length (map NInt (sectionItems k)))%nat).
  { apply NoDup_incl_length; [now apply filter_keeps_distinct |].
    intros id Hin. apply in_map_iff in Hin as (r & <- & Hr).
    apply filter_In in Hr as [_ Hr]. now apply inSection_items. }
  assert (Hcount : itemCount k = Z.of_nat (List.length (map NInt (sectionItems k))))
    by (unfold itemCount, sectionItems; now rewrite !length_map).
  rewrite Hcount. apply Nat2Z.inj_le.
  rewrite <- (length_map itemId). exact Hlen.
Qed.

Lemma sectionRanges_itemCount (k : SectionKey.t) :
  min (sectionRanges getExpectedScoreRanges k) = itemCount k /\
  max (sectionRanges getExpectedScoreRanges k) = 5 * itemCount k.
Proof. destruct k; split; reflexivity. Qed.

(** X1: when every label is mapped to a number or rejected, each section
    score is a number, namely the sum over the responses of the number
    of the label for those responses whose item id is valid, not
    excluded and assigned to the section; it lies between 0 and five
    times the number of responses assigned to the section. *)
Theorem section_scores_are_sums (responses : list RawResponse) (k : SectionKey.t) :
  forallb numericLabel responses = true ->
  section_get (section_scores (calculateSectionScores responses)) k
  = VNumber (Zsum (map (sectionContribution k) responses)) /\
  0 <= Zsum (map (sectionContribution k) responses)
    <= 5 * Z.of_nat (List.length (filter (inSection k) responses)).
Proof.
  intros Hall. split; [now apply section_scores_closed_form |].
  apply Zsum_sectionContribution.
Qed.

Lemma section_scores_are_sums_witness :
  section_get
    (section_scores
       (calculateSectionScores
          [mkResponse 1 "always"; mkResponse 2 "sometimes"; mkResponse 9 "never";
           mkResponse 3 "rarely"; mkResponse 15 "always"; mkResponse 90 "always"]))
    SectionKey.auditoryProcessing
  = VNumber 7.
Proof.
  exact (proj1 (section_scores_are_sums
                  [mkResponse 1 "always"; mkResponse 2 "sometimes"; mkResponse 9 "never";
                   mkResponse 3 "rarely"; mkResponse 15 "always"; mkResponse 90 "always"]
                  SectionKey.auditoryProcessing eq_refl)).
Defined.

(** X2: when every label is mapped to a number or rejected and no item
    id occurs twice, no section score exceeds the maximum of the
    section's expected range (and none is negative). *)
Theorem distinct_items_stay_below_max (responses : list RawResponse) (k : SectionKey.t) :
  forallb numericLabel responses = true ->
  NoDup (map itemId responses) ->
  exists n,
    section_get (section_scores (calculateSectionScores responses)) k = VNumber n /\
    0 <= n <= max (sectionRanges getExpectedScoreRanges k).
Proof.
  intros Hall Hnodup. exists (Zsum (map (sectionContribution k) responses)).
  split; [now apply section_scores_closed_form |].
  pose proof (Zsum_sectionContribution k responses).
  pose proof (distinct_items_in_section k responses Hnodup).
  destruct (sectionRanges_itemCount k) as [_ ->]. lia.
Qed.

Lemma distinct_items_stay_below_max_witness :
  exists n,
    section_get
      (section_scores
         (calculateSectionScores
            [mkResponse 9 "always"; mkResponse 10 "quase sempre";
             mkResponse 11 "almost always"; mkResponse 12 "always";
             mkResponse 13 "always"; mkResponse 14 "always";
             mkResponse 15 "always"]))
      SectionKey.visualProcessing = VNumber n /\
    0 <= n <= 30.
Proof.
  apply (distinct_items_stay_below_max
           [mkResponse 9 "always"; mkResponse 10 "quase sempre";
            mkResponse 11 "almost always"; mkResponse 12 "always";
            mkResponse 13 "always"; mkResponse 14 "always";
            mkResponse 15 "always"]
           SectionKey.visualProcessing eq_refl).
  repeat (constructor; [simpl; intuition discriminate |]). constructor.
Defined.

(** *** Order of the responses *)

Lemma Zsum_Permutation (l l' : list Z) : Permutation l l' -> Zsum l = Zsum l'.
Proof.
  intros H. induction H; cbn [Zsum fold_right] in *; unfold Zsum in *; lia.
Qed.

Lemma forallb_Permutation {A : Type} (p : A -> bool) (l l' : list A) :
  Permutation l l' -> forallb p l = true -> forallb p l' = true.
Proof.
  intros H Hall. rewrite forallb_forall in *.
  intros x Hx. apply Hall. apply (Permutation_in x (Permutation_sym H) Hx).
Qed.

(** X3: when every label is mapped to a number or rejected, the section
    scores do not depend on the order in which the responses arrive. *)
Theorem section_scores_order_independent (responses responses' : list RawResponse) :
  Permutation responses responses' ->
  forallb numericLabel responses = true ->
  section_scores (calculateSectionScores responses)
  = section_scores (calculateSectionScores responses').
Proof.
  intros Hperm Hall. apply section_scores_ext. intros k.
  rewrite (section_scores_closed_form responses k Hall).
  rewrite (section_scores_closed_form responses' k
             (forallb_Permutation _ _ _ Hperm Hall)).
  f_equal. apply Zsum_Permutation. now apply Permutation_map.
Qed.

Lemma section_scores_order_independent_witness :
  section_scores
    (calculateSectionScores
       [mkResponse 1 "always"; mkResponse 20 "rarely"; mkResponse 2 "never"])
  = section_scores
      (calculateSectionScores
         [mkResponse 2 "never"; mkResponse 1 "always"; mkResponse 20 "rarely"]).
Proof.
  apply section_scores_order_independent; [| reflexivity].
  apply Permutation_sym.
  apply (Permutation_cons_app [mkResponse 1 "always"; mkResponse 20 "rarely"] []).
  cbn. apply Permutation_refl.
Defined.

(** With a label that names a member of Object.prototype the order
    matters: the score is a string built by concatenation. *)
Example section_scores_order_matters :
  section_scores
    (calculateSectionScores [mkResponse 1 "always"; mkResponse 2 "constructor"])
  <> section_scores
       (calculateSectionScores [mkResponse 2 "constructor"; mkResponse 1 "always"]).
Proof.
  intros H. apply (f_equal auditoryProcessing) in H.
  vm_compute in H. discriminate H.
Qed.

(** *** One more response *)

Lemma Zsum_app (l l' : list Z) : Zsum (l ++ l') = Zsum l + Zsum l'.
Proof.
  induction l as [| x rest IH]; cbn [app Zsum fold_right] in *; unfold Zsum in *; lia.
Qed.

Lemma numericLabel_own (z : Z) (label : string) (v : Z) :
  own_property responseMap (trim (toLowerCase label)) = Some v ->
  numericLabel (mkResponse z label) = true.
Proof.
  intros H. unfold numericLabel. cbn [response mkResponse].
  now rewrite (mapResponseToValue_recognized label v H).
Qed.

(** X4: a response to an item that the section map assigns to a section,
    with a recognized label of value [v] (0 for the not-applicable
    labels), adds exactly [v] to that section and leaves the eight other
    sections as they are, whatever numeric responses came before. *)
Theorem scored_response_adds_value
  (before : list RawResponse) (z : Z) (label : string) (v : Z)
  (section k : SectionKey.t) :
  forallb numericLabel before = true ->
  item_lookup sectionMap (NInt z) = Some section ->
  own_property responseMap (trim (toLowerCase label)) = Some v ->
  exists n,
    section_get (section_scores (calculateSectionScores before)) k = VNumber n /\
    section_get
      (section_scores (calculateSectionScores (before ++ [mkResponse z label]))) k
    = VNumber (if SectionKey.eqb section k then n + v else n).
Proof.
  intros Hall Hsection Hown.
  exists (Zsum (map (sectionContribution k) before)).
  split; [now apply section_scores_closed_form |].
  rewrite section_scores_closed_form.
  - rewrite map_app, Zsum_app. cbn [map Zsum fold_right]. f_equal.
    unfold sectionContribution. cbn [itemId response mkResponse].
    rewrite Hsection. rewrite (proj2 (mappedNumber_own label v) Hown).
    assert (Hin : In (z, section) sectionMap)
      by (apply assoc_In; exact Hsection).
    assert (Hz : 1 <= z <= 86 /\ z <> 15 /\ z <> 86).
    { assert (Hall' : Forall (fun entry : Z * SectionKey.t =>
                                1 <= fst entry <= 86
                                /\ fst entry <> 15 /\ fst entry <> 86) sectionMap)
        by (unfold sectionMap; repeat constructor; cbn; lia).
      rewrite Forall_forall in Hall'. exact (Hall' _ Hin). }
    rewrite (validateItemId_int z (proj1 Hz)).
    assert (He : isExcludedFromScoring (NInt z) = false).
    { unfold isExcludedFromScoring. cbn. apply orb_false_intro; lia. }
    rewrite He. cbn [negb andb].
    destruct (SectionKey.eqb section k); lia.
  - rewrite forallb_app, Hall. cbn [forallb andb].
    now rewrite (numericLabel_own z label v Hown).
Qed.

Lemma scored_response_adds_value_witness :
  exists n,
    section_get
      (section_scores (calculateSectionScores [mkResponse 27 "always"]))
      SectionKey.movementProcessing = VNumber n /\
    section_get
      (section_scores
         (calculateSectionScores ([mkResponse 27 "always"] ++ [mkResponse 30 " Frequentemente "])))
      SectionKey.movementProcessing
    = VNumber (n + 4).
Proof.
  exact (scored_response_adds_value [mkResponse 27 "always"] 30 " Frequentemente " 4
           SectionKey.movementProcessing SectionKey.movementProcessing
           eq_refl eq_refl eq_refl).
Defined.

(** *** Sets built from arrays *)

Section SetOf.

Variable A : Type.
Variable eqb : A -> A -> bool.
Hypothesis eqb_eq : forall x y, eqb x y = true <-> x = y.

Lemma set_insert_In (seen : list A) (x y : A) :
  In x (set_insert eqb seen y) <-> In x seen \/ x = y.
Proof.
  induction seen as [| z rest IH]; cbn [set_insert].
  - cbn. intuition.
  - destruct (eqb z y) eqn:E.
    + apply eqb_eq in E. subst z. cbn. intuition.
    + cbn [In]. rewrite IH. intuition.
Qed.

Lemma set_insert_NoDup (seen : list A) (y : A) :
  NoDup seen -> NoDup (set_insert eqb seen y).
Proof.
  induction seen as [| z rest IH]; cbn [set_insert]; intros H.
  - constructor; [intros [] | constructor].
  - destruct (eqb z y) eqn:E; [exact H |].
    inversion H as [| ? ? Hnotin Hrest]; subst.
    constructor; [| now apply IH].
    rewrite set_insert_In. intros [Hin | ->]; [now apply Hnotin |].
    assert (Hrefl : eqb y y = true) by now apply eqb_eq.
    congruence.
Qed.

Lemma set_insert_fresh (seen : list A) (y : A) :
  ~ In y seen -> set_insert eqb seen y = (seen ++ [y])%list.
Proof.
  induction seen as [| z rest IH]; cbn [set_insert app]; intros H; [reflexivity |].
  destruct (eqb z y) eqn:E.
  - apply eqb_eq in E. subst z. exfalso. apply H. now left.
  - f_equal. apply IH. intros Hin. apply H. now right.
Qed.

Lemma fold_set_insert_In (l : list A) :
  forall seen x,
    In x (fold_left (set_insert eqb) l seen) <-> In x seen \/ In x l.
Proof.
  induction l as [| y rest IH]; intros seen x; cbn [fold_left].
  - cbn. intuition.
  - rewrite IH, set_insert_In. cbn [In]. intuition.
Qed.

Lemma fold_set_insert_NoDup (l : list A) :
  forall seen, NoDup seen -> NoDup (fold_left (set_insert eqb) l seen).
Proof.
  induction l as [| y rest IH]; intros seen H; cbn [fold_left]; [exact H |].
  apply IH. now apply set_insert_NoDup.
Qed.

Lemma fold_set_insert_distinct (l : list A) :
  forall seen,
    NoDup (seen ++ l) -> fold_left (set_insert eqb) l seen = (seen ++ l)%list.
Proof.
  induction l as [| y rest IH]; intros seen H; cbn [fold_left].
  - now rewrite app_nil_r.
  - rewrite set_insert_fresh.
    + rewrite IH; rewrite <- app_assoc; [reflexivity | exact H].
    + apply NoDup_remove_2 in H. intros Hin. apply H.
      apply in_or_app. now left.
Qed.

Lemma set_of_In (l : list A) (x : A) : In x (set_of eqb l) <-> In x l.
Proof. unfold set_of. rewrite fold_set_insert_In. cbn. intuition. Qed.

Lemma set_of_NoDup (l : list A) : NoDup (set_of eqb l).
Proof. unfold set_of. apply fold_set_insert_NoDup. constructor. Qed.

Lemma set_of_length (l : list A) :
  (List.length (set_of eqb l) <= List.length l)%nat.
Proof.
  apply NoDup_incl_length; [apply set_of_NoDup |].
  intros x Hx. now apply set_of_In.
Qed.

Lemma set_of_same_length (l : list A) :
  List.length (set_of eqb l) = List.length l <-> NoDup l.
Proof.
  split.
  - intros Hlen. apply (NoDup_incl_NoDup (l := set_of eqb l)).
    + apply set_of_NoDup.
    + rewrite Hlen. apply le_n.
    + intros x Hx. now apply set_of_In.
  - intros H. unfold set_of. now rewrite fold_set_insert_distinct.
Qed.

End SetOf.

(** *** Invalid-response messages *)

Lemma fold_sectionCallback_snd (responses : list RawResponse) :
  forall st,
    snd (fold_left sectionCallback responses st)
    = (snd st ++ flat_map sectionMessages responses)%list.
Proof.
  induction responses as [| r rest IH]; intros st; cbn [fold_left flat_map].
  - now rewrite app_nil_r.
  - rewrite IH. rewrite app_assoc. f_equal.
    unfold sectionCallback, sectionMessages.
    destruct (validateItemId (itemId r)) eqn:Hv; cbn [negb]; [| reflexivity].
    destruct (isExcludedFromScoring (itemId r)) eqn:He; [now rewrite app_nil_r |].
    destruct (mapResponseToValue (response r)) as [v | message]; [| reflexivity].
    destruct (is_zero v); [now rewrite app_nil_r |].
    destruct (scored_item_has_section _ Hv He) as [section ->].
    cbn [snd]. now rewrite app_nil_r.
Qed.

Lemma fold_quadrantCallback_snd (responses : list RawResponse) :
  forall st,
    snd (fold_left quadrantCallback responses st)
    = (snd st ++ flat_map quadrantMessages responses)%list.
Proof.
  induction responses as [| r rest IH]; intros st; cbn [fold_left flat_map].
  - now rewrite app_nil_r.
  - rewrite IH. rewrite app_assoc. f_equal.
    unfold quadrantCallback, quadrantMessages.
    destruct (validateItemId (itemId r)) eqn:Hv; cbn [negb]; [| reflexivity].
    destruct (mapResponseToValue (response r)) as [v | message]; [| reflexivity].
    destruct (item_lookup quadrantMap (itemId r)); cbn [snd]; now rewrite app_nil_r.
Qed.

Lemma sectionMessages_incl (r : RawResponse) :
  incl (sectionMessages r) (quadrantMessages r).
Proof.
  unfold sectionMessages, quadrantMessages.
  destruct (negb (validateItemId (itemId r))); [apply incl_refl |].
  destruct (isExcludedFromScoring (itemId r)); [intros m [] | apply incl_refl].
Qed.

Lemma quadrantMessages_length (responses : list RawResponse) :
  (List.length (flat_map quadrantMessages responses) <= List.length responses)%nat.
Proof.
  induction responses as [| r rest IH]; cbn [flat_map List.length]; [apply le_n |].
  rewrite length_app.
  assert (H : (List.length (quadrantMessages r) <= 1)%nat).
  { unfold quadrantMessages. destruct (negb (validateItemId (itemId r))); [apply le_n |].
    destruct (mapResponseToValue (response r)); cbn; auto. }
  lia.
Qed.

(** X5: the combined invalidResponses list has no duplicates and holds
    exactly the messages of the quadrant calculator (every message of
    the section calculator is among them); there are at most as many as
    responses, so validResponses lies between 0 and totalItems. *)
Theorem validResponses_bounds (responses : list RawResponse) :
  let results := calculateScores responses in
  NoDup (invalidResponses results) /\
  incl (section_invalidResponses (calculateSectionScores responses))
    (quadrant_invalidResponses (calculateQuadrantScores responses)) /\
  (forall m,
     In m (invalidResponses results) <->
     In m (quadrant_invalidResponses (calculateQuadrantScores responses))) /\
  0 <= validResponses results <= totalItems results.
Proof.
  cbv zeta.
  assert (Hincl : incl (section_invalidResponses (calculateSectionScores responses))
                    (quadrant_invalidResponses (calculateQuadrantScores responses))).
  { unfold calculateSectionScores, calculateQuadrantScores.
    cbn [section_invalidResponses quadrant_invalidResponses].
    rewrite fold_sectionCallback_snd, fold_quadrantCallback_snd. cbn [snd app].
    intros m Hm. apply in_flat_map in Hm as (r & Hr & Hm).
    apply in_flat_map. exists r. split; [exact Hr |].
    now apply sectionMessages_incl. }
  assert (Hin : forall m,
             In m (invalidResponses (calculateScores responses)) <->
             In m (quadrant_invalidResponses (calculateQuadrantScores responses))).
  { intros m. unfold calculateScores. cbn [invalidResponses].
    rewrite (set_of_In _ _ String.eqb_eq). rewrite in_app_iff.
    split; [intros [H | H]; [now apply Hincl | exact H] | now right]. }
  assert (Hnodup : NoDup (invalidResponses (calculateScores responses)))
    by (unfold calculateScores; cbn [invalidResponses];
        apply (set_of_NoDup _ _ String.eqb_eq)).
  split; [exact Hnodup |]. split; [exact Hincl |]. split; [exact Hin |].
  assert (Hlen : (List.length (invalidResponses (calculateScores responses))
                  <= List.length responses)%nat).
  { transitivity (List.length
                    (quadrant_invalidResponses (calculateQuadrantScores responses))).
    - apply NoDup_incl_length; [exact Hnodup |]. intros m Hm. now apply Hin.
    - unfold calculateQuadrantScores. cbn [quadrant_invalidResponses].
      rewrite fold_quadrantCallback_snd. cbn [snd app].
      apply quadrantMessages_length. }
  unfold calculateScores in *.
  cbn [validResponses totalItems invalidResponses] in *. lia.
Qed.

Lemma validResponses_bounds_witness :
  In "Invalid item ID: 0"
    (invalidResponses
       (calculateScores [mkResponse 0 "always"; mkResponse 15 "often"; mkResponse 0 "never"])).
Proof.
  apply (proj1 (proj2 (proj2 (validResponses_bounds
           [mkResponse 0 "always"; mkResponse 15 "often"; mkResponse 0 "never"])))).
  vm_compute. now left.
Defined.

(** *** Quadrant scores *)

Lemma quadrant_eqb_eq (a b : QuadrantKey.t) : quadrant_eqb a b = true <-> a = b.
Proof. destruct a, b; cbn; split; intros H; try reflexivity; discriminate. Qed.

Lemma quadrantCallback_numeric (st : acc (QuadrantScores value)) (r : RawResponse)
  (a : QuadrantKey.t -> Z) :
  numericLabel r = true ->
  (forall q, quadrant_get (fst st) q = VNumber (a q)) ->
  forall q,
    quadrant_get (fst (quadrantCallback st r)) q
    = VNumber (a q + quadrantContribution q r).
Proof.
  intros Hnum Hst q.
  unfold quadrantCallback, quadrantContribution, numericLabel, mappedNumber in *.
  destruct (validateItemId (itemId r)) eqn:Hv; cbn [negb];
    [| cbn [push fst]; rewrite Hst; f_equal; lia].
  destruct (mapResponseToValue (response r)) as [[v | s | name |] | message];
    try discriminate; [| cbn [push fst]; rewrite Hst; f_equal; lia].
  destruct (item_lookup quadrantMap (itemId r)) as [q' |];
    [| rewrite Hst; f_equal; lia].
  cbn [fst]. rewrite quadrant_get_set.
  destruct (quadrant_eqb q' q) eqn:Hq.
  - apply quadrant_eqb_eq in Hq. subst q. rewrite Hst. reflexivity.
  - rewrite Hst. f_equal. lia.
Qed.

Lemma fold_quadrantCallback_numeric (responses : list RawResponse) :
  forall (st : acc (QuadrantScores value)) (a : QuadrantKey.t -> Z),
    forallb numericLabel responses = true ->
    (forall q, quadrant_get (fst st) q = VNumber (a q)) ->
    forall q,
      quadrant_get (fst (fold_left quadrantCallback responses st)) q
      = VNumber (a q + Zsum (map (quadrantContribution q) responses)).
Proof.
  induction responses as [| r rest IH]; intros st a Hall Hst q.
  - cbn. rewrite Hst. f_equal. lia.
  - cbn [forallb] in Hall. apply andb_prop in Hall as [Hr Hrest].
    cbn [fold_left map Zsum fold_right].
    rewrite (IH _ (fun q => a q + quadrantContribution q r) Hrest).
    + f_equal. unfold Zsum. lia.
    + intros q'. now apply quadrantCallback_numeric.
Qed.

Lemma quadrantContribution_range (q : QuadrantKey.t) (r : RawResponse) :
  0 <= quadrantContribution q r <= 5.
Proof.
  unfold quadrantContribution.
  destruct (validateItemId (itemId r)); [| lia].
  destruct (mappedNumber (response r)) as [v |] eqn:Hv; [| lia].
  apply mappedNumber_range in Hv.
  destruct (item_lookup quadrantMap (itemId r)) as [q' |];
    [destruct (quadrant_eqb q' q) |]; lia.
Qed.

Lemma Zsum_quadrantContribution (q : QuadrantKey.t) (responses : list RawResponse) :
  0 <= Zsum (map (quadrantContribution q) responses)
    <= 5 * Z.of_nat (List.length responses).
Proof.
  induction responses as [| r rest IH]; [cbn; lia |].
  cbn [map Zsum fold_right List.length].
  fold (Zsum (map (quadrantContribution q) rest)).
  pose proof (quadrantContribution_range q r). lia.
Qed.

(** X6: when every label is mapped to a number or rejected, each
    quadrant score is a number: the sum, over the responses with a valid
    item id assigned to the quadrant, of the number of the label.  The
    items excluded from section scoring are not left out here. *)
Theorem quadrant_scores_are_sums (responses : list RawResponse) (q : QuadrantKey.t) :
  forallb numericLabel responses = true ->
  quadrant_get (quadrant_scores (calculateQuadrantScores responses)) q
  = VNumber (Zsum (map (quadrantContribution q) responses)) /\
  0 <= Zsum (map (quadrantContribution q) responses)
    <= 5 * Z.of_nat (List.length responses).
Proof.
  intros Hall. split; [| apply Zsum_quadrantContribution].
  unfold calculateQuadrantScores. cbn [quadrant_scores].
  rewrite (fold_quadrantCallback_numeric responses _ (fun _ => 0) Hall).
  - reflexivity.
  - intros q'. destruct q'; reflexivity.
Qed.

Lemma quadrant_scores_are_sums_witness :
  quadrant_get
    (quadrant_scores
       (calculateQuadrantScores
          [mkResponse 15 "always"; mkResponse 1 "rarely"; mkResponse 4 "always";
           mkResponse 86 "never"; mkResponse 2 "não se aplica"; mkResponse 5 "maybe"]))
    QuadrantKey.sensoryAvoidance
  = VNumber 7.
Proof.
  exact (proj1 (quadrant_scores_are_sums
                  [mkResponse 15 "always"; mkResponse 1 "rarely"; mkResponse 4 "always";
                   mkResponse 86 "never"; mkResponse 2 "não se aplica"; mkResponse 5 "maybe"]
                  QuadrantKey.sensoryAvoidance eq_refl)).
Defined.

Lemma quadrantMap_entries (z : Z) :
  1 <= z <= 86 ->
  (key_count quadrantMap z <= 1)%nat /\
  (has_entry quadrantMap z = false <-> In z itemsWithoutQuadrant).
Proof.
  intros Hz.
  pose (P := fun z : Z =>
               Nat.leb (key_count quadrantMap z) 1
               && Bool.eqb (negb (has_entry quadrantMap z))
                    (existsb (Z.eqb z) itemsWithoutQuadrant)).
  assert (HP : P z = true)
    by (apply forall_itemIds; [vm_compute; reflexivity | exact Hz]).
  unfold P in HP. apply andb_prop in HP as [H1 H2].
  apply Nat.leb_le in H1. apply eqb_prop in H2.
  split; [exact H1 |].
  rewrite <- negb_true_iff, H2, existsb_exists.
  split.
  - intros (y & Hy & Heq). apply Z.eqb_eq in Heq. now subst y.
  - intros Hin. exists z. split; [exact Hin | apply Z.eqb_refl].
Qed.

(** X7: every id in 1..86 has at most one entry in the quadrant map, and
    the ids without an entry are 4, 7, 10, 11, 17, 29, 42 and 43.  A
    response to one of these with a recognized label changes neither
    the quadrant scores nor the recorded messages, whatever the
    responses before it. *)
Theorem items_without_quadrant (z : Z) :
  1 <= z <= 86 ->
  (key_count quadrantMap z <= 1)%nat /\
  (item_lookup quadrantMap (NInt z) = None <-> In z itemsWithoutQuadrant) /\
  (In z itemsWithoutQuadrant ->
   forall (before : list RawResponse) (label : string) (v : Z),
     own_property responseMap (trim (toLowerCase label)) = Some v ->
     calculateQuadrantScores (before ++ [mkResponse z label])
     = calculateQuadrantScores before).
Proof.
  intros Hz. destruct (quadrantMap_entries z Hz) as [Hcount Hnone].
  assert (Hlookup : item_lookup quadrantMap (NInt z) = None <-> In z itemsWithoutQuadrant).
  { rewrite <- Hnone. rewrite item_lookup_int. unfold has_entry.
    destruct (assoc quadrantMap z); split; intros H; try reflexivity; discriminate. }
  split; [exact Hcount |]. split; [exact Hlookup |].
  intros Hin before label v Hown.
  unfold calculateQuadrantScores. rewrite fold_left_app. cbn [fold_left].
  unfold quadrantCallback at 1 3. cbn [itemId response mkResponse].
  rewrite (validateItemId_int z Hz). cbn [negb].
  rewrite (mapResponseToValue_recognized label v Hown).
  rewrite (proj2 Hlookup Hin). reflexivity.
Qed.

Lemma items_without_quadrant_witness :
  calculateQuadrantScores ([mkResponse 1 "always"] ++ [mkResponse 29 "frequently"])
  = calculateQuadrantScores [mkResponse 1 "always"].
Proof.
  apply (proj2 (proj2 (items_without_quadrant 29 ltac:(lia))))
    with (v := 4); [cbn; tauto | reflexivity].
Defined.

(** *** The three tables agree *)

Lemma assignedTo_eq (section : SectionKey.t) (z : Z) :
  assignedTo section z = true <-> item_lookup sectionMap (NInt z) = Some section.
Proof.
  unfold assignedTo. rewrite item_lookup_int.
  destruct (assoc sectionMap z) as [section' |]; [| split; discriminate].
  rewrite SectionKey_eqb_eq. split; [now intros -> | intros H; now injection H].
Qed.

(** X8: the section map of the scoring service, the id ranges of the
    completeness check and the expected score ranges describe the same
    sections: an id is assigned to a section exactly when it lies in the
    range the completeness check counts for that section, and the
    number of ids in that range is the number of items of the section,
    which is the minimum of its expected score range. *)
Theorem taxonomy_tables_agree (section : SectionKey.t) :
  (forall z : Z,
     item_lookup sectionMap (NInt z) = Some section
     <-> inCountedRange section (NInt z) = true) /\
  expectedCount section = itemCount section /\
  min (sectionRanges getExpectedScoreRanges section) = expectedCount section /\
  max (sectionRanges getExpectedScoreRanges section) = 5 * expectedCount section.
Proof.
  split; [| destruct section; repeat split].
  intros z. rewrite <- assignedTo_eq.
  destruct (Z_le_gt_dec 1 z) as [Hlo |];
    [destruct (Z_le_gt_dec z 86) as [Hhi |] |].
  - pose (P := fun z : Z =>
                 forallb (fun k => Bool.eqb (assignedTo k z) (inCountedRange k (NInt z)))
                   SectionKey.all).
    assert (HP : P z = true)
      by (apply forall_itemIds; [vm_compute; reflexivity | lia]).
    unfold P in HP. rewrite forallb_forall in HP.
    assert (Hk : In section SectionKey.all) by (destruct section; cbn; tauto).
    apply HP, eqb_prop in Hk. now rewrite Hk.
  - split; intros H; exfalso.
    + unfold assignedTo in H.
      destruct (assoc sectionMap z) as [k |] eqn:Hz; [| discriminate].
      apply assoc_In in Hz.
      assert (Hall : Forall (fun entry : Z * SectionKey.t => fst entry <= 86) sectionMap)
        by (unfold sectionMap; repeat constructor; cbn; lia).
      rewrite Forall_forall in Hall. specialize (Hall _ Hz). cbn in Hall. lia.
    + destruct section; unfold inCountedRange in H; cbn in H;
        apply andb_prop in H as [H1 H2]; lia.
  - split; intros H; exfalso.
    + unfold assignedTo in H.
      destruct (assoc sectionMap z) as [k |] eqn:Hz; [| discriminate].
      apply assoc_In in Hz.
      assert (Hall : Forall (fun entry : Z * SectionKey.t => 1 <= fst entry) sectionMap)
        by (unfold sectionMap; repeat constructor; cbn; lia).
      rewrite Forall_forall in Hall. specialize (Hall _ Hz). cbn in Hall. lia.
    + destruct section; unfold inCountedRange in H; cbn in H;
        apply andb_prop in H as [H1 H2]; lia.
Qed.

Lemma taxonomy_tables_agree_witness :
  inCountedRange SectionKey.tactileProcessing (NInt 16) = true.
Proof.
  apply (proj1 (taxonomy_tables_agree SectionKey.tactileProcessing) 16).
  reflexivity.
Defined.

(** ** Further properties of the consistency validator *)

Lemma same_value_zero_eq (x y : number) : same_value_zero x y = true <-> x = y.
Proof.
  destruct x as [a | a s | | a], y as [b | b t | | b]; cbn;
    try (split; [discriminate | intros H; discriminate H]);
    try (split; reflexivity).
  - rewrite Z.eqb_eq. split; [now intros -> | intros H; now injection H].
  - rewrite andb_true_iff, Z.eqb_eq, String.eqb_eq.
    split; [now intros [-> ->] | intros H; injection H as -> ->; now split].
  - split; [intros H; apply eqb_prop in H; now subst | intros H; injection H as ->].
    now destruct b.
Qed.

Lemma flag_addError (result : DataConsistencyValidator.ConsistencyCheckResult)
  (message : string) :
  flagMatchesErrors (DataConsistencyValidator.addError result message).
Proof.
  unfold flagMatchesErrors. cbn. split; [discriminate |].
  intros H. now apply app_eq_nil in H as [_ H].
Qed.

Lemma flag_checkSection (result : DataConsistencyValidator.ConsistencyCheckResult)
  (entry : SectionKey.t * DataConsistencyValidator.SectionItemCount) :
  flagMatchesErrors result ->
  flagMatchesErrors (DataConsistencyValidator.checkSection result entry).
Proof.
  intros H. destruct entry as [section info].
  unfold DataConsistencyValidator.checkSection.
  destruct (DataConsistencyValidator.actual info =? 0); [apply flag_addError |].
  destruct (DataConsistencyValidator.below75 _ _); [| exact H].
  exact H.
Qed.

Lemma flag_validateResponseCompleteness
  (responses : list DataConsistencyValidator.Response) :
  flagMatchesErrors (DataConsistencyValidator.validateResponseCompleteness responses).
Proof.
  unfold DataConsistencyValidator.validateResponseCompleteness.
  unfold DataConsistencyValidator.checkInvalidIds.
  destruct (negb (Nat.eqb (List.length (filter _ _)) 0)); [apply flag_addError |].
  unfold DataConsistencyValidator.checkDuplicates.
  destruct (negb (Nat.eqb (List.length (set_of _ _)) _)); [apply flag_addError |].
  generalize (DataConsistencyValidator.countedSections responses). intros counts.
  assert (H0 : flagMatchesErrors
                 {| DataConsistencyValidator.isValid := true;
                    DataConsistencyValidator.errors := [];
                    DataConsistencyValidator.warnings := [];
                    DataConsistencyValidator.checkedFields := ["responses"] |})
    by (unfold flagMatchesErrors; cbn; tauto).
  revert H0.
  generalize {| DataConsistencyValidator.isValid := true;
                DataConsistencyValidator.errors := [];
                DataConsistencyValidator.warnings := [];
                DataConsistencyValidator.checkedFields := ["responses"] |}.
  induction counts as [| entry rest IH]; intros result H; [exact H |].
  cbn [fold_left]. apply IH. now apply flag_checkSection.
Qed.

Lemma sectionCount_nonneg (responses : list DataConsistencyValidator.Response)
  (section : SectionKey.t) :
  0 <= sectionCount responses section.
Proof. rewrite sectionCount_filter. lia. Qed.

Lemma errors_sections_only (responses : list DataConsistencyValidator.Response)
  (m : string) :
  In m (DataConsistencyValidator.errors
          (fold_left DataConsistencyValidator.checkSection
             (DataConsistencyValidator.countedSections responses)
             {| DataConsistencyValidator.isValid := true;
                DataConsistencyValidator.errors := [];
                DataConsistencyValidator.warnings := [];
                DataConsistencyValidator.checkedFields := ["responses"] |})) ->
  exists section, m = noResponsesFound section /\ sectionCount responses section = 0.
Proof.
  rewrite errors_fold_checkSection. cbn [DataConsistencyValidator.errors app].
  intros H. apply in_map_iff in H as (section & <- & Hin).
  exists section. split; [reflexivity |].
  apply in_map_iff in Hin as ([section0 info] & Heq & Hin).
  cbn [fst] in Heq. subst section0.
  apply filter_In in Hin as [Hin Hzero]. cbn [snd] in Hzero.
  rewrite <- (in_countedSections _ _ _ Hin). lia.
Qed.

Lemma completeness_valid_iff_aux (responses : list DataConsistencyValidator.Response) :
  let result := DataConsistencyValidator.validateResponseCompleteness responses in
  let ids := map DataConsistencyValidator.getItemId responses in
  (DataConsistencyValidator.isValid result = true
   <-> DataConsistencyValidator.errors result = []) /\
  (DataConsistencyValidator.isValid result = true
   <-> (forall section, 0 < sectionCount responses section) /\
       NoDup ids /\
       (forall id, In id ids -> num_lt id 1 = false /\ num_gt id 86 = false)).
Proof.
  cbv zeta.
  pose proof (flag_validateResponseCompleteness responses) as Hflag.
  unfold flagMatchesErrors in Hflag.
  split; [exact Hflag |]. rewrite Hflag. split.
  - intros Hnil.
    assert (Hnone : forall m,
               ~ In m (DataConsistencyValidator.errors
                         (DataConsistencyValidator.validateResponseCompleteness responses)))
      by (intros m; rewrite Hnil; intros []).
    split; [| split].
    + intros section.
      pose proof (sectionCount_nonneg responses section).
      destruct (Z.eq_dec (sectionCount responses section) 0) as [Hzero |]; [| lia].
      exfalso. apply (Hnone (noResponsesFound section)).
      now apply noResponsesFound_errors.
    + apply (set_of_same_length _ _ same_value_zero_eq).
      destruct (Nat.eq_dec
                  (List.length
                     (set_of same_value_zero
                        (map DataConsistencyValidator.getItemId responses)))
                  (List.length (map DataConsistencyValidator.getItemId responses)))
        as [Heq | Hneq]; [exact Heq |].
      exfalso. eapply Hnone.
      unfold DataConsistencyValidator.validateResponseCompleteness.
      apply errors_checkInvalidIds. left.
      apply errors_checkDuplicates. right. split; [reflexivity | exact Hneq].
    + intros id Hid.
      destruct (num_lt id 1 || num_gt id 86) eqn:Hbad;
        [| now apply orb_false_elim in Hbad].
      exfalso. eapply Hnone.
      unfold DataConsistencyValidator.validateResponseCompleteness.
      apply errors_checkInvalidIds. right. split; [reflexivity |].
      intros Hfilter.
      assert (Hin : In id (filter (fun id => num_lt id 1 || num_gt id 86)
                             (map DataConsistencyValidator.getItemId responses)))
        by (apply filter_In; now split).
      rewrite Hfilter in Hin. destruct Hin.
  - intros (Hcount & Hnodup & Hrange).
    destruct (DataConsistencyValidator.errors
                (DataConsistencyValidator.validateResponseCompleteness responses))
      as [| m rest] eqn:Herrors; [reflexivity |].
    exfalso.
    assert (Hin : In m (DataConsistencyValidator.errors
                          (DataConsistencyValidator.validateResponseCompleteness responses)))
      by (rewrite Herrors; now left).
    unfold DataConsistencyValidator.validateResponseCompleteness in Hin.
    apply errors_checkInvalidIds in Hin as [Hin | [_ Hbad]].
    + apply errors_checkDuplicates in Hin as [Hin | [_ Hdup]].
      * apply errors_sections_only in Hin as (section & _ & Hzero).
        specialize (Hcount section). lia.
      * apply Hdup. now apply (set_of_same_length _ _ same_value_zero_eq).
    + apply Hbad.
      destruct (filter (fun id => num_lt id 1 || num_gt id 86)
                  (map DataConsistencyValidator.getItemId responses))
        as [| id rest'] eqn:Hfilter; [reflexivity |].
      assert (Hid : In id (filter (fun id => num_lt id 1 || num_gt id 86)
                             (map DataConsistencyValidator.getItemId responses)))
        by (rewrite Hfilter; now left).
      apply filter_In in Hid as [Hid Hbad'].
      destruct (Hrange id Hid) as [H1 H2]. rewrite H1, H2 in Hbad'. discriminate.
Qed.

(** X10: the result of the completeness check is valid exactly when it
    holds no error, and that is exactly when every section has at least
    one response in its counted range, no item id occurs twice, and no
    item id is below 1 or above 86. *)
Theorem completeness_valid_iff (responses : list DataConsistencyValidator.Response) :
  let result := DataConsistencyValidator.validateResponseCompleteness responses in
  let ids := map DataConsistencyValidator.getItemId responses in
  (DataConsistencyValidator.isValid result = true
   <-> DataConsistencyValidator.errors result = []) /\
  (DataConsistencyValidator.isValid result = true
   <-> (forall section, 0 < sectionCount responses section) /\
       NoDup ids /\
       (forall id, In id ids -> num_lt id 1 = false /\ num_gt id 86 = false)).
Proof. exact (completeness_valid_iff_aux responses). Qed.

Lemma completeness_valid_iff_witness :
  DataConsistencyValidator.isValid
    (DataConsistencyValidator.validateResponseCompleteness allScoredItems) = true /\
  DataConsistencyValidator.errors
    (DataConsistencyValidator.validateResponseCompleteness allScoredItems) = [].
Proof.
  assert (H : DataConsistencyValidator.isValid
                (DataConsistencyValidator.validateResponseCompleteness allScoredItems)
              = true) by (vm_compute; reflexivity).
  split; [exact H |].
  exact (proj1 (proj1 (completeness_valid_iff allScoredItems)) H).
Defined.

(** *** Completeness warnings *)

Lemma warnings_fold_checkSection
  (counts : list (SectionKey.t * DataConsistencyValidator.SectionItemCount)) :
  forall result,
    DataConsistencyValidator.warnings
      (fold_left DataConsistencyValidator.checkSection counts result)
    = (DataConsistencyValidator.warnings result
       ++ map entryWarning (filter warnsAbout counts))%list.
Proof.
  induction counts as [| [section info] rest IH]; intros result.
  - cbn. now rewrite app_nil_r.
  - cbn [fold_left filter]. rewrite IH.
    unfold DataConsistencyValidator.checkSection, warnsAbout. cbn [snd].
    destruct (DataConsistencyValidator.actual info =? 0); cbn [negb andb];
      [reflexivity |].
    destruct (DataConsistencyValidator.below75 _ _); [| reflexivity].
    cbn [DataConsistencyValidator.addWarning DataConsistencyValidator.warnings map].
    now rewrite <- app_assoc.
Qed.

Lemma warnings_validateResponseCompleteness
  (responses : list DataConsistencyValidator.Response) :
  DataConsistencyValidator.warnings
    (DataConsistencyValidator.validateResponseCompleteness responses)
  = map entryWarning
      (filter warnsAbout (DataConsistencyValidator.countedSections responses)).
Proof.
  unfold DataConsistencyValidator.validateResponseCompleteness.
  unfold DataConsistencyValidator.checkInvalidIds.
  destruct (negb (Nat.eqb (List.length (filter _ _)) 0));
    unfold DataConsistencyValidator.checkDuplicates;
    destruct (negb (Nat.eqb (List.length (set_of _ _)) _));
    cbn [DataConsistencyValidator.addError DataConsistencyValidator.warnings];
    now rewrite warnings_fold_checkSection.
Qed.

Lemma filter_map_swap {A B : Type} (g : A -> B) (p : B -> bool) (l : list A) :
  filter p (map g l) = map g (filter (fun x => p (g x)) l).
Proof.
  induction l as [| x rest IH]; cbn; [reflexivity |].
  destruct (p (g x)); cbn; now rewrite IH.
Qed.

Lemma countedSections_by_key (responses : list DataConsistencyValidator.Response) :
  DataConsistencyValidator.countedSections responses
  = map (fun k => countedEntry responses (initialInfo k)) SectionKey.all.
Proof.
  unfold DataConsistencyValidator.countedSections. rewrite fold_countResponse.
  reflexivity.
Qed.

Lemma countedEntry_actual (responses : list DataConsistencyValidator.Response)
  (k : SectionKey.t) :
  fst (countedEntry responses (initialInfo k)) = k /\
  DataConsistencyValidator.actual (snd (countedEntry responses (initialInfo k)))
  = sectionCount responses k /\
  DataConsistencyValidator.max (snd (countedEntry responses (initialInfo k)))
  - DataConsistencyValidator.min (snd (countedEntry responses (initialInfo k))) + 1
  = expectedCount k.
Proof.
  rewrite sectionCount_filter. destruct k; repeat split.
Qed.

Lemma below75_threshold (k : SectionKey.t) (count : Z) :
  DataConsistencyValidator.below75 count (expectedCount k)
  = (count <? warnThreshold k).
Proof.
  unfold DataConsistencyValidator.below75.
  destruct k;
    match goal with
    | |- context [expectedCount ?s] =>
        let e := eval vm_compute in (expectedCount s) in
        change (expectedCount s) with e
    end;
    cbn [warnThreshold];
    match goal with
    | |- (?a <? ?b) = (?c <? ?d) =>
        destruct (Z.ltb_spec a b), (Z.ltb_spec c d);
          try reflexivity; exfalso; lia
    end.
Qed.

Lemma completeness_warnings_aux (responses : list DataConsistencyValidator.Response) :
  DataConsistencyValidator.warnings
    (DataConsistencyValidator.validateResponseCompleteness responses)
  = map (fun section => completenessWarning section (sectionCount responses section))
      (filter (fun section =>
                 (0 <? sectionCount responses section)
                 && (sectionCount responses section <? warnThreshold section))
         SectionKey.all).
Proof.
  rewrite warnings_validateResponseCompleteness, countedSections_by_key.
  rewrite filter_map_swap, map_map.
  assert (Hfilter : forall k,
             warnsAbout (countedEntry responses (initialInfo k))
             = (0 <? sectionCount responses k)
               && (sectionCount responses k <? warnThreshold k)).
  { intros k. unfold warnsAbout.
    destruct (countedEntry_actual responses k) as (_ & -> & ->).
    rewrite below75_threshold. f_equal.
    pose proof (sectionCount_nonneg responses k).
    destruct (Z.eqb_spec (sectionCount responses k) 0),
             (Z.ltb_spec 0 (sectionCount responses k));
      cbn; try reflexivity; lia. }
  rewrite (filter_ext _ _ Hfilter).
  apply map_ext. intros k. unfold entryWarning, completenessWarning.
  destruct (countedEntry_actual responses k) as (-> & -> & ->). reflexivity.
Qed.

(** X11: the completeness check warns about a section exactly when the
    section has at least one counted response but fewer than 6, 5, 9, 6,
    6, 8, 7, 11 and 8 of them (three quarters of the section's items,
    rounded up); the warnings come in the order of the sections, each
    with the percentage to one decimal and the count. *)
Theorem completeness_warnings (responses : list DataConsistencyValidator.Response) :
  DataConsistencyValidator.warnings
    (DataConsistencyValidator.validateResponseCompleteness responses)
  = map (fun section => completenessWarning section (sectionCount responses section))
      (filter (fun section =>
                 (0 <? sectionCount responses section)
                 && (sectionCount responses section <? warnThreshold section))
         SectionKey.all) /\
  (forall section,
     4 * warnThreshold section >= 3 * expectedCount section /\
     4 * (warnThreshold section - 1) < 3 * expectedCount section).
Proof.
  split; [apply completeness_warnings_aux |].
  intros section. destruct section; cbn; lia.
Qed.

Example completeness_warning_text :
  DataConsistencyValidator.warnings
    (DataConsistencyValidator.validateResponseCompleteness
       (map (fun z => {| DataConsistencyValidator.getItemId := NInt z;
                         DataConsistencyValidator.getResponse := "never" |})
          [9; 10; 11; 12]))
  = ["visualProcessing section is 66.7% complete (4/6 items)"].
Proof. vm_compute. reflexivity. Qed.

(** *** A complete form *)

Lemma Permutation_filter_length {A : Type} (p : A -> bool) (l l' : list A) :
  Permutation l l' -> List.length (filter p l) = List.length (filter p l').
Proof.
  intros H. induction H as [| x l l' H IH | x y l | l l' l'' H1 IH1 H2 IH2].
  - reflexivity.
  - cbn. destruct (p x); cbn; now rewrite IH.
  - cbn. destruct (p x), (p y); reflexivity.
  - now rewrite IH1.
Qed.

Lemma itemIds_1_86_range (z : Z) : In z itemIds_1_86 -> 1 <= z <= 86.
Proof.
  unfold itemIds_1_86. intros H. apply in_map_iff in H as (n & <- & Hn).
  apply in_seq in Hn. lia.
Qed.

Lemma itemIds_1_86_NoDup : NoDup (map NInt itemIds_1_86).
Proof.
  apply (set_of_same_length _ _ same_value_zero_eq). vm_compute. reflexivity.
Qed.

Lemma complete_form_counts (responses : list DataConsistencyValidator.Response)
  (section : SectionKey.t) :
  Permutation (map DataConsistencyValidator.getItemId responses)
    (map NInt itemIds_1_86) ->
  sectionCount responses section = expectedCount section.
Proof.
  intros Hperm. rewrite sectionCount_filter.
  rewrite <- (length_map DataConsistencyValidator.getItemId).
  rewrite <- (filter_map_swap DataConsistencyValidator.getItemId
                (inCountedRange section)).
  rewrite (Permutation_filter_length _ _ _ Hperm).
  destruct section; vm_compute; reflexivity.
Qed.

(** X12: a form in which each of the items 1 to 86 is answered exactly
    once passes the completeness check with no error and no warning,
    in whatever order the responses come and whatever their labels. *)
Theorem complete_form_passes (responses : list DataConsistencyValidator.Response) :
  Permutation (map DataConsistencyValidator.getItemId responses)
    (map NInt itemIds_1_86) ->
  let result := DataConsistencyValidator.validateResponseCompleteness responses in
  DataConsistencyValidator.isValid result = true /\
  DataConsistencyValidator.errors result = [] /\
  DataConsistencyValidator.warnings result = [].
Proof.
  intros Hperm. cbv zeta.
  assert (Hvalid : DataConsistencyValidator.isValid
                     (DataConsistencyValidator.validateResponseCompleteness responses)
                   = true).
  { apply (proj2 (completeness_valid_iff_aux responses)). split; [| split].
    - intros section. rewrite (complete_form_counts _ _ Hperm).
      destruct section; reflexivity.
    - apply (Permutation_NoDup (Permutation_sym Hperm)), itemIds_1_86_NoDup.
    - intros id Hid. apply (Permutation_in _ Hperm) in Hid.
      apply in_map_iff in Hid as (z & <- & Hz). apply itemIds_1_86_range in Hz.
      cbn. split; lia. }
  split; [exact Hvalid |].
  split; [exact (proj1 (proj1 (completeness_valid_iff_aux responses)) Hvalid) |].
  rewrite completeness_warnings_aux.
  rewrite (filter_ext _ (fun _ => false)); [reflexivity |].
  intros section. rewrite (complete_form_counts _ _ Hperm).
  destruct section; reflexivity.
Qed.

Lemma complete_form_passes_witness :
  DataConsistencyValidator.isValid
    (DataConsistencyValidator.validateResponseCompleteness (rev allScoredItems)) = true /\
  DataConsistencyValidator.errors
    (DataConsistencyValidator.validateResponseCompleteness (rev allScoredItems)) = [] /\
  DataConsistencyValidator.warnings
    (DataConsistencyValidator.validateResponseCompleteness (rev allScoredItems)) = [].
Proof.
  apply (complete_form_passes (rev allScoredItems)).
  rewrite map_rev. apply Permutation_sym.
  replace (map DataConsistencyValidator.getItemId allScoredItems)
    with (map NInt itemIds_1_86) by (vm_compute; reflexivity).
  apply Permutation_rev.
Defined.

(** *** The duplicate report *)

Lemma strict_eq_true (x y : number) :
  strict_eq x y = true <-> x = y /\ x <> NNaN.
Proof.
  destruct x as [a | a s | | a], y as [b | b t | | b]; cbn;
    try (split; [discriminate | intros [H _]; discriminate H]).
  - rewrite Z.eqb_eq. split; [intros ->; split; [reflexivity | discriminate] |].
    intros [H _]. now injection H.
  - rewrite andb_true_iff, Z.eqb_eq, String.eqb_eq.
    split; [intros [-> ->]; split; [reflexivity | discriminate] |].
    intros [H _]. injection H as -> ->. now split.
  - split; [discriminate | intros [_ H]; now contradiction H].
  - split; [intros H; apply eqb_prop in H; subst; split; [reflexivity | discriminate] |].
    intros [H _]. injection H as ->. now destruct b.
Qed.

Lemma number_eq_dec (x y : number) : {x = y} + {x <> y}.
Proof.
  destruct (same_value_zero x y) eqn:E.
  - left. now apply same_value_zero_eq.
  - right. intros H. apply same_value_zero_eq in H. congruence.
Qed.

Lemma indexOf_first (pre rest : list number) (x : number) :
  x <> NNaN ->
  ~ In x pre ->
  indexOf (pre ++ x :: rest) x = Some (List.length pre).
Proof.
  intros Hx. induction pre as [| y pre IH]; intros Hnotin; cbn [app indexOf List.length].
  - now rewrite (proj2 (strict_eq_true x x) (conj eq_refl Hx)).
  - destruct (strict_eq y x) eqn:E.
    + apply strict_eq_true in E as [-> _]. exfalso. apply Hnotin. now left.
    + rewrite IH; [reflexivity |]. intros Hin. apply Hnotin. now right.
Qed.

Lemma indexOf_earlier (pre rest : list number) (x : number) :
  x <> NNaN ->
  In x pre ->
  exists j, indexOf (pre ++ x :: rest) x = Some j /\ (j < List.length pre)%nat.
Proof.
  intros Hx. induction pre as [| y pre IH]; intros Hin; [destruct Hin |].
  cbn [app indexOf List.length].
  destruct (strict_eq y x) eqn:E; [exists O; split; [reflexivity | lia] |].
  destruct Hin as [-> | Hin].
  - rewrite (proj2 (strict_eq_true x x) (conj eq_refl Hx)) in E. discriminate.
  - destruct (IH Hin) as (j & -> & Hj). exists (S j). split; [reflexivity | lia].
Qed.

Lemma isRepeat_earlier (pre rest : list number) (x : number) :
  x <> NNaN ->
  isRepeat (pre ++ x :: rest) x (List.length pre) = true <-> In x pre.
Proof.
  intros Hx. unfold isRepeat. destruct (in_dec number_eq_dec x pre) as [Hin | Hnotin].
  - destruct (indexOf_earlier pre rest x Hx Hin) as (j & -> & Hj).
    cbn. destruct (Nat.eqb_spec j (List.length pre)); [lia |]. cbn. tauto.
  - rewrite (indexOf_first pre rest x Hx Hnotin). cbn.
    rewrite Nat.eqb_refl. cbn. split; [discriminate | contradiction].
Qed.

Lemma filter_indexed_repeats (whole : list number) :
  ~ In NNaN whole ->
  forall suf pre,
    whole = (pre ++ suf)%list ->
    forall id,
      In id (filter_indexed (isRepeat whole) (List.length pre) suf) <->
      exists s1 s2, suf = (s1 ++ id :: s2)%list /\ In id (pre ++ s1).
Proof.
  intros Hnan. induction suf as [| x rest IH]; intros pre Hwhole id.
  - cbn. split; [intros [] |]. intros (s1 & s2 & H & _). now destruct s1.
  - cbn [filter_indexed].
    assert (Hx : x <> NNaN).
    { intros ->. apply Hnan. rewrite Hwhole. apply in_or_app. right. now left. }
    assert (Hwhole' : whole = ((pre ++ [x]) ++ rest)%list)
      by (rewrite <- app_assoc; exact Hwhole).
    assert (Hlen : S (List.length pre) = List.length (pre ++ [x]))
      by (rewrite length_app; cbn; lia).
    pose proof (IH (pre ++ [x])%list Hwhole' id) as IH'. rewrite <- Hlen in IH'.
    assert (Htail : (exists s1 s2, rest = (s1 ++ id :: s2)%list /\ In id ((pre ++ [x]) ++ s1))
                    <-> (exists s1 s2, x :: rest = ((x :: s1) ++ id :: s2)%list
                                       /\ In id (pre ++ x :: s1))).
    { split; intros (s1 & s2 & H1 & H2); exists s1, s2.
      - split; [cbn; now rewrite H1 |]. now rewrite <- app_assoc in H2.
      - split; [cbn in H1; now injection H1 |]. now rewrite <- app_assoc. }
    pose proof (isRepeat_earlier pre rest x Hx) as Hrep. rewrite <- Hwhole in Hrep.
    destruct (isRepeat whole x (List.length pre)) eqn:E.
    + cbn [In]. rewrite IH', Htail. split.
      * intros [<- | (s1 & s2 & H1 & H2)].
        -- exists [], rest. split; [reflexivity |]. rewrite app_nil_r.
           now apply Hrep.
        -- exists (x :: s1), s2. now split.
      * intros (s1 & s2 & H1 & H2). destruct s1 as [| y s1].
        -- cbn in H1. injection H1 as <- _. now left.
        -- cbn in H1. injection H1 as <- H1. right. exists s1, s2.
           split; [cbn; now rewrite H1 | exact H2].
    + rewrite IH', Htail. split.
      * intros (s1 & s2 & H1 & H2). exists (x :: s1), s2. now split.
      * intros (s1 & s2 & H1 & H2). destruct s1 as [| y s1].
        -- cbn in H1. injection H1 as <- _. rewrite app_nil_r in H2.
           apply Hrep in H2. discriminate.
        -- cbn in H1. injection H1 as <- H1. exists s1, s2.
           split; [cbn; now rewrite H1 | exact H2].
Qed.

Lemma duplicate_message_reported (responses : list DataConsistencyValidator.Response)
  (m : string) :
  In m (DataConsistencyValidator.errors
          (DataConsistencyValidator.validateResponseCompleteness responses))
  /\ isDuplicateMessage m = true
  <-> m = duplicateMessage (map DataConsistencyValidator.getItemId responses)
      /\ ~ NoDup (map DataConsistencyValidator.getItemId responses).
Proof.
  unfold DataConsistencyValidator.validateResponseCompleteness.
  rewrite errors_checkInvalidIds, errors_checkDuplicates.
  rewrite <- (set_of_same_length _ _ same_value_zero_eq).
  split.
  - intros [[[Hin | [Hm Hlen]] | [Hm _]] Hprefix].
    + apply errors_sections_only in Hin as (section & -> & _).
      destruct section; discriminate Hprefix.
    + split; [exact Hm | exact Hlen].
    + subst m. discriminate Hprefix.
  - intros [Hm Hlen].
    split; [| subst m; unfold isDuplicateMessage, duplicateMessage; reflexivity].
    left. right. split; [exact Hm | exact Hlen].
Qed.

(** X13: the completeness check reports duplicates exactly when some
    item id occurs twice; the report is a single error that lists the
    repeated ids, each once, and (when no id is NaN) an id is listed
    exactly when it occurs at least twice among the responses. *)
Theorem duplicate_report (responses : list DataConsistencyValidator.Response) :
  let ids := map DataConsistencyValidator.getItemId responses in
  let errors :=
    DataConsistencyValidator.errors
      (DataConsistencyValidator.validateResponseCompleteness responses) in
  (forall m, In m errors /\ isDuplicateMessage m = true
             <-> m = duplicateMessage ids /\ ~ NoDup ids) /\
  NoDup (duplicatedIds ids) /\
  (~ In NNaN ids ->
   forall id,
     In id (duplicatedIds ids) <->
     exists before after, ids = (before ++ id :: after)%list /\ In id before).
Proof.
  cbv zeta. split; [apply duplicate_message_reported |].
  split; [apply (set_of_NoDup _ _ same_value_zero_eq) |].
  intros Hnan id. unfold duplicatedIds.
  rewrite (set_of_In _ _ same_value_zero_eq).
  apply (filter_indexed_repeats _ Hnan _ [] eq_refl id).
Qed.

Lemma duplicate_report_witness :
  In (NInt 1)
    (duplicatedIds
       (map DataConsistencyValidator.getItemId
          (map (fun z => {| DataConsistencyValidator.getItemId := NInt z;
                            DataConsistencyValidator.getResponse := "always" |})
             [1; 2; 1; 1]))).
Proof.
  apply (proj2 (proj2 (duplicate_report
           (map (fun z => {| DataConsistencyValidator.getItemId := NInt z;
                             DataConsistencyValidator.getResponse := "always" |})
              [1; 2; 1; 1])))).
  - cbn. intros [H | [H | [H | [H | []]]]]; discriminate H.
  - exists [NInt 1; NInt 2], [NInt 1]. split; [reflexivity | now left].
Defined.

Example duplicate_report_text :
  DataConsistencyValidator.errors
    (DataConsistencyValidator.validateResponseCompleteness
       (allScoredItems ++ [response15; response86; response15]))
  = ["Duplicate responses found for items: 15, 86"].
Proof. vm_compute. reflexivity. Qed.

(** ** Properties of validateRequiredResponses *)

Ltac case_leb :=
  match goal with |- context [(?lo <=? ?hi)] => destruct (Z.leb_spec lo hi) end.

Ltac case_ltb :=
  match goal with |- context [(?lo <? ?hi)] => destruct (Z.ltb_spec lo hi) end.

Ltac split_comparisons :=
  repeat (first [case_leb | case_ltb]; cbn [andb negb]; try (exfalso; lia)).

Lemma incrementCount_get (st : SectionScores Z) (k' k : SectionKey.t) :
  section_get (incrementCount st k') k
  = section_get st k + (if SectionKey.eqb k' k then 1 else 0).
Proof.
  unfold incrementCount. rewrite section_get_set.
  destruct (SectionKey.eqb k' k) eqn:E; [| lia].
  apply SectionKey_eqb_eq in E. now subst.
Qed.

Lemma countRequired_get (st : SectionScores Z) (r : RawResponse) (k : SectionKey.t) :
  section_get (countRequired st r) k
  = section_get st k + (if inCountedRange k (itemId r) then 1 else 0).
Proof.
  unfold countRequired, inCountedRange.
  destruct k;
    match goal with
    | |- context [countedRange ?s] =>
        let e := eval vm_compute in (countedRange s) in
        change (countedRange s) with e
    end;
    cbn [fst snd];
    destruct (itemId r) as [z | fl shown | | negative];
    cbn [num_ge num_le andb];
    try (destruct negative; cbn [negb andb]);
    split_comparisons;
    rewrite ?incrementCount_get;
    match goal with
    | |- context [SectionKey.eqb ?a ?b] =>
        let e := eval vm_compute in (SectionKey.eqb a b) in
        change (SectionKey.eqb a b) with e
    | _ => idtac
    end;
    cbv beta iota;
    lia.
Qed.

Lemma fold_countRequired (responses : list RawResponse) (k : SectionKey.t) :
  forall st,
    section_get (fold_left countRequired responses st) k
    = section_get st k
      + Z.of_nat
          (List.length (filter (fun r => inCountedRange k (itemId r)) responses)).
Proof.
  induction responses as [| r rest IH]; intros st; cbn [fold_left filter].
  - cbn. lia.
  - rewrite IH, countRequired_get.
    destruct (inCountedRange k (itemId r)); cbn [List.length]; lia.
Qed.

Lemma requiredErrors_nil (itemCounts : SectionScores Z) :
  requiredErrors itemCounts = []
  <-> forall k, requiredThreshold k <= section_get itemCounts k.
Proof.
  unfold requiredErrors, pushIf. split.
  - intros H k.
    destruct (auditoryProcessing itemCounts <? 4) eqn:E1;
      [repeat match goal with
              | H : context [if ?c then _ else _] |- _ => destruct c
              end; cbn in H; discriminate H |].
    destruct (visualProcessing itemCounts <? 3) eqn:E2;
      [repeat match goal with
              | H : context [if ?c then _ else _] |- _ => destruct c
              end; cbn in H; discriminate H |].
    destruct (tactileProcessing itemCounts <? 6) eqn:E3;
      [repeat match goal with
              | H : context [if ?c then _ else _] |- _ => destruct c
              end; cbn in H; discriminate H |].
    destruct (movementProcessing itemCounts <? 4) eqn:E4;
      [repeat match goal with
              | H : context [if ?c then _ else _] |- _ => destruct c
              end; cbn in H; discriminate H |].
    destruct (bodyPositionProcessing itemCounts <? 4) eqn:E5;
      [repeat match goal with
              | H : context [if ?c then _ else _] |- _ => destruct c
              end; cbn in H; discriminate H |].
    destruct (oralSensitivityProcessing itemCounts <? 5) eqn:E6;
      [repeat match goal with
              | H : context [if ?c then _ else _] |- _ => destruct c
              end; cbn in H; discriminate H |].
    destruct (behavioralResponses itemCounts <? 5) eqn:E7;
      [repeat match goal with
              | H : context [if ?c then _ else _] |- _ => destruct c
              end; cbn in H; discriminate H |].
    destruct (socialEmotionalResponses itemCounts <? 7) eqn:E8;
      [repeat match goal with
              | H : context [if ?c then _ else _] |- _ => destruct c
              end; cbn in H; discriminate H |].
    destruct (attentionResponses itemCounts <? 5) eqn:E9;
      [cbn in H; discriminate H |].
    apply Z.ltb_ge in E1, E2, E3, E4, E5, E6, E7, E8, E9.
    destruct k; cbn; assumption.
  - intros H.
    pose proof (H SectionKey.auditoryProcessing) as H1.
    pose proof (H SectionKey.visualProcessing) as H2.
    pose proof (H SectionKey.tactileProcessing) as H3.
    pose proof (H SectionKey.movementProcessing) as H4.
    pose proof (H SectionKey.bodyPositionProcessing) as H5.
    pose proof (H SectionKey.oralSensitivityProcessing) as H6.
    pose proof (H SectionKey.behavioralResponses) as H7.
    pose proof (H SectionKey.socialEmotionalResponses) as H8.
    pose proof (H SectionKey.attentionResponses) as H9.
    cbn in H1, H2, H3, H4, H5, H6, H7, H8, H9.
    apply Z.ltb_ge in H1, H2, H3, H4, H5, H6, H7, H8, H9.
    now rewrite H1, H2, H3, H4, H5, H6, H7, H8, H9.
Qed.

Lemma validateRequiredResponses_accepts (responses : list RawResponse) :
  validateRequiredResponses responses = Accepted
  <-> forall k, requiredThreshold k <= requiredCount responses k.
Proof.
  unfold validateRequiredResponses.
  assert (Hcounts : forall k,
             section_get (fold_left countRequired responses zeroItemCounts) k
             = requiredCount responses k).
  { intros k. rewrite fold_countRequired. unfold requiredCount.
    destruct k; cbn; lia. }
  destruct (requiredErrors (fold_left countRequired responses zeroItemCounts))
    as [| e rest] eqn:Herrors.
  - cbn. split; [intros _ k | reflexivity].
    rewrite <- Hcounts. now apply requiredErrors_nil.
  - cbn [List.length]. destruct (Z.ltb_spec 0 (Z.of_nat (S (List.length rest)))); [| lia].
    split; [discriminate |]. intros Hall. exfalso.
    assert (Hnil : requiredErrors (fold_left countRequired responses zeroItemCounts) = [])
      by (apply requiredErrors_nil; intros k; rewrite Hcounts; apply Hall).
    congruence.
Qed.

(** X14: validateRequiredResponses accepts a list of responses exactly
    when each section has, in its id range, at least half of its items
    rounded up (4, 3, 6, 4, 4, 5, 5, 7 and 5 responses); otherwise it
    raises one ValidationError 'Insufficient responses for valid
    assessment' with at least one section message.  Ids 15 and 86 and
    ids that are not integers between the ranges count for no section. *)
Theorem required_responses_thresholds (responses : list RawResponse) :
  (forall k, requiredThreshold k = (expectedCount k + 1) / 2) /\
  (validateRequiredResponses responses = Accepted
   <-> forall k, requiredThreshold k <= requiredCount responses k) /\
  (forall e,
     validateRequiredResponses responses = Rejected e ->
     validation_message e = "Insufficient responses for valid assessment" /\
     validation_errors e <> []).
Proof.
  split; [intros k; destruct k; reflexivity |].
  split; [apply validateRequiredResponses_accepts |].
  intros e. unfold validateRequiredResponses.
  destruct (requiredErrors (fold_left countRequired responses zeroItemCounts))
    as [| m rest]; cbn [List.length]; [cbn; discriminate |].
  destruct (Z.ltb_spec 0 (Z.of_nat (S (List.length rest)))); [| lia].
  intros Heq. injection Heq as <-. cbn. split; [reflexivity | discriminate].
Qed.

Lemma required_responses_thresholds_witness :
  validateRequiredResponses (map toRawResponse allScoredItems) = Accepted.
Proof.
  apply (proj1 (proj2 (required_responses_thresholds
                         (map toRawResponse allScoredItems)))).
  intros k. destruct k; vm_compute; discriminate.
Defined.

Lemma requiredCount_sectionCount (responses : list DataConsistencyValidator.Response)
  (k : SectionKey.t) :
  requiredCount (map toRawResponse responses) k = sectionCount responses k.
Proof.
  unfold requiredCount. rewrite sectionCount_filter.
  rewrite (filter_map_swap toRawResponse), length_map. reflexivity.
Qed.

(** X15: a list of responses for which the completeness check reports
    no error and no warning is accepted by validateRequiredResponses:
    three quarters of every section is more than the half it asks for. *)
Theorem complete_enough_is_accepted (responses : list DataConsistencyValidator.Response) :
  DataConsistencyValidator.errors
    (DataConsistencyValidator.validateResponseCompleteness responses) = [] ->
  DataConsistencyValidator.warnings
    (DataConsistencyValidator.validateResponseCompleteness responses) = [] ->
  validateRequiredResponses (map toRawResponse responses) = Accepted.
Proof.
  intros Herrors Hwarnings.
  apply validateRequiredResponses_accepts. intros k.
  rewrite requiredCount_sectionCount.
  assert (Hpos : 0 < sectionCount responses k).
  { apply (proj1 (proj2 (completeness_valid_iff_aux responses))).
    now apply (proj2 (flag_validateResponseCompleteness responses)). }
  rewrite completeness_warnings_aux in Hwarnings.
  apply map_eq_nil in Hwarnings.
  destruct ((0 <? sectionCount responses k)
            && (sectionCount responses k <? warnThreshold k)) eqn:Hcond.
  - exfalso.
    assert (Hin : In k (filter (fun section =>
                                  (0 <? sectionCount responses section)
                                  && (sectionCount responses section
                                      <? warnThreshold section))
                          SectionKey.all))
      by (apply filter_In; split; [destruct k; cbn; tauto | exact Hcond]).
    rewrite Hwarnings in Hin. destruct Hin.
  - apply andb_false_iff in Hcond as [Hcond | Hcond].
    + apply Z.ltb_ge in Hcond. lia.
    + apply Z.ltb_ge in Hcond. destruct k; cbn in *; lia.
Qed.

Lemma complete_enough_is_accepted_witness :
  validateRequiredResponses (map toRawResponse allScoredItems) = Accepted.
Proof.
  apply (complete_enough_is_accepted allScoredItems); vm_compute; reflexivity.
Defined.

(** The converse fails: half of every section is accepted but draws
    completeness warnings. *)
Example accepted_but_incomplete :
  let ids := [1; 2; 3; 4; 9; 10; 11; 16; 17; 18; 19; 20; 21; 27; 28; 29; 30;
              35; 36; 37; 38; 43; 44; 45; 46; 47; 53; 54; 55; 56; 57;
              62; 63; 64; 65; 66; 67; 68; 76; 77; 78; 79; 80] in
  let responses :=
    map (fun z => {| DataConsistencyValidator.getItemId := NInt z;
                     DataConsistencyValidator.getResponse := "always" |}) ids in
  validateRequiredResponses (map toRawResponse responses) = Accepted /\
  List.length
    (DataConsistencyValidator.warnings
       (DataConsistencyValidator.validateResponseCompleteness responses)) = 9%nat.
Proof. vm_compute. split; reflexivity. Qed.

(** ** Properties of validateChildAgeConsistency *)

Lemma calculatedAge_valid (today b : DataConsistencyValidator.DateFields) :
  exists age,
    DataConsistencyValidator.calculatedAge today (DataConsistencyValidator.ValidDate b)
    = NInt age /\
    forall n,
      n <= age <->
      onOrBefore (DataConsistencyValidator.getFullYear b)
        (DataConsistencyValidator.getMonth b) (DataConsistencyValidator.getDate b)
        (DataConsistencyValidator.getFullYear today - n)
        (DataConsistencyValidator.getMonth today)
        (DataConsistencyValidator.getDate today).
Proof.
  unfold DataConsistencyValidator.calculatedAge, onOrBefore.
  destruct ((DataConsistencyValidator.getMonth today
             - DataConsistencyValidator.getMonth b <? 0)
            || ((DataConsistencyValidator.getMonth today
                 - DataConsistencyValidator.getMonth b =? 0)
                && (DataConsistencyValidator.getDate today
                    <? DataConsistencyValidator.getDate b))) eqn:E.
  - eexists. split; [reflexivity |]. intros n.
    apply orb_prop in E as [E | E].
    + apply Z.ltb_lt in E. lia.
    + apply andb_prop in E as [E1 E2].
      apply Z.eqb_eq in E1. apply Z.ltb_lt in E2. lia.
  - eexists. split; [reflexivity |]. intros n.
    apply orb_false_elim in E as [E1 E2]. apply Z.ltb_ge in E1.
    apply andb_false_iff in E2 as [E2 | E2].
    + apply Z.eqb_neq in E2. lia.
    + apply Z.ltb_ge in E2. lia.
Qed.

Lemma age_check_valid_aux (today b : DataConsistencyValidator.DateFields)
  (expectedAge : option number) :
  DataConsistencyValidator.isValid
    (DataConsistencyValidator.validateChildAgeConsistency today
       (DataConsistencyValidator.ValidDate b) expectedAge) = true
  <-> DataConsistencyValidator.getTime b <= DataConsistencyValidator.getTime today /\
      onOrBefore (DataConsistencyValidator.getFullYear b)
        (DataConsistencyValidator.getMonth b) (DataConsistencyValidator.getDate b)
        (DataConsistencyValidator.getFullYear today - 3)
        (DataConsistencyValidator.getMonth today)
        (DataConsistencyValidator.getDate today) /\
      ~ onOrBefore (DataConsistencyValidator.getFullYear b)
          (DataConsistencyValidator.getMonth b) (DataConsistencyValidator.getDate b)
          (DataConsistencyValidator.getFullYear today - 15)
          (DataConsistencyValidator.getMonth today)
          (DataConsistencyValidator.getDate today).
Proof.
  destruct (calculatedAge_valid today b) as (age & Hage & Hspec).
  rewrite <- (Hspec 3), <- (Hspec 15).
  unfold DataConsistencyValidator.validateChildAgeConsistency.
  rewrite Hage. cbn [num_lt num_gt DataConsistencyValidator.isAfter].
  destruct (Z.ltb_spec (DataConsistencyValidator.getTime today)
              (DataConsistencyValidator.getTime b));
    destruct (Z.ltb_spec age 3); destruct (Z.ltb_spec 14 age);
    cbn [orb];
    destruct expectedAge as [expected |];
    try destruct (negb (strict_eq expected (NInt age)));
    cbn; split; try discriminate; try lia; intros _; lia.
Qed.

(** X16: for a valid birth date the age check is passed exactly when
    the birth time is not after the clock reading, the third birthday
    has been reached (the birth day is the calendar day three years
    before today or an earlier one) and the fifteenth has not; the
    expected age plays no part in the verdict. *)
Theorem age_check_valid_iff (today b : DataConsistencyValidator.DateFields)
  (expectedAge : option number) :
  DataConsistencyValidator.isValid
    (DataConsistencyValidator.validateChildAgeConsistency today
       (DataConsistencyValidator.ValidDate b) expectedAge) = true
  <-> DataConsistencyValidator.getTime b <= DataConsistencyValidator.getTime today /\
      onOrBefore (DataConsistencyValidator.getFullYear b)
        (DataConsistencyValidator.getMonth b) (DataConsistencyValidator.getDate b)
        (DataConsistencyValidator.getFullYear today - 3)
        (DataConsistencyValidator.getMonth today)
        (DataConsistencyValidator.getDate today) /\
      ~ onOrBefore (DataConsistencyValidator.getFullYear b)
          (DataConsistencyValidator.getMonth b) (DataConsistencyValidator.getDate b)
          (DataConsistencyValidator.getFullYear today - 15)
          (DataConsistencyValidator.getMonth today)
          (DataConsistencyValidator.getDate today).
Proof. exact (age_check_valid_aux today b expectedAge). Qed.

Lemma age_check_valid_iff_witness :
  DataConsistencyValidator.isValid
    (DataConsistencyValidator.validateChildAgeConsistency sampleToday
       (DataConsistencyValidator.ValidDate sampleBirth) (Some (NInt 4))) = true.
Proof.
  apply (proj2 (age_check_valid_iff sampleToday sampleBirth (Some (NInt 4)))).
  unfold onOrBefore. cbn. lia.
Defined.

(** X17: an invalid birth date raises no error: every comparison with
    NaN fails, so the result is valid, and a supplied expected age only
    yields the warning that it differs from NaN. *)
Theorem age_check_invalid_date (today : DataConsistencyValidator.DateFields)
  (expectedAge : option number) :
  let result :=
    DataConsistencyValidator.validateChildAgeConsistency today
      DataConsistencyValidator.InvalidDate expectedAge in
  DataConsistencyValidator.isValid result = true /\
  DataConsistencyValidator.errors result = [] /\
  DataConsistencyValidator.warnings result
  = match expectedAge with
    | Some expected =>
        ["Age mismatch: expected=" ++ num_to_string expected ++ ", calculated=NaN"]
    | None => []
    end.
Proof.
  cbv zeta. unfold DataConsistencyValidator.validateChildAgeConsistency.
  cbn [DataConsistencyValidator.calculatedAge DataConsistencyValidator.isAfter
       num_lt num_gt orb].
  destruct expectedAge as [expected |]; [| repeat split].
  assert (E : strict_eq expected NNaN = false) by (destruct expected; reflexivity).
  rewrite E. repeat split.
Qed.

(** ** Composition *)

Lemma invalidResponses_quadrant (responses : list RawResponse) (m : string) :
  In m (invalidResponses (calculateScores responses))
  <-> In m (flat_map quadrantMessages responses).
Proof.
  unfold calculateScores, calculateSectionScores, calculateQuadrantScores.
  cbn [invalidResponses section_invalidResponses quadrant_invalidResponses].
  rewrite (set_of_In _ _ String.eqb_eq), in_app_iff.
  rewrite fold_sectionCallback_snd, fold_quadrantCallback_snd. cbn [snd app].
  split; [| now right].
  intros [H | H]; [| exact H].
  apply in_flat_map in H as (r & Hr & Hm). apply in_flat_map.
  exists r. split; [exact Hr | now apply sectionMessages_incl].
Qed.

Lemma quadrantMessages_nil (r : RawResponse) :
  quadrantMessages r = [] <-> accepted r = true.
Proof.
  unfold quadrantMessages, accepted.
  destruct (validateItemId (itemId r)); cbn [negb andb];
    [| split; discriminate].
  destruct (mapResponseToValue (response r)); split;
    try reflexivity; discriminate.
Qed.

(** X18: calculateScores reports no invalid response exactly when every
    response has a valid item id and a label that mapResponseToValue
    does not reject; validResponses then equals totalItems. *)
Theorem no_invalid_responses_iff (responses : list RawResponse) :
  (invalidResponses (calculateScores responses) = []
   <-> forallb accepted responses = true) /\
  (invalidResponses (calculateScores responses) = [] ->
   validResponses (calculateScores responses) = totalItems (calculateScores responses)).
Proof.
  split.
  - rewrite forallb_forall. split.
    + intros Hnil r Hr. apply quadrantMessages_nil.
      destruct (quadrantMessages r) as [| m rest] eqn:E; [reflexivity |].
      exfalso.
      assert (Hin : In m (invalidResponses (calculateScores responses))).
      { apply invalidResponses_quadrant, in_flat_map. exists r.
        split; [exact Hr | rewrite E; now left]. }
      rewrite Hnil in Hin. destruct Hin.
    + intros Hall.
      destruct (invalidResponses (calculateScores responses)) as [| m rest] eqn:E;
        [reflexivity |].
      exfalso.
      assert (Hin : In m (invalidResponses (calculateScores responses)))
        by (rewrite E; now left).
      apply invalidResponses_quadrant, in_flat_map in Hin as (r & Hr & Hm).
      rewrite (proj2 (quadrantMessages_nil r) (Hall r Hr)) in Hm. destruct Hm.
  - intros Hnil. unfold calculateScores in *.
    cbn [invalidResponses validResponses totalItems] in *. rewrite Hnil. cbn. lia.
Qed.

Lemma no_invalid_responses_iff_witness :
  invalidResponses
    (calculateScores [mkResponse 1 "always"; mkResponse 15 "never"; mkResponse 86 " RARELY "])
  = [].
Proof.
  apply (proj2 (proj1 (no_invalid_responses_iff
           [mkResponse 1 "always"; mkResponse 15 "never"; mkResponse 86 " RARELY "]))).
  reflexivity.
Defined.

(** X19: throwIfInvalid applied to the result of the completeness check
    returns normally exactly when every section has a counted response,
    no item id occurs twice and no item id is below 1 or above 86;
    otherwise it raises an error that carries the errors of the check,
    at least one, and its warnings. *)
Theorem completeness_then_throwIfInvalid
  (responses : list DataConsistencyValidator.Response) (context : option string) :
  let result := DataConsistencyValidator.validateResponseCompleteness responses in
  let ids := map DataConsistencyValidator.getItemId responses in
  ((exists logged,
      DataConsistencyValidator.throwIfInvalid result context
      = DataConsistencyValidator.Returned logged)
   <-> (forall section, 0 < sectionCount responses section) /\
       NoDup ids /\
       (forall id, In id ids -> num_lt id 1 = false /\ num_gt id 86 = false)) /\
  (forall e,
     DataConsistencyValidator.throwIfInvalid result context
     = DataConsistencyValidator.Raised e ->
     DataConsistencyValidator.expectedValue e = DataConsistencyValidator.errors result /\
     DataConsistencyValidator.errors result <> [] /\
     DataConsistencyValidator.actualValue e = DataConsistencyValidator.warnings result).
Proof.
  cbv zeta.
  destruct (completeness_valid_iff_aux responses) as [Hflag Hiff].
  cbv zeta in Hflag, Hiff. rewrite <- Hiff.
  unfold DataConsistencyValidator.throwIfInvalid.
  destruct (DataConsistencyValidator.isValid
              (DataConsistencyValidator.validateResponseCompleteness responses))
    eqn:Hvalid; cbn [negb].
  - split.
    + split; [reflexivity |]. intros _.
      destruct (0 <? Z.of_nat _); eexists; reflexivity.
    + intros e He. destruct (0 <? Z.of_nat _); discriminate He.
  - split.
    + split; [intros [logged H]; discriminate H | discriminate].
    + intros e He. injection He as <-. cbn. repeat split.
      intros Hnil. apply Hflag in Hnil. discriminate.
Qed.

Lemma completeness_then_throwIfInvalid_witness :
  exists logged,
    DataConsistencyValidator.throwIfInvalid
      (DataConsistencyValidator.validateResponseCompleteness allScoredItems)
      (Some "assessment")
    = DataConsistencyValidator.Returned logged.
Proof.
  apply (proj2 (proj1 (completeness_then_throwIfInvalid allScoredItems (Some "assessment")))).
  apply (proj1 (proj2 (completeness_valid_iff_aux allScoredItems))).
  vm_compute. reflexivity.
Defined.

(** ** Items 15 and 86 *)

Lemma excluded_response_skipped (before after : list RawResponse) (r : RawResponse) :
  validateItemId (itemId r) = true ->
  isExcludedFromScoring (itemId r) = true ->
  calculateSectionScores (before ++ r :: after)
  = calculateSectionScores (before ++ after).
Proof.
  intros Hv He. unfold calculateSectionScores.
  rewrite !fold_left_app. cbn [fold_left].
  now rewrite (sectionCallback_excluded _ r Hv He).
Qed.

Lemma quadrant_response_appended (before : list RawResponse) (z : Z)
  (label : string) (v : Z) (quadrant : QuadrantKey.t) :
  1 <= z <= 86 ->
  own_property responseMap (trim (toLowerCase label)) = Some v ->
  item_lookup quadrantMap (NInt z) = Some quadrant ->
  calculateQuadrantScores (before ++ [mkResponse z label])
  = let result := calculateQuadrantScores before in
    {| quadrant_scores :=
         quadrant_set (quadrant_scores result) quadrant
           (plus (quadrant_get (quadrant_scores result) quadrant) (VNumber v));
       quadrant_invalidResponses := quadrant_invalidResponses result |}.
Proof.
  intros Hz Hown Hq. unfold calculateQuadrantScores.
  rewrite fold_left_app. cbn [fold_left].
  rewrite (quadrantCallback_return _ _ (VNumber v) quadrant);
    [reflexivity | now apply validateItemId_int | | exact Hq].
  now apply mapResponseToValue_recognized.
Qed.

Lemma quadrant_scores_closed_form (responses : list RawResponse) (q : QuadrantKey.t) :
  forallb numericLabel responses = true ->
  quadrant_get (quadrant_scores (calculateQuadrantScores responses)) q
  = VNumber (Zsum (map (quadrantContribution q) responses)).
Proof.
  intros Hall. unfold calculateQuadrantScores. cbn [quadrant_scores].
  rewrite (fold_quadrantCallback_numeric responses _ (fun _ => 0) Hall).
  - reflexivity.
  - intros q'. destruct q'; reflexivity.
Qed.

Lemma quadrant_response_inserted (before after : list RawResponse) (z : Z)
  (label : string) (v : Z) (quadrant q : QuadrantKey.t) :
  1 <= z <= 86 ->
  own_property responseMap (trim (toLowerCase label)) = Some v ->
  item_lookup quadrantMap (NInt z) = Some quadrant ->
  forallb numericLabel (before ++ after) = true ->
  exists n,
    quadrant_get (quadrant_scores (calculateQuadrantScores (before ++ after))) q
    = VNumber n /\
    quadrant_get
      (quadrant_scores (calculateQuadrantScores (before ++ mkResponse z label :: after))) q
    = VNumber (if quadrant_eqb quadrant q then n + v else n).
Proof.
  intros Hz Hown Hq Hall.
  exists (Zsum (map (quadrantContribution q) (before ++ after))).
  split; [now apply quadrant_scores_closed_form |].
  rewrite quadrant_scores_closed_form.
  - rewrite !map_app, !Zsum_app. cbn [map Zsum fold_right].
    fold (Zsum (map (quadrantContribution q) after)).
    f_equal. unfold quadrantContribution at 2. cbn [itemId response mkResponse].
    rewrite (validateItemId_int z Hz), Hq, (proj2 (mappedNumber_own label v) Hown).
    destruct (quadrant_eqb quadrant q); lia.
  - rewrite forallb_app in *. apply andb_prop in Hall as [Hb Ha].
    rewrite Hb. cbn [forallb andb]. rewrite Ha.
    now rewrite (numericLabel_own z label v Hown).
Qed.

(** C4: for a recognized label with value [v] in 1..5, a response to
    item 15 or to item 86 adds nothing to any section score: with it or
    without it, anywhere among any other responses, calculateSectionScores
    returns the same result, and on its own it leaves every section at 0.
    The response to item 15 adds exactly [v] to sensoryAvoidance and
    nothing to the other three quadrants: on its own, appended to any
    responses (through [+=]), and put anywhere among responses whose
    labels are numeric or rejected, where each quadrant score [n]
    becomes [n + v] for sensoryAvoidance and stays [n] for the others. *)
Theorem excluded_items_score_no_section
  (before after : list RawResponse) (label : string) (v : Z) :
  own_property responseMap (trim (toLowerCase label)) = Some v ->
  1 <= v <= 5 ->
  calculateSectionScores (before ++ mkResponse 15 label :: after)
  = calculateSectionScores (before ++ after) /\
  calculateSectionScores (before ++ mkResponse 86 label :: after)
  = calculateSectionScores (before ++ after) /\
  section_scores (calculateSectionScores [mkResponse 15 label]) = zeroSectionScores /\
  section_scores (calculateSectionScores [mkResponse 86 label]) = zeroSectionScores /\
  quadrant_scores (calculateQuadrantScores [mkResponse 15 label]) =
    {| registrationIncreased := VNumber 0;
       sensorySeek := VNumber 0;
       sensorySensitivity := VNumber 0;
       sensoryAvoidance := VNumber v |} /\
  calculateQuadrantScores (before ++ [mkResponse 15 label])
  = (let result := calculateQuadrantScores before in
     {| quadrant_scores :=
          quadrant_set (quadrant_scores result) QuadrantKey.sensoryAvoidance
            (plus (quadrant_get (quadrant_scores result) QuadrantKey.sensoryAvoidance)
               (VNumber v));
        quadrant_invalidResponses := quadrant_invalidResponses result |}) /\
  (forallb numericLabel (before ++ after) = true ->
   forall q, exists n,
     quadrant_get (quadrant_scores (calculateQuadrantScores (before ++ after))) q
     = VNumber n /\
     quadrant_get
       (quadrant_scores
          (calculateQuadrantScores (before ++ mkResponse 15 label :: after))) q
     = VNumber (if quadrant_eqb QuadrantKey.sensoryAvoidance q then n + v else n)).
Proof.
  intros Hown Hv.
  split; [now apply excluded_response_skipped |].
  split; [now apply excluded_response_skipped |].
  split; [exact (f_equal section_scores
                   (excluded_response_skipped [] [] (mkResponse 15 label)
                      eq_refl eq_refl)) |].
  split; [exact (f_equal section_scores
                   (excluded_response_skipped [] [] (mkResponse 86 label)
                      eq_refl eq_refl)) |].
  split.
  { exact (f_equal quadrant_scores
             (quadrant_response_appended [] 15 label v QuadrantKey.sensoryAvoidance
                ltac:(lia) Hown eq_refl)). }
  split.
  { apply quadrant_response_appended; [lia | exact Hown | reflexivity]. }
  intros Hall q.
  apply quadrant_response_inserted; [lia | exact Hown | reflexivity | exact Hall].
Qed.

Lemma excluded_items_score_no_section_witness :
  calculateSectionScores
    ([mkResponse 9 "always"] ++ mkResponse 15 " Quase Sempre" :: [mkResponse 76 "rarely"])
  = calculateSectionScores ([mkResponse 9 "always"] ++ [mkResponse 76 "rarely"]) /\
  calculateSectionScores
    ([mkResponse 9 "always"] ++ mkResponse 86 " Quase Sempre" :: [mkResponse 76 "rarely"])
  = calculateSectionScores ([mkResponse 9 "always"] ++ [mkResponse 76 "rarely"]) /\
  quadrant_get
    (quadrant_scores
       (calculateQuadrantScores ([mkResponse 5 "always"] ++ [mkResponse 76 "rarely"])))
    QuadrantKey.sensoryAvoidance = VNumber 5 /\
  quadrant_get
    (quadrant_scores
       (calculateQuadrantScores
          ([mkResponse 5 "always"] ++ mkResponse 15 " Quase Sempre"
           :: [mkResponse 76 "rarely"])))
    QuadrantKey.sensoryAvoidance = VNumber (5 + 5).
Proof.
  destruct (excluded_items_score_no_section
              [mkResponse 9 "always"] [mkResponse 76 "rarely"] " Quase Sempre" 5
              eq_refl ltac:(lia))
    as (H15 & H86 & _).
  destruct (excluded_items_score_no_section
              [mkResponse 5 "always"] [mkResponse 76 "rarely"] " Quase Sempre" 5
              eq_refl ltac:(lia))
    as (_ & _ & _ & _ & _ & _ & Hquadrant).
  destruct (Hquadrant eq_refl QuadrantKey.sensoryAvoidance) as (n & Hbefore & Hafter).
  assert (Hn : n = 5) by (vm_compute in Hbefore; now injection Hbefore).
  subst n.
  split; [exact H15 |]. split; [exact H86 |]. split; [exact Hbefore | exact Hafter].
Defined.

(** C8: the quadrant map has an entry for item 86, registrationIncreased,
    although the item is excluded from section scoring.  For a recognized
    label with value [v] in 1..5, a response to item 86 adds exactly [v]
    to registrationIncreased and nothing to the other three quadrants: on
    its own, appended to any responses (through [+=]), and put anywhere
    among responses whose labels are numeric or rejected, where each
    quadrant score [n] becomes [n + v] for registrationIncreased and
    stays [n] for the others. *)
Theorem item_86_scores_registrationIncreased
  (before after : list RawResponse) (label : string) (v : Z) :
  own_property responseMap (trim (toLowerCase label)) = Some v ->
  1 <= v <= 5 ->
  item_lookup quadrantMap (NInt 86) = Some QuadrantKey.registrationIncreased /\
  quadrant_scores (calculateQuadrantScores [mkResponse 86 label]) =
    {| registrationIncreased := VNumber v;
       sensorySeek := VNumber 0;
       sensorySensitivity := VNumber 0;
       sensoryAvoidance := VNumber 0 |} /\
  calculateQuadrantScores (before ++ [mkResponse 86 label])
  = (let result := calculateQuadrantScores before in
     {| quadrant_scores :=
          quadrant_set (quadrant_scores result) QuadrantKey.registrationIncreased
            (plus (quadrant_get (quadrant_scores result) QuadrantKey.registrationIncreased)
               (VNumber v));
        quadrant_invalidResponses := quadrant_invalidResponses result |}) /\
  (forallb numericLabel (before ++ after) = true ->
   forall q, exists n,
     quadrant_get (quadrant_scores (calculateQuadrantScores (before ++ after))) q
     = VNumber n /\
     quadrant_get
       (quadrant_scores
          (calculateQuadrantScores (before ++ mkResponse 86 label :: after))) q
     = VNumber (if quadrant_eqb QuadrantKey.registrationIncreased q then n + v else n)).
Proof.
  intros Hown Hv.
  split; [reflexivity |].
  split.
  { exact (f_equal quadrant_scores
             (quadrant_response_appended [] 86 label v QuadrantKey.registrationIncreased
                ltac:(lia) Hown eq_refl)). }
  split.
  { apply quadrant_response_appended; [lia | exact Hown | reflexivity]. }
  intros Hall q.
  apply quadrant_response_inserted; [lia | exact Hown | reflexivity | exact Hall].
Qed.

Lemma item_86_scores_registrationIncreased_witness :
  quadrant_scores (calculateQuadrantScores [mkResponse 86 "RARELY"]) =
    {| registrationIncreased := VNumber 2;
       sensorySeek := VNumber 0;
       sensorySensitivity := VNumber 0;
       sensoryAvoidance := VNumber 0 |} /\
  quadrant_get
    (quadrant_scores
       (calculateQuadrantScores ([mkResponse 8 "always"] ++ [mkResponse 5 "never"])))
    QuadrantKey.registrationIncreased = VNumber 5 /\
  quadrant_get
    (quadrant_scores
       (calculateQuadrantScores
          ([mkResponse 8 "always"] ++ mkResponse 86 "RARELY" :: [mkResponse 5 "never"])))
    QuadrantKey.registrationIncreased = VNumber (5 + 2).
Proof.
  destruct (item_86_scores_registrationIncreased
              [mkResponse 8 "always"] [mkResponse 5 "never"] "RARELY" 2
              eq_refl ltac:(lia))
    as (_ & Halone & _ & Hquadrant).
  destruct (Hquadrant eq_refl QuadrantKey.registrationIncreased)
    as (n & Hbefore & Hafter).
  assert (Hn : n = 5) by (vm_compute in Hbefore; now injection Hbefore).
  subst n.
  split; [exact Halone |]. split; [exact Hbefore | exact Hafter].
Defined.

(** ** validateScores after calculateScores *)

Lemma forall_upto (P : Z -> bool) (n : nat) :
  forallb P (map Z.of_nat (seq 0 n)) = true ->
  forall z, 0 <= z < Z.of_nat n -> P z = true.
Proof.
  intros Hall z Hz. rewrite forallb_forall in Hall. apply Hall.
  apply in_map_iff. exists (Z.to_nat z). split; [lia | apply in_seq; lia].
Qed.

(** Sums of integers as small as the scores of a form are exact. *)
Lemma Number_ofZ_add (a b : Z) :
  0 <= a <= 420 -> 0 <= b <= 70 ->
  (Number.ofZ a + Number.ofZ b)%float = Number.ofZ (a + b).
Proof.
  intros Ha Hb.
  pose (P := fun a =>
               forallb (fun b => Leibniz.eqb (Number.ofZ a + Number.ofZ b)%float
                                   (Number.ofZ (a + b)))
                 (map Z.of_nat (seq 0 71))).
  assert (HP : P a = true)
    by (apply (forall_upto P 421); [vm_compute; reflexivity | lia]).
  pose proof (forall_upto _ 71 HP b ltac:(lia)) as H. cbv beta in H.
  now apply Leibniz.eqb_spec in H.
Qed.

Lemma Number_toString_integer (n : Z) :
  0 <= n <= 420 -> Number.toString (Number.ofZ n) = Z_to_string n.
Proof.
  intros Hn.
  pose (P := fun n => String.eqb (Number.toString (Number.ofZ n)) (Z_to_string n)).
  assert (HP : P n = true)
    by (apply (forall_upto P 421); [vm_compute; reflexivity | lia]).
  now apply String.eqb_eq in HP.
Qed.

Lemma outside_section_integer (section : SectionKey.t) (n : Z) :
  0 <= n <= max (sectionRanges getExpectedScoreRanges section) ->
  outside (sectionRanges getExpectedScoreRanges section) (Score.Num (Number.ofZ n))
  = (n <? min (sectionRanges getExpectedScoreRanges section)).
Proof.
  intros Hn.
  pose (P := fun n =>
               forallb
                 (fun k =>
                    (max (sectionRanges getExpectedScoreRanges k) <? n)
                    || Bool.eqb
                         (outside (sectionRanges getExpectedScoreRanges k)
                            (Score.Num (Number.ofZ n)))
                         (n <? min (sectionRanges getExpectedScoreRanges k)))
                 SectionKey.all).
  assert (HP : P n = true).
  { apply (forall_upto P 71); [vm_compute; reflexivity |].
    destruct section; cbn in Hn; lia. }
  unfold P in HP. rewrite forallb_forall in HP.
  assert (Hin : In section SectionKey.all) by (destruct section; cbn; tauto).
  apply HP in Hin. apply orb_prop in Hin as [Hin | Hin].
  - apply Z.ltb_lt in Hin. lia.
  - now apply eqb_prop in Hin.
Qed.

Lemma outside_total_integer (total : Z) :
  0 <= total <= 420 ->
  outside (totalRange getExpectedScoreRanges) (Score.Num (Number.ofZ total))
  = (total <? 84).
Proof.
  intros Ht.
  pose (P := fun t =>
               Bool.eqb
                 (outside (totalRange getExpectedScoreRanges) (Score.Num (Number.ofZ t)))
                 (t <? 84)).
  assert (HP : P total = true)
    by (apply (forall_upto P 421); [vm_compute; reflexivity | lia]).
  now apply eqb_prop in HP.
Qed.

Lemma sectionTotal_get (s : SectionScores Score.t) :
  sectionTotal s
  = fold_left Score.add (map (section_get s) SectionKey.all) (Score.Num 0).
Proof. reflexivity. Qed.

Lemma scoresRead_section (results : AssessmentResults value) (k : SectionKey.t) :
  section_get (sectionScores (scoresRead results)) k
  = Score.ofValue (section_get (sectionScores results) k).
Proof. destruct k; reflexivity. Qed.

Lemma filter_nil_iff {A : Type} (p : A -> bool) (l : list A) :
  filter p l = [] <-> forall x, In x l -> p x = false.
Proof.
  induction l as [| a rest IH]; cbn [filter In].
  - split; [intros _ x [] | reflexivity].
  - destruct (p a) eqn:Ha.
    + split; [discriminate |]. intros H. rewrite (H a) in Ha by now left. discriminate.
    + rewrite IH. split.
      * intros H x [<- | Hx]; [exact Ha | now apply H].
      * intros H x Hx. apply H. now right.
Qed.

(** X9: for responses whose labels are mapped to numbers or rejected and
    whose item ids are all different, validateScores applied to what
    calculateScores returns warns about a section exactly when its score
    is below the minimum of the section (never because it is above the
    maximum), warns about the total exactly when the sum of the nine
    scores is below 84, and returns no warning exactly when every
    section reaches its minimum. *)
Theorem validateScores_of_calculateScores (responses : list RawResponse) :
  forallb numericLabel responses = true ->
  NoDup (map itemId responses) ->
  let sum := sectionSum responses in
  let total := Zsum (map sum SectionKey.all) in
  validateScores (scoresRead (calculateScores responses))
  = List.app
      (map (fun section =>
              let range := sectionRanges getExpectedScoreRanges section in
              SectionKey.name section ++ " score " ++ Z_to_string (sum section)
              ++ " is outside expected range " ++ Z_to_string (min range)
              ++ "-" ++ Z_to_string (max range))
         (filter (fun section =>
                    sum section <? min (sectionRanges getExpectedScoreRanges section))
            SectionKey.all))
      (if total <? 84
       then ["Total score " ++ Z_to_string total ++ " is outside expected range 84-420"]
       else []) /\
  (validateScores (scoresRead (calculateScores responses)) = []
   <-> forall section,
         min (sectionRanges getExpectedScoreRanges section) <= sum section).
Proof.
  intros Hall Hnodup sum total.
  set (results := scoresRead (calculateScores responses)).
  assert (Hscore : forall k,
             section_get (sectionScores results) k = Score.Num (Number.ofZ (sum k))).
  { intros k. unfold results. rewrite scoresRead_section.
    change (sectionScores (calculateScores responses))
      with (section_scores (calculateSectionScores responses)).
    now rewrite (section_scores_closed_form responses k Hall). }
  assert (Hbound : forall k, 0 <= sum k <= max (sectionRanges getExpectedScoreRanges k)).
  { intros k. pose proof (Zsum_sectionContribution k responses).
    pose proof (distinct_items_in_section k responses Hnodup).
    destruct (sectionRanges_itemCount k) as [_ ->].
    unfold sum, sectionSum. lia. }
  pose proof (Hbound SectionKey.auditoryProcessing) as B1.
  pose proof (Hbound SectionKey.visualProcessing) as B2.
  pose proof (Hbound SectionKey.tactileProcessing) as B3.
  pose proof (Hbound SectionKey.movementProcessing) as B4.
  pose proof (Hbound SectionKey.bodyPositionProcessing) as B5.
  pose proof (Hbound SectionKey.oralSensitivityProcessing) as B6.
  pose proof (Hbound SectionKey.behavioralResponses) as B7.
  pose proof (Hbound SectionKey.socialEmotionalResponses) as B8.
  pose proof (Hbound SectionKey.attentionResponses) as B9.
  cbn [max sectionRanges getExpectedScoreRanges] in B1, B2, B3, B4, B5, B6, B7, B8, B9.
  assert (Etotal : total
                   = 0 + sum SectionKey.auditoryProcessing
                     + sum SectionKey.visualProcessing
                     + sum SectionKey.tactileProcessing
                     + sum SectionKey.movementProcessing
                     + sum SectionKey.bodyPositionProcessing
                     + sum SectionKey.oralSensitivityProcessing
                     + sum SectionKey.behavioralResponses
                     + sum SectionKey.socialEmotionalResponses
                     + sum SectionKey.attentionResponses)
    by (unfold total, SectionKey.all; cbn [map Zsum fold_right]; lia).
  assert (Htotal : sectionTotal (sectionScores results) = Score.Num (Number.ofZ total)).
  { rewrite sectionTotal_get. unfold SectionKey.all. cbn [map fold_left].
    rewrite !Hscore. cbn [Score.add].
    change 0%float with (Number.ofZ 0).
    rewrite !Number_ofZ_add by lia. now rewrite Etotal. }
  assert (Hrange : 0 <= total <= 420) by lia.
  assert (Hwarnings :
            validateScores results
            = List.app
                (map (fun section =>
                        let range := sectionRanges getExpectedScoreRanges section in
                        SectionKey.name section ++ " score " ++ Z_to_string (sum section)
                        ++ " is outside expected range " ++ Z_to_string (min range)
                        ++ "-" ++ Z_to_string (max range))
                   (filter (fun section =>
                              sum section
                              <? min (sectionRanges getExpectedScoreRanges section))
                      SectionKey.all))
                (if total <? 84
                 then ["Total score " ++ Z_to_string total
                       ++ " is outside expected range 84-420"]
                 else [])).
  { rewrite validateScores_closed_form, Htotal.
    rewrite (outside_total_integer total Hrange).
    cbn [Score.toString]. rewrite (Number_toString_integer total Hrange).
    f_equal.
    rewrite (filter_ext _ (fun section =>
                             sum section
                             <? min (sectionRanges getExpectedScoreRanges section))).
    - apply map_ext. intros k. rewrite Hscore, rangeText_section.
      cbn [Score.toString]. rewrite Number_toString_integer; [reflexivity |].
      pose proof (Hbound k) as Hk. destruct k; cbn in Hk; lia.
    - intros k. rewrite Hscore. apply outside_section_integer, Hbound. }
  split; [exact Hwarnings |].
  rewrite Hwarnings. split.
  - intros Hnil. apply app_eq_nil in Hnil as [Hmap _].
    apply map_eq_nil in Hmap. intros section.
    assert (Hin : In section SectionKey.all) by (destruct section; cbn; tauto).
    apply (proj1 (filter_nil_iff _ _) Hmap) in Hin. apply Z.ltb_ge in Hin. exact Hin.
  - intros Hmin.
    assert (Hfilter : filter (fun section =>
                                sum section
                                <? min (sectionRanges getExpectedScoreRanges section))
                        SectionKey.all = []).
    { apply filter_nil_iff. intros section _. apply Z.ltb_ge, Hmin. }
    rewrite Hfilter. cbn [map app].
    pose proof (Hmin SectionKey.auditoryProcessing) as M1.
    pose proof (Hmin SectionKey.visualProcessing) as M2.
    pose proof (Hmin SectionKey.tactileProcessing) as M3.
    pose proof (Hmin SectionKey.movementProcessing) as M4.
    pose proof (Hmin SectionKey.bodyPositionProcessing) as M5.
    pose proof (Hmin SectionKey.oralSensitivityProcessing) as M6.
    pose proof (Hmin SectionKey.behavioralResponses) as M7.
    pose proof (Hmin SectionKey.socialEmotionalResponses) as M8.
    pose proof (Hmin SectionKey.attentionResponses) as M9.
    cbn [min sectionRanges getExpectedScoreRanges] in M1, M2, M3, M4, M5, M6, M7, M8, M9.
    assert (E : (total <? 84) = false) by (apply Z.ltb_ge; lia).
    now rewrite E.
Qed.

Lemma validateScores_of_calculateScores_witness :
  validateScores
    (scoresRead (calculateScores [mkResponse 1 "always"; mkResponse 9 "never"]))
  = [ "auditoryProcessing score 5 is outside expected range 8-40";
      "visualProcessing score 1 is outside expected range 6-30";
      "tactileProcessing score 0 is outside expected range 11-55";
      "movementProcessing score 0 is outside expected range 8-40";
      "bodyPositionProcessing score 0 is outside expected range 8-40";
      "oralSensitivityProcessing score 0 is outside expected range 10-50";
      "behavioralResponses score 0 is outside expected range 9-45";
      "socialEmotionalResponses score 0 is outside expected range 14-70";
      "attentionResponses score 0 is outside expected range 10-50";
      "Total score 6 is outside expected range 84-420" ].
Proof.
  refine (proj1 (validateScores_of_calculateScores
                   [mkResponse 1 "always"; mkResponse 9 "never"] eq_refl _)).
  repeat (constructor; [simpl; intuition discriminate |]). constructor.
Defined.
